(** * lands2hlf: datacard to RooFit factory script

    A shallow embedding of [python/lands2hlf.py] (Python 2).  The script
    reads a counting-experiment datacard line by line, checks its shape,
    and prints a workspace-factory script.  Here the input is the list of
    the file's lines, the two command-line flags are a record, and the
    result of a run is the list of printed statements together with the
    exception that ended the run, if any. *)

From Stdlib Require Import ZArith List String Ascii Bool Lia.
From Stdlib Require Import DecimalString DecimalPos DecimalZ SpecFloat.
Import ListNotations.

#[local] Open Scope string_scope.
#[local] Open Scope Z_scope.

(** ** Exceptions and the error monad *)

(** The exceptions a run can end with.  [RuntimeError] carries the message
    the script builds; the others are raised by the interpreter. *)
Inductive exn : Type :=
| RuntimeError (msg : string)
| NameError (name : string)
| IndexError
| ValueError
| ZeroDivisionError
| OverflowError.

Definition result (A : Type) : Type := (exn + A)%type.

Definition ret {A} (a : A) : result A := inr a.
Definition raise {A} (e : exn) : result A := inl e.
Definition bind {A B} (m : result A) (k : A -> result B) : result B :=
  match m with
  | inl e => inl e
  | inr a => k a
  end.

Declare Scope py_scope.
Delimit Scope py_scope with py.
Notation "x <- m ;; k" := (bind m (fun x => k))
  (at level 61, m at next level, right associativity) : py_scope.
Notation "' p <- m ;; k" := (bind m (fun x => let 'p := x in k))
  (at level 61, p pattern, m at next level, right associativity) : py_scope.
#[local] Open Scope py_scope.

(** A list comprehension whose element expression may raise: elements are
    evaluated left to right and the first exception wins. *)
Fixpoint mapM {A B} (f : A -> result B) (l : list A) : result (list B) :=
  match l with
  | [] => ret []
  | x :: l' => y <- f x ;; ys <- mapM f l' ;; ret (y :: ys)
  end.

(** ** Python built-ins on lists and integers *)

Module Py.

(** [range(lo, hi)] over Python integers. *)
Definition range2 (lo hi : Z) : list Z :=
  map (fun k => lo + Z.of_nat k) (seq 0 (Z.to_nat (hi - lo))).

Definition range (n : Z) : list Z := range2 0 n.

(** [l[i]]: negative indices count from the end, anything outside the
    list raises [IndexError]. *)
Definition getitem {A} (l : list A) (i : Z) : result A :=
  let j := if i <? 0 then i + Z.of_nat (List.length l) else i in
  if j <? 0 then raise IndexError
  else match nth_error l (Z.to_nat j) with
       | Some x => ret x
       | None => raise IndexError
       end.

(** [len(l)] as a Python integer. *)
Definition len {A} (l : list A) : Z := Z.of_nat (List.length l).

(** [enumerate(l)]. *)
Definition enumerate {A} (l : list A) : list (Z * A) :=
  combine (range (len l)) l.

(** [str(n)] and ["%d" % n] for an integer. *)
Definition str (n : Z) : string := NilZero.string_of_int (Z.to_int n).

(** [sep.join(l)]. *)
Definition join (sep : string) (l : list string) : string :=
  String.concat sep l.

(** Characters for which C's [isspace] holds; [str.split()] splits on
    runs of them. *)
Definition isspace (c : ascii) : bool :=
  let n := nat_of_ascii c in
  (Nat.eqb n 32 || (Nat.leb 9 n && Nat.leb n 13))%bool.

(** [s.split()]: the maximal runs of non-blank characters.  [cur] is the
    token being read, reversed. *)
Fixpoint split_aux (s : string) (cur : list ascii) : list string :=
  let flush rest :=
    match cur with
    | [] => rest
    | _ => string_of_list_ascii (rev cur) :: rest
    end in
  match s with
  | EmptyString => flush []
  | String c s' =>
      if isspace c then flush (split_aux s' [])
      else split_aux s' (c :: cur)
  end.

Definition split (s : string) : list string := split_aux s [].

(** [s.startswith(p)]. *)
Definition startswith (s p : string) : bool := String.prefix p s.

Definition isdigit (c : ascii) : bool :=
  let n := nat_of_ascii c in (Nat.leb 48 n && Nat.leb n 57)%bool.

Definition digit_val (c : ascii) : Z := Z.of_nat (nat_of_ascii c) - 48.

(** The value of a string of decimal digits, [None] when a character is
    no digit.  [acc] is the value read so far. *)
Fixpoint digits_val (s : string) (acc : Z) : option Z :=
  match s with
  | EmptyString => Some acc
  | String c s' =>
      if isdigit c then digits_val s' (10 * acc + digit_val c) else None
  end.

(** A non-empty string of digits. *)
Definition nat_literal (s : string) : option Z :=
  match s with
  | EmptyString => None
  | _ => digits_val s 0
  end.

(** [int(s)], base ten, for a token without blanks: an optional sign
    and at least one digit. *)
Definition int (s : string) : result Z :=
  let '(neg, body) :=
    match s with
    | String "-"%char s' => (true, s')
    | String "+"%char s' => (false, s')
    | _ => (false, s)
    end in
  match nat_literal body with
  | Some v => ret (if neg then - v else v)
  | None => raise ValueError
  end.

End Py.

(** ** Python floats

    A Python float is an IEEE 754 binary64 number ([spec_float] with 53
    bits of precision).  Sums use the library's [SFadd]; conversions from
    decimal text and from integers, division, and the [%f] and [%g]
    renderings work on the exact rational value and round once, to
    nearest with ties to even, as CPython's correctly rounded routines
    do. *)

Module PyFloat.

Definition float : Type := spec_float.

Definition prec : Z := 53.
Definition emax : Z := 1024.
Definition emin : Z := 3 - emax - prec.

Definition zero : float := S754_zero false.
Definition one : float := S754_finite false (2 ^ 52) (-52).
Definition ten : float := S754_finite false (5 * 2 ^ 50) (-49).

(** The integer nearest to [N / D], ties to even ([0 <= N], [0 < D]). *)
Definition div_rne (N D : Z) : Z :=
  let q := N / D in
  match 2 * (N mod D) ?= D with
  | Lt => q
  | Eq => if Z.even q then q else q + 1
  | Gt => q + 1
  end.

(** [(N / D) * 2 ^ (- k)] as a fraction of integers. *)
Definition scale_num (N k : Z) : Z := N * 2 ^ Z.max 0 (- k).
Definition scale_den (D k : Z) : Z := D * 2 ^ Z.max 0 k.

(** [floor (log2 (N / D))] for positive [N] and [D]. *)
Definition ilog2_ratio (N D : Z) : Z :=
  let l := Z.log2 N - Z.log2 D in
  if scale_den D l <=? scale_num N l then l else l - 1.

(** The binary64 number nearest to [(-1)^s * N / D]. *)
Definition round_ratio (s : bool) (N D : Z) : float :=
  if N =? 0 then S754_zero s
  else
    let e := Z.max (ilog2_ratio N D - (prec - 1)) emin in
    let m := div_rne (scale_num N e) (scale_den D e) in
    let '(m, e) := if m =? 2 ^ prec then (2 ^ (prec - 1), e + 1) else (m, e) in
    match m with
    | Zpos p => if e <=? emax - prec then S754_finite s p e else S754_infinity s
    | _ => S754_zero s
    end.

(** [float(n)] for an integer [n]. *)
Definition of_int (n : Z) : result float :=
  match round_ratio (n <? 0) (Z.abs n) 1 with
  | S754_infinity _ => raise OverflowError
  | x => ret x
  end.

(** [x / y]. *)
Definition div (x y : float) : result float :=
  match x, y with
  | _, S754_zero _ => raise ZeroDivisionError
  | S754_nan, _ | _, S754_nan => ret S754_nan
  | S754_infinity _, S754_infinity _ => ret S754_nan
  | S754_infinity sx, S754_finite sy _ _ => ret (S754_infinity (xorb sx sy))
  | S754_finite sx _ _, S754_infinity sy => ret (S754_zero (xorb sx sy))
  | S754_zero sx, S754_infinity sy => ret (S754_zero (xorb sx sy))
  | S754_zero sx, S754_finite sy _ _ => ret (S754_zero (xorb sx sy))
  | S754_finite sx mx ex, S754_finite sy my ey =>
      ret (round_ratio (xorb sx sy)
             (Zpos mx * 2 ^ Z.max 0 (ex - ey))
             (Zpos my * 2 ^ Z.max 0 (ey - ex)))
  end.

(** [math.ceil(x)]. *)
Definition ceil (x : float) : float :=
  match x with
  | S754_finite s m e =>
      if 0 <=? e then x
      else
        let d := 2 ^ (- e) in
        let c := if s then Zpos m / d else (Zpos m + d - 1) / d in
        round_ratio s c 1
  | _ => x
  end.

(** [int(x)]: truncation towards zero. *)
Definition to_int (x : float) : result Z :=
  match x with
  | S754_zero _ => ret 0
  | S754_finite s m e =>
      let a := if 0 <=? e then Zpos m * 2 ^ e else Zpos m / 2 ^ (- e) in
      ret (if s then - a else a)
  | S754_infinity _ => raise OverflowError
  | S754_nan => raise ValueError
  end.

Definition add (x y : float) : float := SFadd prec emax x y.

(** [x != y]. *)
Definition ne (x y : float) : bool := negb (SFeqb x y).

(** [sum(l)] for a list of floats.  The sum starts from the integer 0;
    on an empty list Python returns that integer, which [%f] prints as
    it prints the float 0.0. *)
Definition sum (l : list float) : float := fold_left add l zero.

(** *** [float(s)] *)

Definition lower (c : ascii) : ascii :=
  let n := nat_of_ascii c in
  if (Nat.leb 65 n && Nat.leb n 90)%bool then ascii_of_nat (n + 32) else c.

Fixpoint lower_string (s : string) : string :=
  match s with
  | EmptyString => EmptyString
  | String c s' => String (lower c) (lower_string s')
  end.

Definition split_sign (s : string) : bool * string :=
  match s with
  | String "-"%char s' => (true, s')
  | String "+"%char s' => (false, s')
  | _ => (false, s)
  end.

(** The longest prefix of digits, and the rest. *)
Fixpoint span_digits (s : string) : string * string :=
  match s with
  | EmptyString => (EmptyString, EmptyString)
  | String c s' =>
      if Py.isdigit c
      then let '(d, r) := span_digits s' in (String c d, r)
      else (EmptyString, s)
  end.

Definition parse_exponent (s : string) : option Z :=
  match s with
  | EmptyString => Some 0
  | String c s' =>
      if Ascii.eqb (lower c) "e"%char
      then
        let '(neg, d) := split_sign s' in
        match Py.nat_literal d with
        | Some v => Some (if neg then - v else v)
        | None => None
        end
      else None
  end.

(** A decimal literal [d * 10 ^ x], as the pair [(d, x)]. *)
Definition parse_decimal (s : string) : option (Z * Z) :=
  let '(ip, r1) := span_digits s in
  let '(fp, r2) :=
    match r1 with
    | String "."%char r => span_digits r
    | _ => (EmptyString, r1)
    end in
  match (ip ++ fp)%string with
  | EmptyString => None
  | ds =>
      match Py.digits_val ds 0, parse_exponent r2 with
      | Some d, Some x => Some (d, x - Z.of_nat (String.length fp))
      | _, _ => None
      end
  end.

Definition of_string (s : string) : result float :=
  let '(neg, body) := split_sign s in
  let lb := lower_string body in
  if ((lb =? "inf") || (lb =? "infinity"))%string then ret (S754_infinity neg)
  else if (lb =? "nan")%string then ret S754_nan
  else
    match parse_decimal body with
    | Some (d, x) =>
        ret (round_ratio neg (d * 10 ^ Z.max 0 x) (10 ^ Z.max 0 (- x)))
    | None => raise ValueError
    end.

(** *** [%f] and [%g] *)

Fixpoint zeros (n : nat) : string :=
  match n with
  | O => EmptyString
  | S n' => String "0"%char (zeros n')
  end.

(** [s] padded on the left with zeros to [n] characters. *)
Definition pad_left (n : nat) (s : string) : string :=
  (zeros (n - String.length s) ++ s)%string.

Fixpoint strip_zeros_rev (l : list ascii) : list ascii :=
  match l with
  | "0"%char :: l' => strip_zeros_rev l'
  | _ => l
  end.

(** [s] without its trailing zeros. *)
Definition strip_zeros (s : string) : string :=
  string_of_list_ascii (rev (strip_zeros_rev (rev (list_ascii_of_string s)))).

(** A fractional part with its point, nothing when it is empty. *)
Definition with_point (fp : string) : string :=
  match fp with
  | EmptyString => EmptyString
  | _ => ("." ++ fp)%string
  end.

Definition sign_string (s : bool) : string := if s then "-" else "".

(** The exact value [m * 2 ^ e] as a fraction. *)
Definition ratio_of (m : positive) (e : Z) : Z * Z :=
  (Zpos m * 2 ^ Z.max 0 e, 2 ^ Z.max 0 (- e)).

Definition ndigits (n : Z) : Z := Z.of_nat (String.length (Py.str n)).

(** [floor (log10 (N / D))] for positive [N] and [D]. *)
Definition ilog10_ratio (N D : Z) : Z :=
  let k := ndigits N - ndigits D in
  if D * 10 ^ Z.max 0 k <=? N * 10 ^ Z.max 0 (- k) then k else k - 1.

(** [%g] with the default six significant digits, for [N / D > 0]. *)
Definition format_g_ratio (N D : Z) : string :=
  let k := ilog10_ratio N D in
  let d := div_rne (N * 10 ^ Z.max 0 (5 - k)) (D * 10 ^ Z.max 0 (k - 5)) in
  let '(d, k) := if d =? 10 ^ 6 then (10 ^ 5, k + 1) else (d, k) in
  let ds := Py.str d in
  if ((-4 <=? k) && (k <? 6))%bool then
    if 0 <=? k then
      (substring 0 (Z.to_nat (k + 1)) ds
         ++ with_point (strip_zeros (substring (Z.to_nat (k + 1)) (Z.to_nat (5 - k)) ds)))%string
    else
      ("0" ++ with_point (strip_zeros (zeros (Z.to_nat (- k - 1)) ++ ds)))%string
  else
    (substring 0 1 ds ++ with_point (strip_zeros (substring 1 5 ds))
       ++ "e" ++ (if (k <? 0)%Z then "-" else "+") ++ pad_left 2 (Py.str (Z.abs k)))%string.

(** ["%g" % x]. *)
Definition format_g (x : float) : string :=
  match x with
  | S754_nan => "nan"
  | S754_infinity s => (sign_string s ++ "inf")%string
  | S754_zero s => (sign_string s ++ "0")%string
  | S754_finite s m e =>
      let '(N, D) := ratio_of m e in (sign_string s ++ format_g_ratio N D)%string
  end.

(** ["%f" % x]: six decimals; Python 2 switches to [%g] from 1e50 on. *)
Definition format_f (x : float) : string :=
  match x with
  | S754_nan => "nan"
  | S754_infinity s => (sign_string s ++ "inf")%string
  | S754_zero s => (sign_string s ++ "0.000000")%string
  | S754_finite s m e =>
      let '(N, D) := ratio_of m e in
      if D * 10 ^ 50 <=? N then (sign_string s ++ format_g_ratio N D)%string
      else
        let i := div_rne (N * 10 ^ 6) D in
        (sign_string s ++ Py.str (i / 10 ^ 6) ++ "."
           ++ pad_left 6 (Py.str (i mod 10 ^ 6)))%string
  end.

End PyFloat.

(** The literal of a float, for the examples. *)
Definition flt (s : string) : PyFloat.float :=
  match PyFloat.of_string s with
  | inr x => x
  | inl _ => S754_nan
  end.

(** ** The model description and the parser *)

Record options : Type := { stat : bool; asimov : bool }.

(** The script's global variables after line 17. *)
Record model : Type := {
  bins : Z;
  processes : Z;
  nuisances : Z;
  obs : list PyFloat.float;
  exp : list (list PyFloat.float);
  systs : list (list (list PyFloat.float))
}.

Definition initial : model :=
  {| bins := 1; processes := 1; nuisances := 0; obs := []; exp := []; systs := [] |}.

Definition set_bins (st : model) (v : Z) : model :=
  {| bins := v; processes := processes st; nuisances := nuisances st;
     obs := obs st; exp := exp st; systs := systs st |}.
Definition set_processes (st : model) (v : Z) : model :=
  {| bins := bins st; processes := v; nuisances := nuisances st;
     obs := obs st; exp := exp st; systs := systs st |}.
Definition set_nuisances (st : model) (v : Z) : model :=
  {| bins := bins st; processes := processes st; nuisances := v;
     obs := obs st; exp := exp st; systs := systs st |}.
Definition set_obs (st : model) (v : list PyFloat.float) : model :=
  {| bins := bins st; processes := processes st; nuisances := nuisances st;
     obs := v; exp := exp st; systs := systs st |}.
Definition set_exp (st : model) (v : list (list PyFloat.float)) : model :=
  {| bins := bins st; processes := processes st; nuisances := nuisances st;
     obs := obs st; exp := v; systs := systs st |}.
Definition set_systs (st : model) (v : list (list (list PyFloat.float))) : model :=
  {| bins := bins st; processes := processes st; nuisances := nuisances st;
     obs := obs st; exp := exp st; systs := v |}.

(** A [for] loop whose body may raise. *)
Fixpoint iterM {A} (body : A -> result unit) (l : list A) : result unit :=
  match l with
  | [] => ret tt
  | x :: l' => _ <- body x ;; iterM body l'
  end.

(** A [for] loop that updates variables, with a body that may raise. *)
Fixpoint foldM {A S} (body : S -> A -> result S) (l : list A) (s : S) : result S :=
  match l with
  | [] => ret s
  | x :: l' => s' <- body s x ;; foldM body l' s'
  end.

Module Parser.

(** The [" ... = %d*%d" % (n, bins, processes)] tail of three messages. *)
Definition shape_msg (head : string) (n b p : Z) : string :=
  (head ++ Py.str n ++ ", while bins*processes = " ++ Py.str b ++ "*" ++ Py.str p)%string.

(** Line 30, for one cell of the [bin] row.  The message is built from
    the name [line], which the script never binds. *)
Definition check_bin_cell (processes : Z) (ix : Z * string) : result unit :=
  let '(i, x) := ix in
  q <- (if processes =? 0 then raise ZeroDivisionError else ret (i / processes)) ;;
  if negb (x =? Py.str (q + 1))%string then raise (NameError "line") else ret tt.

(** [[float(f[off+(b*processes + p)]) for p in range(processes)]], for
    each [b] in [range(bins)]: lines 35-36 and 46-47. *)
Definition read_rows (f : list string) (off bins processes : Z)
  : result (list (list PyFloat.float)) :=
  mapM (fun b =>
          mapM (fun p => s <- Py.getitem f (off + (b * processes + p)) ;;
                         PyFloat.of_string s)
               (Py.range processes))
       (Py.range bins).

(** The body of the first loop, lines 19-37, on the fields [f] of a
    line.  The flag says whether the loop is left ([break]). *)
Definition header_line (st : model) (f : list string) : result (model * bool) :=
  match f with
  | [] => ret (st, false)
  | key :: _ =>
      st <- (if (key =? "imax")%string
             then s <- Py.getitem f 1 ;; v <- Py.int s ;; ret (set_bins st v)
             else ret st) ;;
      st <- (if (key =? "jmax")%string
             then s <- Py.getitem f 1 ;; v <- Py.int s ;; ret (set_processes st (v + 1))
             else ret st) ;;
      st <- (if (key =? "kmax")%string
             then s <- Py.getitem f 1 ;; v <- Py.int s ;; ret (set_nuisances st v)
             else ret st) ;;
      st <- (if (key =? "Observation")%string
             then
               o <- mapM PyFloat.of_string (tl f) ;;
               if negb (Py.len o =? bins st)
               then raise (RuntimeError
                             ("Found " ++ Py.str (Py.len o) ++ " observations but "
                                ++ Py.str (bins st) ++ " bins"))
               else ret (set_obs st o)
             else ret st) ;;
      _ <- (if (key =? "bin")%string
            then
              if negb (Py.len (tl f) =? bins st * processes st)
              then raise (RuntimeError
                            (shape_msg "Malformed bin line: len "
                               (Py.len (tl f)) (bins st) (processes st)))
              else iterM (check_bin_cell (processes st)) (Py.enumerate (tl f))
            else ret tt) ;;
      _ <- (if (key =? "process")%string
            then
              if Py.len (tl f) <? bins st * processes st
              then raise (RuntimeError
                            (shape_msg "Malformed process line: len "
                               (Py.len (tl f)) (bins st) (processes st)))
              else ret tt
            else ret tt) ;;
      if (key =? "rate")%string
      then
        if Py.len (tl f) <? bins st * processes st
        then raise (RuntimeError
                      (shape_msg "Malformed rate line: "
                         (Py.len (tl f)) (bins st) (processes st)))
        else
          rows <- read_rows f 1 (bins st) (processes st) ;;
          ret (set_exp st (exp st ++ rows)%list, true)
      else ret (st, false)
  end.

(** The first loop over the file: it stops after the [rate] line and
    leaves the later lines unread. *)
Fixpoint first_pass (st : model) (lines : list string)
  : result (model * list string) :=
  match lines with
  | [] => ret (st, [])
  | l :: rest =>
      '(st', brk) <- header_line st (Py.split l) ;;
      if brk : bool then ret (st', rest) else first_pass st' rest
  end.

(** Lines 41-48, on the fields [f] of a row of the systematics table. *)
Definition syst_fields (st : model) (f : list string) : result model :=
  s0 <- Py.getitem f 0 ;;
  isyst <- Py.int s0 ;;
  pdf <- Py.getitem f 1 ;;
  if negb (isyst =? Py.len (systs st) + 1)
  then raise (RuntimeError ("Unexpected systematic " ++ Py.str isyst))
  else if negb (pdf =? "lnN")%string
  then raise (RuntimeError ("Unsupported pdf " ++ pdf))
  else if Py.len (tl f) <? bins st * processes st
  then raise (RuntimeError
                (shape_msg "Malformed rate line: "
                   (Py.len (tl f)) (bins st) (processes st)))
  else
    errline <- read_rows f 2 (bins st) (processes st) ;;
    ret (set_systs st (systs st ++ [errline])%list).

(** The body of the second loop, lines 39-48. *)
Definition syst_line (st : model) (l : string) : result model :=
  if Py.startswith l "--" then ret st else syst_fields st (Py.split l).

Definition second_pass (st : model) (lines : list string) : result model :=
  foldM syst_line lines st.

(** Lines 13-48. *)
Definition parse (lines : list string) : result model :=
  '(st, rest) <- first_pass initial lines ;;
  second_pass st rest.

(** Lines 50-52. *)
Definition apply_stat (o : options) (st : model) : model :=
  if stat o then set_systs (set_nuisances st 0) [] else st.

(** Lines 54-55. *)
Definition apply_asimov (o : options) (st : model) : model :=
  if asimov o then set_obs st (map (fun r => PyFloat.sum (tl r)) (exp st)) else st.

(** Line 57. *)
Definition check_systs (st : model) : result unit :=
  if negb (Py.len (systs st) =? nuisances st)
  then raise (RuntimeError
                ("Found " ++ Py.str (Py.len (systs st)) ++ " systematics, expected "
                   ++ Py.str (nuisances st)))
  else ret tt.

(** Lines 13-57: the model the generator works on. *)
Definition load (o : options) (lines : list string) : result model :=
  st <- parse lines ;;
  let st := apply_asimov o (apply_stat o st) in
  _ <- check_systs st ;;
  ret st.

End Parser.

(** ** The generator *)

(** What a piece of the script printed, one string per [print] statement,
    and the exception that stopped it, if any. *)
Definition output : Type := (list string * option exn)%type.

Definition emit (s : string) : output := ([s], None).
Definition fail (e : exn) : output := ([], Some e).
Definition skip : output := ([], None).

(** Sequential composition: what follows a raised exception does not run. *)
Definition andThen (a b : output) : output :=
  match a with
  | (o, Some e) => (o, Some e)
  | (o, None) => ((o ++ fst b)%list, snd b)
  end.

Notation "a >> b" := (andThen a b) (at level 62, right associativity) : py_scope.

(** Evaluate an expression that may raise, then go on. *)
Definition eval {A} (m : result A) (k : A -> output) : output :=
  match m with
  | inl e => fail e
  | inr a => k a
  end.

Fixpoint for_each {A} (l : list A) (body : A -> output) : output :=
  match l with
  | [] => skip
  | x :: l' => body x >> for_each l' body
  end.

Module Gen.

Definition N_OBS_MAX : Z := 10000.
Definition ROOFIT_EXPR : string := "expr".

Definition nl : string := String (ascii_of_nat 10) EmptyString.

(** [print a, b, c]: the items separated by single blanks. *)
Definition print (items : list string) : output := emit (Py.join " " items).

(** The symbol names, each a [%d] format of the script. *)
Definition n_obs_bin (b : Z) : string := "n_obs_bin" ++ Py.str b.
Definition n_exp_bin_proc (b p : Z) : string :=
  "n_exp_bin" ++ Py.str b ++ "_proc" ++ Py.str p.
Definition theta (n : Z) : string := "theta_" ++ Py.str n.
Definition thetaPdf (n : Z) : string := "thetaPdf_" ++ Py.str n.
Definition pdf_bin (b : Z) : string := "pdf_bin" ++ Py.str b.
Definition pdf_bin_bonly (b : Z) : string := "pdf_bin" ++ Py.str b ++ "_bonly".

(** Lines 60-66. *)
Definition observables (st : model) : output :=
  (if negb (Py.len (obs st) =? 0)
   then
     print ["/// ----- observables (already set to asimov values) -----"] >>
     for_each (Py.range (bins st)) (fun b =>
       eval (Py.getitem (obs st) b) (fun v =>
         print ["n_obs_bin" ++ Py.str b ++ "[" ++ PyFloat.format_f v ++ ",0,"
                  ++ Py.str N_OBS_MAX ++ "];"]))
   else
     print ["/// ----- observables -----"] >>
     for_each (Py.range (bins st)) (fun b =>
       print ["n_obs_bin" ++ Py.str b ++ "[0," ++ Py.str N_OBS_MAX ++ "];"])) >>
  print ["observables = set("; Py.join "," (map n_obs_bin (Py.range (bins st))); ");"].

(** Lines 68-74. *)
Definition poi : output :=
  print [nl ++ "/// ----- parameters of interest -----" ++ nl
            ++ "// signal strenght" ++ nl
            ++ "r[0,20];" ++ nl
            ++ "// set of all paramers of interest" ++ nl
            ++ "POI = set(r);" ++ nl].

(** Lines 76-80. *)
Definition nuisance_block (st : model) : output :=
  if negb (nuisances st =? 0)
  then
    print ["/// ----- nuisances -----"] >>
    for_each (Py.range (nuisances st)) (fun n =>
      print ["thetaPdf_" ++ Py.str n ++ " = Gaussian(theta_" ++ Py.str n ++ "[-5,5], 0, 1);"]) >>
    print ["nuisances   =  set("; Py.join "," (map theta (Py.range (nuisances st))); ");"] >>
    print ["nuisancePdf = PROD("; Py.join "," (map thetaPdf (Py.range (nuisances st))); ");"]
  else skip.

(** One round of the loop of lines 86-89 on the pair [(strexpr, args)]. *)
Definition nuisance_term (st : model) (b p : Z) (acc : string * string) (n : Z)
  : result (string * string) :=
  let '(strexpr, args) := acc in
  sn <- Py.getitem (systs st) n ;;
  sb <- Py.getitem sn b ;;
  v <- Py.getitem sb p ;;
  if PyFloat.ne v PyFloat.one
  then ret (strexpr ++ " * pow(" ++ PyFloat.format_f v ++ ",theta_" ++ Py.str n ++ ")",
            args ++ ", theta_" ++ Py.str n)
  else ret (strexpr, args).

(** Lines 85-93: the statement for process [p] of bin [b]. *)
Definition process_yield (st : model) (b p : Z) : output :=
  eval (row <- Py.getitem (exp st) b ;; Py.getitem row p) (fun rate =>
  eval (foldM (nuisance_term st b p) (Py.range (nuisances st))
              (PyFloat.format_g rate ++ " ", "")) (fun '(strexpr, args) =>
    if negb (args =? "")%string
    then print [n_exp_bin_proc b p ++ " = " ++ ROOFIT_EXPR ++ "('" ++ strexpr ++ "'"
                  ++ args ++ ");"]
    else print [n_exp_bin_proc b p ++ "[" ++ PyFloat.format_g rate ++ "];"])).

(** Lines 94-99: the two totals of bin [b]. *)
Definition bin_totals (st : model) (b : Z) : output :=
  let expr_sb := Py.join "+" (map (n_exp_bin_proc b) (Py.range2 0 (processes st))) in
  let expr_b := Py.join "+" (map (n_exp_bin_proc b) (Py.range2 1 (processes st))) in
  let args_sb := Py.join "," (map (n_exp_bin_proc b) (Py.range2 0 (processes st))) in
  let args_b := Py.join "," (map (n_exp_bin_proc b) (Py.range2 1 (processes st))) in
  print ["n_exp_bin" ++ Py.str b ++ "       = " ++ ROOFIT_EXPR ++ "('r*" ++ expr_sb
           ++ "',r, " ++ args_sb ++ ");"] >>
  print ["n_exp_bin" ++ Py.str b ++ "_bonly = " ++ ROOFIT_EXPR ++ "('  " ++ expr_b
           ++ "',   " ++ args_b ++ ");"].

(** Lines 82-99. *)
Definition expected (st : model) : output :=
  print ["/// --- Expected events in each bin, for each process ----"] >>
  for_each (Py.range (bins st)) (fun b =>
    for_each (Py.range (processes st)) (process_yield st b) >>
    bin_totals st b).

(** Lines 101-104. *)
Definition poissons (st : model) : output :=
  print ["/// --- Expected events in each bin, total (S+B and B) ----"] >>
  for_each (Py.range (bins st)) (fun b =>
    print ["pdf_bin" ++ Py.str b ++ "       = Poisson(n_obs_bin" ++ Py.str b
             ++ ", n_exp_bin" ++ Py.str b ++ ");"] >>
    print ["pdf_bin" ++ Py.str b ++ "_bonly = Poisson(n_obs_bin" ++ Py.str b
             ++ ", n_exp_bin" ++ Py.str b ++ "_bonly);"]).

(** Lines 106-107. *)
Definition prefix_of (st : model) : string :=
  if nuisances st =? 0 then "model" else "modelObs".

(** Line 110: [int(ceil(bins/10.))]. *)
Definition nblocks (bins : Z) : result Z :=
  x <- PyFloat.of_int bins ;;
  q <- PyFloat.div x PyFloat.ten ;;
  PyFloat.to_int (PyFloat.ceil q).

(** Lines 112-113: the two products of block [i]. *)
Definition block (prefix : string) (bins i : Z) : output :=
  print [prefix ++ ("_s_" ++ Py.str i ++ " = PROD(");
         Py.join "," (map pdf_bin (Py.range2 (10 * i) (Z.min bins (10 * i + 10))));
         ");"] >>
  print [prefix ++ ("_b_" ++ Py.str i ++ " = PROD(");
         Py.join "," (map pdf_bin_bonly (Py.range2 (10 * i) (Z.min bins (10 * i + 10))));
         ");"].

(** Lines 108-118. *)
Definition aggregate (prefix : string) (bins : Z) : output :=
  if 50 <? bins
  then
    eval (nblocks bins) (fun nblocks =>
      for_each (Py.range nblocks) (block prefix bins) >>
      print [prefix ++ "_s = PROD(";
             Py.join "," (map (fun b => prefix ++ "_s_" ++ Py.str b) (Py.range nblocks));
             ");"] >>
      print [prefix ++ "_b = PROD(";
             Py.join "," (map (fun b => prefix ++ "_b_" ++ Py.str b) (Py.range nblocks));
             ");"])
  else
    print [prefix ++ "_s = PROD({";
           Py.join "," (map pdf_bin (Py.range (Z.min 50 bins)));
           "});"] >>
    print [prefix ++ "_b = PROD({";
           Py.join "," (map pdf_bin_bonly (Py.range (Z.min 50 bins)));
           "});"].

(** Lines 120-122. *)
Definition fold_nuisances (st : model) : output :=
  if negb (nuisances st =? 0)
  then
    print ["model_s = PROD(modelObs_s, nuisancePdf);"] >>
    print ["model_b = PROD(modelObs_b, nuisancePdf);"]
  else skip.

(** Lines 60-122. *)
Definition generate (st : model) : output :=
  observables st >> poi >> nuisance_block st >> expected st >> poissons st >>
  aggregate (prefix_of st) (bins st) >> fold_nuisances st.

End Gen.

(** The whole script on the lines of the datacard. *)
Definition run (o : options) (lines : list string) : output :=
  eval (Parser.load o lines) Gen.generate.

(** ** Formulas of the factory language

    The first argument of [expr('...', args)] is an arithmetic formula over
    the argument names.  Its meaning here is the usual one: [*] binds
    tighter than [+], and parentheses group. *)

Module Formula.

Inductive token : Type :=
| TId (name : string)
| TPlus
| TStar
| TLpar
| TRpar.

Definition isident (c : ascii) : bool :=
  let n := nat_of_ascii c in
  (Py.isdigit c || (Nat.leb 65 n && Nat.leb n 90) || (Nat.leb 97 n && Nat.leb n 122)
   || Nat.eqb n 95)%bool.

(** [cur] is the identifier being read, reversed. *)
Fixpoint tokenize_aux (s : string) (cur : list ascii) : option (list token) :=
  let flush rest :=
    match cur with
    | [] => rest
    | _ => TId (string_of_list_ascii (rev cur)) :: rest
    end in
  match s with
  | EmptyString => Some (flush [])
  | String c s' =>
      if isident c then tokenize_aux s' (c :: cur)
      else
        let sym :=
          match c with
          | "+"%char => Some [TPlus]
          | "*"%char => Some [TStar]
          | "("%char => Some [TLpar]
          | ")"%char => Some [TRpar]
          | " "%char => Some []
          | _ => None
          end in
        match sym, tokenize_aux s' [] with
        | Some t, Some rest => Some (flush (t ++ rest)%list)
        | _, _ => None
        end
  end.

Definition tokenize (s : string) : option (list token) := tokenize_aux s [].

Section Eval.

Variable env : string -> option Z.

Fixpoint sum_ (fuel : nat) (ts : list token) : option (Z * list token) :=
  match fuel with
  | O => None
  | S fuel' =>
      match prod_ fuel' ts with
      | Some (v, TPlus :: r) =>
          match sum_ fuel' r with
          | Some (w, r') => Some (v + w, r')
          | None => None
          end
      | other => other
      end
  end
with prod_ (fuel : nat) (ts : list token) : option (Z * list token) :=
  match fuel with
  | O => None
  | S fuel' =>
      match atom_ fuel' ts with
      | Some (v, TStar :: r) =>
          match prod_ fuel' r with
          | Some (w, r') => Some (v * w, r')
          | None => None
          end
      | other => other
      end
  end
with atom_ (fuel : nat) (ts : list token) : option (Z * list token) :=
  match fuel with
  | O => None
  | S fuel' =>
      match ts with
      | TId x :: r =>
          match env x with
          | Some v => Some (v, r)
          | None => None
          end
      | TLpar :: r =>
          match sum_ fuel' r with
          | Some (v, TRpar :: r') => Some (v, r')
          | _ => None
          end
      | _ => None
      end
  end.

(** The value of a formula, [None] when it is ill-formed or names an
    unbound variable. *)
Definition value (s : string) : option Z :=
  match tokenize s with
  | Some ts =>
      match sum_ (3 * List.length ts + 3) ts with
      | Some (v, []) => Some v
      | _ => None
      end
  | None => None
  end.

End Eval.

(** The text between the first two quote marks of a statement. *)
Fixpoint until_quote (s : string) : option string :=
  match s with
  | EmptyString => None
  | String c s' =>
      if Ascii.eqb c "'"%char then Some EmptyString
      else match until_quote s' with
           | Some r => Some (String c r)
           | None => None
           end
  end.

Fixpoint quoted (s : string) : option string :=
  match s with
  | EmptyString => None
  | String c s' => if Ascii.eqb c "'"%char then until_quote s' else quoted s'
  end.

(** An environment from a list of bindings. *)
Fixpoint lookup (bs : list (string * Z)) (x : string) : option Z :=
  match bs with
  | [] => None
  | (y, v) :: bs' => if (x =? y)%string then Some v else lookup bs' x
  end.

End Formula.

(** ** Reading a printed script *)

(** The statement that declares symbol [name] in a printed script. *)
Definition statement_of (name : string) (out : list string) : option string :=
  find (fun s => (String.prefix (name ++ " ") s || String.prefix (name ++ "[") s)%bool) out.

(** The formula of the statement that declares [name]. *)
Definition formula_of (name : string) (out : list string) : option string :=
  match statement_of name out with
  | Some s => Formula.quoted s
  | None => None
  end.

(** The value of that formula under [env]. *)
Definition value_of (name : string) (out : list string) (env : string -> option Z)
  : option Z :=
  match formula_of name out with
  | Some f => Formula.value env f
  | None => None
  end.

(** ** Notions about datacards and models *)

(** The first fields the first loop reacts to. *)
Definition keywords : list string :=
  ["imax"; "jmax"; "kmax"; "Observation"; "bin"; "process"; "rate"].

(** The first field of a line. *)
Definition key_of (l : string) : option string := hd_error (Py.split l).

(** No line of [lines] starts with the field [k]. *)
Definition absent (k : string) (lines : list string) : Prop :=
  Forall (fun l => key_of l <> Some k) lines.

(** The variables after the first loop has read [lines], when none of
    them raised and none was the [rate] line. *)
Fixpoint headers_read (st : model) (lines : list string) : option model :=
  match lines with
  | [] => Some st
  | l :: rest =>
      match Parser.header_line st (Py.split l) with
      | inr (st', false) => headers_read st' rest
      | _ => None
      end
  end.

(** A table of [b] rows of [p] numbers each. *)
Definition shaped (b p : Z) (rows : list (list PyFloat.float)) : Prop :=
  List.length rows = Z.to_nat b /\ Forall (fun r => List.length r = Z.to_nat p) rows.

(** ** The statement of a per-process yield, as the specification words it *)

(** [systs[n][b][p]]. *)
Definition scale_at (st : model) (n b p : Z) : result PyFloat.float :=
  sn <- Py.getitem (systs st) n ;;
  sb <- Py.getitem sn b ;;
  Py.getitem sb p.

(** [exp[b][p]]. *)
Definition rate_at (st : model) (b p : Z) : result PyFloat.float :=
  row <- Py.getitem (exp st) b ;; Py.getitem row p.

(** The nuisance [n] with its factor, when the factor at [(b, p)] is not
    1.0. *)
Definition acting_one (st : model) (b p n : Z) : list (Z * PyFloat.float) :=
  match scale_at st n b p with
  | inr v => if PyFloat.ne v PyFloat.one then [(n, v)] else []
  | inl _ => []
  end.

(** The nuisances that act on process [p] of bin [b], in increasing
    order. *)
Definition acting (st : model) (b p : Z) : list (Z * PyFloat.float) :=
  flat_map (acting_one st b p) (Py.range (nuisances st)).

Definition pow_term (t : Z * PyFloat.float) : string :=
  " * pow(" ++ PyFloat.format_f (snd t) ++ ",theta_" ++ Py.str (fst t) ++ ")".

Definition arg_term (t : Z * PyFloat.float) : string := ", " ++ Gen.theta (fst t).

(** A fixed-value symbol when no nuisance acts, else an expression with
    one power term and one argument for each nuisance that does. *)
Definition yield_statement (b p : Z) (rate : PyFloat.float)
    (terms : list (Z * PyFloat.float)) : string :=
  match terms with
  | [] => Gen.n_exp_bin_proc b p ++ "[" ++ PyFloat.format_g rate ++ "];"
  | _ =>
      Gen.n_exp_bin_proc b p ++ " = expr('" ++ PyFloat.format_g rate ++ " "
        ++ String.concat "" (map pow_term terms) ++ "'"
        ++ String.concat "" (map arg_term terms) ++ ");"
  end.

(** ** The aggregation, as the specification words it *)

(** The bins of block [i]: ten consecutive bins from [10 * i], fewer in
    the last block. *)
Definition block_bins (bins i : Z) : list Z :=
  Py.range2 (10 * i) (Z.min bins (10 * i + 10)).

(** [name = PROD( f1,f2,... );], the product of a block or of the blocks. *)
Definition product_of (name : string) (factors : list string) : string :=
  name ++ " = PROD( " ++ Py.join "," factors ++ " );".

(** [name = PROD({ f1,f2,... });], the direct product. *)
Definition direct_product_of (name : string) (factors : list string) : string :=
  name ++ " = PROD({ " ++ Py.join "," factors ++ " });".

(** The two products of block [i], signal-plus-background first. *)
Definition block_statements (prefix : string) (bins i : Z) : list string :=
  [product_of (prefix ++ "_s_" ++ Py.str i) (map Gen.pdf_bin (block_bins bins i));
   product_of (prefix ++ "_b_" ++ Py.str i) (map Gen.pdf_bin_bonly (block_bins bins i))].

(** The two statements that combine [n] blocks. *)
Definition combined_statements (prefix : string) (n : Z) : list string :=
  [product_of (prefix ++ "_s") (map (fun i => prefix ++ "_s_" ++ Py.str i) (Py.range n));
   product_of (prefix ++ "_b") (map (fun i => prefix ++ "_b_" ++ Py.str i) (Py.range n))].


(** ** Datacards and option settings used below *)

(** A line of a file: the text and the newline that ends it. *)
Definition ln (s : string) : string := s ++ Gen.nl.

Definition no_options : options := {| stat := false; asimov := false |}.

Definition asimov_only : options := {| stat := false; asimov := true |}.

Definition stat_only : options := {| stat := true; asimov := false |}.

(** One bin, a signal and one background, rates 10 and 5, no systematics
    and no observation. *)
Definition card_two_processes : list string :=
  map ln ["imax 1"; "jmax 1"; "kmax 0"; "bin 1 1"; "process 0 1"; "rate 10 5"].

(** The values bound to the three arguments of [n_exp_bin0]. *)
Definition bin0_env (r s b : Z) : string -> option Z :=
  Formula.lookup [("r", r); ("n_exp_bin0_proc0", s); ("n_exp_bin0_proc1", b)].

(** A datacard with none of the three header lines. *)
Definition card_rate_only : list string := [ln "rate 7"].

(** A datacard that declares one systematic and has no row for it. *)
Definition card_missing_systematic : list string :=
  map ln ["imax 1"; "jmax 1"; "kmax 1"; "bin 1 1"; "process 0 1"; "rate 10 5"].

(** A [bin] row whose second cell names bin 2 of a single bin. *)
Definition card_bad_bin_row : list string :=
  map ln ["imax 1"; "jmax 1"; "kmax 0"; "bin 1 2"; "process 0 1"; "rate 10 5"].

(** One systematic whose row has one scale factor for two processes. *)
Definition card_short_row : list string :=
  map ln ["imax 1"; "jmax 1"; "kmax 1"; "bin 1 1"; "process 0 1"; "rate 10 5";
          "1 lnN 1.1"].

(** A datacard whose [Observation] line comes before its [imax] line. *)
Definition card_observation_first : list string :=
  map ln ["Observation 7"; "imax 2"; "rate 1 2"].

(** Two bins declared, three observations given. *)
Definition card_three_observations : list string :=
  map ln ["imax 2"; "jmax 1"; "kmax 0"; "Observation 3 4 5"; "bin 1 1 2 2";
          "process 0 1 0 1"; "rate 10 5 8 4"].

(** A datacard with two systematics: the first acts on the signal only,
    the second on the background only. *)
Definition card_two_systematics : list string :=
  map ln ["imax 1"; "jmax 1"; "kmax 2"; "Observation 3"; "bin 1 1"; "process 0 1";
          "rate 10.5 5"; "--------"; "1 lnN 1.1 1.0"; "2 lnN 1.0 1.3"].

(** The model that datacard is read into. *)
Definition card_two_systematics_model : model :=
  {| bins := 1; processes := 2; nuisances := 2; obs := [flt "3"];
     exp := [[flt "10.5"; flt "5"]];
     systs := [[[flt "1.1"; flt "1.0"]]; [[flt "1.0"; flt "1.3"]]] |}.

(** ** Notions for the further properties *)

(** The rows of the systematics table: the lines the second loop does
    not skip. *)
Definition is_row (l : string) : bool := negb (Py.startswith l "--").

Definition rows_of (lines : list string) : list string := filter is_row lines.

(** A row of the table whose first field is the index [k] and whose
    second field is the log-normal tag. *)
Definition numbered_row (l : string) (k : Z) : Prop :=
  exists idx rest, Py.split l = idx :: "lnN" :: rest /\ Py.int idx = inr k.


(** The second loop comes to the line [l] with the variables [st1]: the
    first loop ended on a [rate] row, and the lines between that row and
    [l] raised nothing. *)
Definition reaches_row (lines : list string) (l : string) (st1 : model) : Prop :=
  exists st pre post,
    Parser.first_pass initial lines = inr (st, (pre ++ l :: post)%list)
    /\ Parser.second_pass st pre = inr st1.

(** A line the first loop has no case for: an empty one, or one whose
    first field is none of the keywords. *)
Definition unknown (l : string) : Prop :=
  forall k, In k keywords -> key_of l <> Some k.

(** The two conditions under which the generator comes to its end: the
    observations, when there are any, are no fewer than the bins; and the
    table of expected yields is there, unless no bin or no process would
    read it. *)
Definition completes (st : model) : bool :=
  ((Py.len (obs st) =? 0) || (bins st <=? Py.len (obs st)))
  && (negb (Py.len (exp st) =? 0) || (bins st <=? 0) || (processes st <=? 0)).

(** Two bins and two processes declared, no [rate] row. *)
Definition card_no_rate_row : list string := map ln ["imax 2"; "jmax 1"; "kmax 0"].

(** Two bins of a signal and two backgrounds. *)
Definition card_three_processes : list string :=
  map ln ["imax 2"; "jmax 2"; "kmax 0"; "bin 1 1 1 2 2 2"; "process 0 1 2 0 1 2";
          "rate 10 5 8 1.5 0.1 0.2"].

(** * Properties *)

(** ** Checks of the built-ins on concrete values *)

Example split_line : Py.split ("imax 1  number of channels" ++ String (ascii_of_nat 10) "")
                     = ["imax"; "1"; "number"; "of"; "channels"].
Proof. reflexivity. Qed.

Example str_neg : Py.str (-42) = "-42" /\ Py.str 0 = "0" /\ Py.str 10000 = "10000".
Proof. repeat split; reflexivity. Qed.

Example int_examples :
  Py.int "007" = inr 7 /\ Py.int "-3" = inr (-3) /\ Py.int "+" = inl ValueError
  /\ Py.int "1.5" = inl ValueError /\ Py.int "" = inl ValueError.
Proof. repeat split; reflexivity. Qed.

Example range_examples :
  Py.range 3 = [0; 1; 2] /\ Py.range (-2) = [] /\ Py.range2 10 13 = [10; 11; 12].
Proof. repeat split; reflexivity. Qed.

Example float_literals :
  flt "10" = S754_finite false (5 * 2 ^ 50) (-49)
  /\ flt "1.0" = PyFloat.one /\ flt "1" = PyFloat.one /\ flt "1e0" = PyFloat.one
  /\ flt "0.1" = S754_finite false 7205759403792794 (-56)
  /\ flt "1.1" = S754_finite false 4953959590107546 (-52)
  /\ flt "-.5e1" = S754_finite true (5 * 2 ^ 50) (-50)
  /\ flt "1e400" = S754_infinity false
  /\ flt "5e-324" = S754_finite false 1 (-1074)
  /\ flt "2e-324" = S754_zero false
  /\ flt "1.7976931348623157e308" = S754_finite false (2 ^ 53 - 1) 971
  /\ PyFloat.of_string "abc" = inl ValueError
  /\ PyFloat.of_string "1e" = inl ValueError
  /\ PyFloat.of_string "." = inl ValueError
  /\ PyFloat.of_string "lnN" = inl ValueError.
Proof. vm_compute. repeat split; reflexivity. Qed.

Example float_formats :
  PyFloat.format_g (flt "10") = "10" /\ PyFloat.format_g (flt "5") = "5"
  /\ PyFloat.format_g (flt "0.5") = "0.5"
  /\ PyFloat.format_g (flt "1234567") = "1.23457e+06"
  /\ PyFloat.format_g (flt "0.0001") = "0.0001"
  /\ PyFloat.format_g (flt "0.00001") = "1e-05"
  /\ PyFloat.format_g (flt "999999.5") = "1e+06"
  /\ PyFloat.format_g (flt "-2.50") = "-2.5"
  /\ PyFloat.format_g (flt "123456") = "123456"
  /\ PyFloat.format_g (flt "0.1") = "0.1"
  /\ PyFloat.format_f (flt "1.1") = "1.100000"
  /\ PyFloat.format_f (flt "5") = "5.000000"
  /\ PyFloat.format_f (flt "0.0000005") = "0.000000"
  /\ PyFloat.format_f (flt "0.0000015") = "0.000002"
  /\ PyFloat.format_f (flt "2.5") = "2.500000"
  /\ PyFloat.format_f (flt "-0.05") = "-0.050000"
  /\ PyFloat.format_f (flt "1e50") = "1e+50"
  /\ PyFloat.format_f (PyFloat.sum []) = "0.000000".
Proof. vm_compute. repeat split; reflexivity. Qed.

(** The own rounding agrees with the library's operations where both are
    defined. *)
Example float_ops_agree :
  PyFloat.div (flt "60") PyFloat.ten = inr (SFdiv 53 1024 (flt "60") PyFloat.ten)
  /\ PyFloat.div (flt "57") PyFloat.ten = inr (SFdiv 53 1024 (flt "57") PyFloat.ten)
  /\ PyFloat.div (flt "1") (flt "3") = inr (SFdiv 53 1024 (flt "1") (flt "3"))
  /\ PyFloat.div (flt "1e-320") (flt "3") = inr (SFdiv 53 1024 (flt "1e-320") (flt "3"))
  /\ PyFloat.div (flt "1e308") (flt "1e-10") = inr (SFdiv 53 1024 (flt "1e308") (flt "1e-10"))
  /\ PyFloat.of_int 57 = inr (binary_normalize 53 1024 57 0 false)
  /\ PyFloat.of_int (-3) = inr (binary_normalize 53 1024 (-3) 0 false)
  /\ PyFloat.of_int (2 ^ 80 + 1) = inr (binary_normalize 53 1024 (2 ^ 80 + 1) 0 false)
  /\ PyFloat.one = SFone 53 1024
  /\ PyFloat.add (flt "0.1") (flt "0.2") = flt "0.30000000000000004"
  /\ PyFloat.sum [flt "5"; flt "2.5"] = flt "7.5".
Proof. vm_compute. repeat split; reflexivity. Qed.

Example formula_values :
  let env := Formula.lookup [("a", 2); ("b", 3); ("c_1", 4)] in
  Formula.value env "a*b+c_1" = Some 10
  /\ Formula.value env "a*(b+c_1)" = Some 14
  /\ Formula.value env "  c_1" = Some 4
  /\ Formula.value env "a+b*c_1+a" = Some 16
  /\ Formula.value env "a*z" = None
  /\ Formula.value env "a+" = None
  /\ Formula.quoted "x = expr('a*b',a, b);" = Some "a*b".
Proof. vm_compute. repeat split; reflexivity. Qed.

(** ** The two-process example *)

Lemma run_card_two_processes :
  run no_options card_two_processes =
  (["/// ----- observables -----";
    "n_obs_bin0[0,10000];";
    "observables = set( n_obs_bin0 );";
    Gen.nl ++ "/// ----- parameters of interest -----" ++ Gen.nl
      ++ "// signal strenght" ++ Gen.nl
      ++ "r[0,20];" ++ Gen.nl
      ++ "// set of all paramers of interest" ++ Gen.nl
      ++ "POI = set(r);" ++ Gen.nl;
    "/// --- Expected events in each bin, for each process ----";
    "n_exp_bin0_proc0[10];";
    "n_exp_bin0_proc1[5];";
    "n_exp_bin0       = expr('r*n_exp_bin0_proc0+n_exp_bin0_proc1',r, n_exp_bin0_proc0,n_exp_bin0_proc1);";
    "n_exp_bin0_bonly = expr('  n_exp_bin0_proc1',   n_exp_bin0_proc1);";
    "/// --- Expected events in each bin, total (S+B and B) ----";
    "pdf_bin0       = Poisson(n_obs_bin0, n_exp_bin0);";
    "pdf_bin0_bonly = Poisson(n_obs_bin0, n_exp_bin0_bonly);";
    "model_s = PROD({ pdf_bin0 });";
    "model_b = PROD({ pdf_bin0_bonly });"],
   None).
Proof. vm_compute. reflexivity. Qed.

(** C1, as stated, fails: the formula printed for [n_exp_bin0] is not [r]
    times the sum of the two per-process terms.  At r = 2 with yields 10
    and 5 it is worth 25, while r times the sum is 30. *)
Lemma C1_formula_is_not_r_times_sum :
  let out := fst (run no_options card_two_processes) in
  formula_of "n_exp_bin0" out = Some "r*n_exp_bin0_proc0+n_exp_bin0_proc1"
  /\ value_of "n_exp_bin0" out (bin0_env 2 10 5) = Some 25
  /\ Formula.value (bin0_env 2 10 5) "r*(n_exp_bin0_proc0+n_exp_bin0_proc1)"
     = Some (2 * (10 + 5))
  /\ ~ (forall r s b : Z,
          value_of "n_exp_bin0" out (bin0_env r s b) = Some (r * (s + b))).
Proof.
  cbv zeta. rewrite run_card_two_processes.
  repeat split; try reflexivity.
  intro H. specialize (H 2 10 5). vm_compute in H. discriminate H.
Qed.

(** C1, amended: for one bin, two processes, rates 10 and 5, no
    systematics and no observation, the script runs to its end and prints
    the fixed-value symbols [n_exp_bin0_proc0[10];] and
    [n_exp_bin0_proc1[5];], an expression [n_exp_bin0] with formula
    [r*n_exp_bin0_proc0+n_exp_bin0_proc1] and arguments [r] and both terms,
    whose value is [r] times the process-0 term plus the process-1 term,
    an expression [n_exp_bin0_bonly] over process 1 only, and the
    observable [n_obs_bin0] as the free range [0,10000]. *)
Theorem C1_two_process_example :
  let out := fst (run no_options card_two_processes) in
  snd (run no_options card_two_processes) = None
  /\ statement_of "n_exp_bin0_proc0" out = Some "n_exp_bin0_proc0[10];"
  /\ statement_of "n_exp_bin0_proc1" out = Some "n_exp_bin0_proc1[5];"
  /\ statement_of "n_exp_bin0" out
     = Some "n_exp_bin0       = expr('r*n_exp_bin0_proc0+n_exp_bin0_proc1',r, n_exp_bin0_proc0,n_exp_bin0_proc1);"
  /\ (forall r s b : Z, value_of "n_exp_bin0" out (bin0_env r s b) = Some (r * s + b))
  /\ statement_of "n_exp_bin0_bonly" out
     = Some "n_exp_bin0_bonly = expr('  n_exp_bin0_proc1',   n_exp_bin0_proc1);"
  /\ (forall r s b : Z, value_of "n_exp_bin0_bonly" out (bin0_env r s b) = Some b)
  /\ statement_of "n_obs_bin0" out = Some "n_obs_bin0[0,10000];".
Proof.
  cbv zeta. rewrite run_card_two_processes.
  repeat split; reflexivity.
Qed.

(** ** The built-ins on lists *)

Section ListFacts.

Context {A : Type}.

Lemma getitem_nth (l : list A) (i : Z) (x : A) :
  0 <= i -> nth_error l (Z.to_nat i) = Some x -> Py.getitem l i = inr x.
Proof.
  intros Hi Hn. unfold Py.getitem.
  destruct (Z.ltb_spec i 0) as [Hlt | _]; [lia |].
  destruct (Z.ltb_spec i 0) as [Hlt | _]; [lia |].
  now rewrite Hn.
Qed.

Lemma getitem_inr (l : list A) (i : Z) (x : A) :
  0 <= i -> Py.getitem l i = inr x -> nth_error l (Z.to_nat i) = Some x.
Proof.
  intros Hi. unfold Py.getitem.
  destruct (Z.ltb_spec i 0) as [Hlt | _]; [lia |].
  destruct (Z.ltb_spec i 0) as [Hlt | _]; [lia |].
  destruct (nth_error l (Z.to_nat i)); [intros [= ->]; reflexivity | discriminate].
Qed.

Lemma getitem_beyond (l : list A) (i : Z) :
  Py.len l <= i -> Py.getitem l i = inl IndexError.
Proof.
  intros Hi. unfold Py.getitem, Py.len in *.
  destruct (Z.ltb_spec i 0) as [Hlt | _]; [lia |].
  destruct (Z.ltb_spec i 0) as [Hlt | _]; [lia |].
  destruct (nth_error l (Z.to_nat i)) eqn:E; [| reflexivity].
  assert (Z.to_nat i < List.length l)%nat by (apply nth_error_Some; congruence). lia.
Qed.

Lemma getitem_error (l : list A) (i : Z) (e : exn) :
  Py.getitem l i = inl e -> e = IndexError.
Proof.
  unfold Py.getitem.
  destruct (_ <? 0); [intros [= <-]; reflexivity |].
  destruct (nth_error _ _); [discriminate | intros [= <-]; reflexivity].
Qed.

End ListFacts.

Lemma range2_length (lo hi : Z) : List.length (Py.range2 lo hi) = Z.to_nat (hi - lo).
Proof. unfold Py.range2. now rewrite length_map, length_seq. Qed.

Lemma range_length (n : Z) : List.length (Py.range n) = Z.to_nat n.
Proof. unfold Py.range. rewrite range2_length. f_equal. lia. Qed.

Lemma range2_In (lo hi x : Z) : In x (Py.range2 lo hi) <-> lo <= x < hi.
Proof.
  unfold Py.range2. rewrite in_map_iff. split.
  - intros (k & <- & Hk). apply in_seq in Hk. lia.
  - intros Hx. exists (Z.to_nat (x - lo)). split; [lia |]. apply in_seq. lia.
Qed.

Lemma range_In (n x : Z) : In x (Py.range n) <-> 0 <= x < n.
Proof. apply range2_In. Qed.

Lemma map_seq_from {B} (f : nat -> B) (a m : nat) :
  map f (seq a m) = map (fun k => f (a + k)%nat) (seq 0 m).
Proof.
  revert a. induction m as [| m IH]; intros a; [reflexivity |].
  cbn [seq map]. rewrite Nat.add_0_r. f_equal.
  rewrite IH, <- seq_shift, map_map. apply map_ext. intros k. f_equal. lia.
Qed.

Lemma range2_split (lo mid hi : Z) :
  lo <= mid <= hi -> Py.range2 lo hi = (Py.range2 lo mid ++ Py.range2 mid hi)%list.
Proof.
  intros H. unfold Py.range2.
  replace (Z.to_nat (hi - lo)) with (Z.to_nat (mid - lo) + Z.to_nat (hi - mid))%nat by lia.
  rewrite seq_app, map_app. f_equal.
  rewrite Nat.add_0_l, map_seq_from. apply map_ext. intros k. lia.
Qed.

Lemma range2_cons (lo hi : Z) :
  lo < hi -> Py.range2 lo hi = lo :: Py.range2 (lo + 1) hi.
Proof.
  intros H. rewrite (range2_split lo (lo + 1) hi) by lia.
  unfold Py.range2 at 1. replace (lo + 1 - lo) with 1 by lia.
  change (Z.to_nat 1) with 1%nat. cbn [seq map app Z.of_nat]. now rewrite Z.add_0_r.
Qed.

Lemma range2_nil (lo hi : Z) : hi <= lo -> Py.range2 lo hi = [].
Proof. intros H. unfold Py.range2. now replace (Z.to_nat (hi - lo)) with O by lia. Qed.

Lemma range_nth_error (n i : Z) :
  0 <= i < n -> nth_error (Py.range n) (Z.to_nat i) = Some i.
Proof.
  intros H. unfold Py.range, Py.range2.
  rewrite nth_error_map, nth_error_seq.
  destruct (Nat.ltb_spec (Z.to_nat i) (Z.to_nat (n - 0))) as [_ | Hge]; [| lia].
  cbn. f_equal. lia.
Qed.

(** ** Printing *)

Lemma andThen_ok (o : list string) (b : output) :
  (o, None) >> b = ((o ++ fst b)%list, snd b).
Proof. reflexivity. Qed.

Lemma andThen_fst (a b : output) : exists t, fst (a >> b) = (fst a ++ t)%list.
Proof.
  destruct a as [o [e |]]; cbn.
  - exists []. now rewrite List.app_nil_r.
  - now exists (fst b).
Qed.

Lemma nth_error_andThen (a b : output) (k : nat) (s : string) :
  nth_error (fst a) k = Some s -> nth_error (fst (a >> b)) k = Some s.
Proof.
  intros H. destruct (andThen_fst a b) as [t ->].
  rewrite nth_error_app1; [exact H |].
  apply nth_error_Some. congruence.
Qed.

(** A loop whose first rounds each print one line. *)
Lemma for_each_lines {A} (g : A -> string) (body : A -> output) (l1 l2 : list A) :
  (forall x, In x l1 -> body x = ([g x], None)) ->
  for_each (l1 ++ l2) body = (map g l1, None) >> for_each l2 body.
Proof.
  induction l1 as [| x l1 IH]; intros H; cbn [app for_each map].
  - now destruct (for_each l2 body).
  - rewrite H by now left. rewrite IH by (intros; apply H; now right).
    now destruct (for_each l2 body).
Qed.

(** ** Asimov mode *)

Lemma load_inr (o : options) (lines : list string) (st : model) :
  Parser.load o lines = inr st ->
  exists st0, Parser.parse lines = inr st0
              /\ st = Parser.apply_asimov o (Parser.apply_stat o st0)
              /\ Parser.check_systs st = inr tt.
Proof.
  unfold Parser.load. destruct (Parser.parse lines) as [e | st0]; [discriminate |].
  cbn. destruct (Parser.check_systs _) as [e | []] eqn:E; [discriminate |].
  intros [= <-]. now exists st0.
Qed.

Lemma run_loaded (o : options) (lines : list string) (st : model) :
  Parser.load o lines = inr st -> run o lines = Gen.generate st.
Proof. intros H. unfold run. now rewrite H. Qed.

Lemma asimov_obs (o : options) (st0 : model) :
  asimov o = true ->
  obs (Parser.apply_asimov o st0) = map (fun r => PyFloat.sum (tl r)) (exp st0)
  /\ exp (Parser.apply_asimov o st0) = exp st0.
Proof. intros H. unfold Parser.apply_asimov. rewrite H. now split. Qed.

(** The declaration of the observable of bin [b] when an observation is
    known for every bin up to [b]. *)
Lemma observables_line (st : model) (b : Z) (v : PyFloat.float) :
  0 <= b < bins st ->
  nth_error (obs st) (Z.to_nat b) = Some v ->
  nth_error (fst (Gen.observables st)) (S (Z.to_nat b))
  = Some ("n_obs_bin" ++ Py.str b ++ "[" ++ PyFloat.format_f v ++ ",0,10000];").
Proof.
  intros Hb Hv. unfold Gen.observables.
  assert (Hlen : (Z.to_nat b < List.length (obs st))%nat)
    by (apply nth_error_Some; congruence).
  destruct (Z.eqb_spec (Py.len (obs st)) 0) as [E | _]; [unfold Py.len in E; lia |].
  cbn [negb]. apply nth_error_andThen.
  unfold Gen.print at 1. cbn [Py.join String.concat]. unfold emit at 1.
  rewrite andThen_ok. cbn [fst app nth_error]. unfold Py.range.
  set (g := fun j => "n_obs_bin" ++ Py.str j ++ "["
                       ++ PyFloat.format_f (nth (Z.to_nat j) (obs st) PyFloat.zero)
                       ++ ",0," ++ Py.str Gen.N_OBS_MAX ++ "];").
  rewrite (range2_split 0 (b + 1) (bins st)) by lia.
  rewrite (for_each_lines g).
  - apply nth_error_andThen. cbn [fst].
    rewrite nth_error_map. fold (Py.range (b + 1)).
    rewrite range_nth_error by lia. cbn [option_map]. unfold g.
    now rewrite (nth_error_nth _ _ _ Hv).
  - intros x Hx. apply range2_In in Hx.
    assert (Hx' : (Z.to_nat x < List.length (obs st))%nat) by lia.
    rewrite (getitem_nth _ _ (nth (Z.to_nat x) (obs st) PyFloat.zero));
      [reflexivity | lia | now apply nth_error_nth'].
Qed.

(** ** The first loop, keyword by keyword *)

Section HeaderLine.

Variable st : model.
Variable rest : list string.

#[local] Opaque Py.getitem Py.int mapM iterM Parser.read_rows Py.len Py.enumerate Py.str.

Lemma header_line_imax :
  Parser.header_line st ("imax" :: rest)
  = (s <- Py.getitem ("imax" :: rest) 1 ;; v <- Py.int s ;; ret (set_bins st v, false)).
Proof.
  unfold Parser.header_line. cbn.
  destruct (Py.getitem _ _); [reflexivity |]. cbn.
  destruct (Py.int _); reflexivity.
Qed.

Lemma header_line_jmax :
  Parser.header_line st ("jmax" :: rest)
  = (s <- Py.getitem ("jmax" :: rest) 1 ;; v <- Py.int s ;;
     ret (set_processes st (v + 1), false)).
Proof.
  unfold Parser.header_line. cbn.
  destruct (Py.getitem _ _); [reflexivity |]. cbn.
  destruct (Py.int _); reflexivity.
Qed.

Lemma header_line_kmax :
  Parser.header_line st ("kmax" :: rest)
  = (s <- Py.getitem ("kmax" :: rest) 1 ;; v <- Py.int s ;;
     ret (set_nuisances st v, false)).
Proof.
  unfold Parser.header_line. cbn.
  destruct (Py.getitem _ _); [reflexivity |]. cbn.
  destruct (Py.int _); reflexivity.
Qed.

Lemma header_line_observation :
  Parser.header_line st ("Observation" :: rest)
  = (o <- mapM PyFloat.of_string rest ;;
     if negb (Py.len o =? bins st)
     then raise (RuntimeError ("Found " ++ Py.str (Py.len o) ++ " observations but "
                                 ++ Py.str (bins st) ++ " bins"))
     else ret (set_obs st o, false)).
Proof.
  unfold Parser.header_line. cbn.
  destruct (mapM _ _); [reflexivity |]. cbn.
  destruct (negb _); reflexivity.
Qed.

Lemma header_line_bin :
  Parser.header_line st ("bin" :: rest)
  = (if negb (Py.len rest =? bins st * processes st)
     then raise (RuntimeError (Parser.shape_msg "Malformed bin line: len "
                                 (Py.len rest) (bins st) (processes st)))
     else _ <- iterM (Parser.check_bin_cell (processes st)) (Py.enumerate rest) ;;
          ret (st, false)).
Proof.
  unfold Parser.header_line. cbn.
  destruct (negb _); [reflexivity |].
  destruct (iterM _ _); reflexivity.
Qed.

Lemma header_line_process :
  Parser.header_line st ("process" :: rest)
  = (if Py.len rest <? bins st * processes st
     then raise (RuntimeError (Parser.shape_msg "Malformed process line: len "
                                 (Py.len rest) (bins st) (processes st)))
     else ret (st, false)).
Proof.
  unfold Parser.header_line. cbn.
  destruct (_ <? _); reflexivity.
Qed.

Lemma header_line_rate :
  Parser.header_line st ("rate" :: rest)
  = (if Py.len rest <? bins st * processes st
     then raise (RuntimeError (Parser.shape_msg "Malformed rate line: "
                                 (Py.len rest) (bins st) (processes st)))
     else rows <- Parser.read_rows ("rate" :: rest) 1 (bins st) (processes st) ;;
          ret (set_exp st (exp st ++ rows)%list, true)).
Proof.
  unfold Parser.header_line. cbn.
  destruct (_ <? _); [reflexivity |].
  destruct (Parser.read_rows _ _ _ _); reflexivity.
Qed.

Lemma header_line_other (key : string) :
  ~ In key keywords -> Parser.header_line st (key :: rest) = ret (st, false).
Proof.
  intros H. unfold Parser.header_line.
  repeat match goal with
         | |- context [String.eqb key ?k] =>
             destruct (String.eqb_spec key k) as [-> | _];
             [exfalso; apply H; cbn; tauto |]
         end.
  reflexivity.
Qed.

End HeaderLine.

(** Every line of the first loop falls under one of the eight cases. *)
Lemma keyword_cases (key : string) :
  key = "imax" \/ key = "jmax" \/ key = "kmax" \/ key = "Observation"
  \/ key = "bin" \/ key = "process" \/ key = "rate" \/ ~ In key keywords.
Proof.
  unfold keywords.
  destruct (String.eqb_spec key "imax"); [tauto |].
  destruct (String.eqb_spec key "jmax"); [tauto |].
  destruct (String.eqb_spec key "kmax"); [tauto |].
  destruct (String.eqb_spec key "Observation"); [tauto |].
  destruct (String.eqb_spec key "bin"); [tauto |].
  destruct (String.eqb_spec key "process"); [tauto |].
  destruct (String.eqb_spec key "rate"); [tauto |].
  repeat right. cbn. intuition congruence.
Qed.

(** Splits a goal about [header_line st (key :: rest)] into the eight
    cases and rewrites each with its equation. *)
Ltac header_cases key :=
  destruct (keyword_cases key)
    as [-> | [-> | [-> | [-> | [-> | [-> | [-> | ?Hother]]]]]]];
  [ rewrite header_line_imax | rewrite header_line_jmax | rewrite header_line_kmax
  | rewrite header_line_observation | rewrite header_line_bin
  | rewrite header_line_process | rewrite header_line_rate
  | rewrite (header_line_other _ _ _ Hother) ].

(** Case analysis on a computation that may raise, in a hypothesis. *)
Ltac bind_inv H :=
  repeat match type of H with
         | bind ?m _ = _ =>
             let E := fresh "E" in
             destruct m eqn:E; cbn [bind] in H; [discriminate H |]
         | (if ?c then _ else _) = _ =>
             let E := fresh "E" in destruct c eqn:E
         | raise _ = inr _ => discriminate H
         | inl _ = inr _ => discriminate H
         end.

(** ** Comprehensions *)

Section MapM.

Context {A B : Type} (f : A -> result B).

Lemma mapM_Forall2 (l : list A) (ys : list B) :
  mapM f l = inr ys -> Forall2 (fun x y => f x = inr y) l ys.
Proof.
  revert ys. induction l as [| x l IH]; cbn; intros ys H.
  - injection H as <-. constructor.
  - destruct (f x) as [e | y] eqn:Ex; [discriminate |]. cbn in H.
    destruct (mapM f l) as [e | ys'] eqn:El; [discriminate |].
    injection H as <-. constructor; auto.
Qed.

Lemma mapM_length (l : list A) (ys : list B) :
  mapM f l = inr ys -> List.length ys = List.length l.
Proof. intros H. symmetry. exact (Forall2_length (mapM_Forall2 _ _ H)). Qed.

Lemma mapM_In (l : list A) (ys : list B) (x : A) :
  mapM f l = inr ys -> In x l -> exists y, f x = inr y.
Proof.
  intros H Hx. apply mapM_Forall2 in H.
  induction H as [| a y l ys Hay _ IH]; [contradiction |].
  destruct Hx as [<- | Hx]; eauto.
Qed.

Lemma mapM_inl (l : list A) (e : exn) :
  mapM f l = inl e -> exists x, In x l /\ f x = inl e.
Proof.
  induction l as [| x l IH]; cbn; [discriminate |].
  destruct (f x) as [e' | y] eqn:Ex; cbn.
  - intros [= <-]. exists x. auto.
  - destruct (mapM f l) as [e' | ys]; [| discriminate].
    intros [= <-]. destruct (IH eq_refl) as (x' & Hx' & He). exists x'. auto.
Qed.

Lemma mapM_total (l : list A) :
  (forall x, In x l -> exists y, f x = inr y) -> exists ys, mapM f l = inr ys.
Proof.
  induction l as [| x l IH]; intros H; cbn; [now exists [] |].
  destruct (H x (or_introl eq_refl)) as [y ->]. cbn.
  destruct IH as [ys ->]; [intros; apply H; now right |].
  now exists (y :: ys).
Qed.

End MapM.

Lemma read_rows_shaped (f : list string) (off b p : Z) (rows : list (list PyFloat.float)) :
  Parser.read_rows f off b p = inr rows -> shaped b p rows.
Proof.
  unfold Parser.read_rows. intros H. split.
  - rewrite (mapM_length _ _ _ H). apply range_length.
  - apply mapM_Forall2 in H.
    induction H as [| x r l rows Hr _ IH]; constructor; [| exact IH].
    rewrite (mapM_length _ _ _ Hr). apply range_length.
Qed.

(** ** What the two loops keep and change *)

Lemma header_line_effect (st st' : model) (f : list string) (brk : bool) :
  Parser.header_line st f = inr (st', brk) ->
  systs st' = systs st
  /\ (hd_error f <> Some "imax" -> bins st' = bins st)
  /\ (hd_error f <> Some "jmax" -> processes st' = processes st)
  /\ (hd_error f <> Some "kmax" -> nuisances st' = nuisances st)
  /\ (brk = true <-> hd_error f = Some "rate")
  /\ (if brk
      then exists rows, exp st' = (exp st ++ rows)%list
                        /\ Parser.read_rows f 1 (bins st') (processes st') = inr rows
      else exp st' = exp st).
Proof.
  destruct f as [| key rest].
  - intros [= <- <-]. cbn. intuition discriminate.
  - header_cases key; intros H; bind_inv H; injection H as <- <-; cbn;
      repeat split; try congruence; try (intros; discriminate); eauto.
    intros [= ->]. exfalso. apply Hother. cbn. tauto.
Qed.

Lemma syst_line_effect (st st' : model) (l : string) :
  Parser.syst_line st l = inr st' ->
  bins st' = bins st /\ processes st' = processes st /\ nuisances st' = nuisances st
  /\ obs st' = obs st /\ exp st' = exp st
  /\ (systs st' = systs st
      \/ exists errline, systs st' = (systs st ++ [errline])%list
                         /\ shaped (bins st) (processes st) errline).
Proof.
  unfold Parser.syst_line, Parser.syst_fields. intros H. bind_inv H.
  - injection H as <-. tauto.
  - injection H as <-. cbn. repeat split. right. eexists. split; [reflexivity |].
    eapply read_rows_shaped; eassumption.
Qed.

Lemma second_pass_effect (lines : list string) (st st' : model) :
  Parser.second_pass st lines = inr st' ->
  bins st' = bins st /\ processes st' = processes st /\ nuisances st' = nuisances st
  /\ obs st' = obs st /\ exp st' = exp st
  /\ (Forall (shaped (bins st) (processes st)) (systs st) ->
      Forall (shaped (bins st) (processes st)) (systs st')).
Proof.
  unfold Parser.second_pass. revert st.
  induction lines as [| l lines IH]; cbn; intros st H.
  - injection H as <-. tauto.
  - destruct (Parser.syst_line st l) as [e | st1] eqn:E; [discriminate |]. cbn in H.
    destruct (syst_line_effect _ _ _ E) as (Hb & Hp & Hn & Ho & He & Hs).
    destruct (IH _ H) as (Hb' & Hp' & Hn' & Ho' & He' & Hs').
    rewrite Hb, Hp in *. repeat split; try congruence.
    intros Hall. apply Hs'. destruct Hs as [-> | (errline & -> & Hsh)]; [exact Hall |].
    apply Forall_app. split; [exact Hall | now constructor].
Qed.

Lemma first_pass_effect (lines rest : list string) (st st' : model) :
  Parser.first_pass st lines = inr (st', rest) ->
  systs st' = systs st
  /\ (absent "imax" lines -> bins st' = bins st)
  /\ (absent "jmax" lines -> processes st' = processes st)
  /\ (absent "kmax" lines -> nuisances st' = nuisances st)
  /\ (exp st' = exp st
      \/ exists rows, exp st' = (exp st ++ rows)%list
                      /\ shaped (bins st') (processes st') rows).
Proof.
  revert st. induction lines as [| l lines IH]; cbn; intros st H.
  - injection H as <- <-. tauto.
  - destruct (Parser.header_line st (Py.split l)) as [e | [st1 brk]] eqn:E; [discriminate |].
    cbn in H. destruct (header_line_effect _ _ _ _ E) as (Hs & Hb & Hp & Hn & _ & He).
    unfold absent. destruct brk.
    + injection H as <- <-. destruct He as (rows & He & Hr).
      repeat split; auto.
      * intros Ha. apply Hb. exact (Forall_inv Ha).
      * intros Ha. apply Hp. exact (Forall_inv Ha).
      * intros Ha. apply Hn. exact (Forall_inv Ha).
      * right. exists rows. split; [exact He |]. eapply read_rows_shaped; eassumption.
    + destruct (IH _ H) as (Hs' & Hb' & Hp' & Hn' & He').
      repeat split.
      * congruence.
      * intros Ha. rewrite Hb' by exact (Forall_inv_tail Ha). apply Hb, (Forall_inv Ha).
      * intros Ha. rewrite Hp' by exact (Forall_inv_tail Ha). apply Hp, (Forall_inv Ha).
      * intros Ha. rewrite Hn' by exact (Forall_inv_tail Ha). apply Hn, (Forall_inv Ha).
      * rewrite <- He. exact He'.
Qed.

(** ** Absent header lines *)

Lemma parse_effect (lines : list string) (st : model) :
  Parser.parse lines = inr st ->
  (absent "imax" lines -> bins st = 1)
  /\ (absent "jmax" lines -> processes st = 1)
  /\ (absent "kmax" lines -> nuisances st = 0).
Proof.
  unfold Parser.parse. intros H.
  destruct (Parser.first_pass initial lines) as [e | [st1 rest]] eqn:E1; [discriminate |].
  cbn in H. destruct (first_pass_effect _ _ _ _ E1) as (_ & Hb & Hp & Hn & _).
  destruct (second_pass_effect _ _ _ H) as (Hb' & Hp' & Hn' & _).
  rewrite Hb', Hp', Hn'. auto.
Qed.

(** C10: a datacard without an [imax], [jmax] or [kmax] line is read like
    the same datacard with [imax 1], [jmax 0] or [kmax 0] in front, so its
    absence raises nothing and every later check and the whole of the
    output are those of the default; and whenever parsing returns a model,
    the model has bins = 1, processes = 1 or nuisances = 0 for each header
    that is absent. *)
Theorem C10_header_defaults (o : options) (lines : list string) :
  run o (ln "imax 1" :: lines) = run o lines
  /\ run o (ln "jmax 0" :: lines) = run o lines
  /\ run o (ln "kmax 0" :: lines) = run o lines
  /\ (bins initial = 1 /\ processes initial = 1 /\ nuisances initial = 0)
  /\ forall st, Parser.parse lines = inr st ->
       (absent "imax" lines -> bins st = 1)
       /\ (absent "jmax" lines -> processes st = 1)
       /\ (absent "kmax" lines -> nuisances st = 0).
Proof.
  repeat split; try reflexivity; intros; eapply parse_effect; eassumption.
Qed.

Lemma C10_header_defaults_witness :
  let st := {| bins := 1; processes := 1; nuisances := 0; obs := [];
               exp := [[flt "7"]]; systs := [] |} in
  Parser.parse card_rate_only = inr st
  /\ bins st = 1 /\ processes st = 1 /\ nuisances st = 0
  /\ snd (run no_options card_rate_only) = None.
Proof.
  cbv zeta.
  assert (Hparse : Parser.parse card_rate_only
                   = inr {| bins := 1; processes := 1; nuisances := 0; obs := [];
                            exp := [[flt "7"]]; systs := [] |})
    by (vm_compute; reflexivity).
  assert (Habs : forall k, k = "imax" \/ k = "jmax" \/ k = "kmax" ->
                           absent k card_rate_only).
  { intros k Hk. constructor; [| constructor].
    destruct Hk as [-> | [-> | ->]]; vm_compute; discriminate. }
  destruct (C10_header_defaults no_options card_rate_only)
    as (_ & _ & _ & _ & Hdef).
  destruct (Hdef _ Hparse) as (Hb & Hp & Hn).
  split; [exact Hparse |].
  split; [apply Hb, Habs; tauto |].
  split; [apply Hp, Habs; tauto |].
  split; [apply Hn, Habs; tauto |].
  vm_compute. reflexivity.
Defined.

(** ** Statistics-only mode *)

Lemma apply_stat_nothing_to_drop (o : options) (st : model) :
  nuisances st = 0 -> systs st = [] -> Parser.apply_stat o st = st.
Proof.
  intros Hn Hs. unfold Parser.apply_stat. destruct (stat o); [| reflexivity].
  destruct st; cbn in *. now subst.
Qed.

Lemma len_nil_inv {A} (l : list A) : Py.len l = 0 -> l = [].
Proof. destruct l; [reflexivity |]. unfold Py.len. cbn [List.length]. lia. Qed.

(** C9: for a datacard that parses, declares zero systematics and has as
    many systematics rows as it declares, the run with the
    statistics-only flag and the run without it (Asimov flag the same) are
    equal, output and outcome; both generate from a model with zero
    nuisances and an empty systematics list. *)
Theorem C9_stat_flag_irrelevant (a : bool) (lines : list string) (st : model) :
  Parser.parse lines = inr st ->
  nuisances st = 0 ->
  Py.len (systs st) = nuisances st ->
  run {| stat := true; asimov := a |} lines = run {| stat := false; asimov := a |} lines
  /\ exists st', Parser.load {| stat := true; asimov := a |} lines = inr st'
                 /\ Parser.load {| stat := false; asimov := a |} lines = inr st'
                 /\ nuisances st' = 0 /\ systs st' = [].
Proof.
  intros Hparse Hn Hlen. rewrite Hn in Hlen. apply len_nil_inv in Hlen.
  assert (Hload : forall s, Parser.load {| stat := s; asimov := a |} lines
                            = inr (Parser.apply_asimov {| stat := s; asimov := a |} st)).
  { intros s. unfold Parser.load. rewrite Hparse. cbn [bind].
    rewrite (apply_stat_nothing_to_drop _ _ Hn Hlen).
    unfold Parser.check_systs, Parser.apply_asimov. cbn [asimov].
    destruct a; cbn; rewrite Hlen, Hn; reflexivity. }
  assert (Hsame : Parser.apply_asimov {| stat := true; asimov := a |} st
                  = Parser.apply_asimov {| stat := false; asimov := a |} st)
    by reflexivity.
  split.
  - unfold run. rewrite !Hload, Hsame. reflexivity.
  - eexists. split; [apply Hload |]. split; [rewrite Hload, Hsame; reflexivity |].
    unfold Parser.apply_asimov. cbn [asimov]. destruct a; cbn; auto.
Qed.

Lemma C9_stat_flag_irrelevant_witness :
  run {| stat := true; asimov := false |} card_two_processes
  = run {| stat := false; asimov := false |} card_two_processes.
Proof.
  refine (proj1 (C9_stat_flag_irrelevant false card_two_processes
                   {| bins := 1; processes := 2; nuisances := 0; obs := [];
                      exp := [[flt "10"; flt "5"]]; systs := [] |} _ _ _)).
  - vm_compute. reflexivity.
  - reflexivity.
  - reflexivity.
Defined.

(** ** The count of systematics *)

Lemma parse_card_missing_systematic :
  Parser.parse card_missing_systematic
  = inr {| bins := 1; processes := 2; nuisances := 1; obs := [];
           exp := [[flt "10"; flt "5"]]; systs := [] |}.
Proof. vm_compute. reflexivity. Qed.

(** C5, as stated, fails: with the statistics-only flag a datacard whose
    rows (none) differ in number from its [kmax] (one) runs to the end and
    prints the whole script. *)
Lemma C5_stat_run_is_not_checked :
  let st := {| bins := 1; processes := 2; nuisances := 1; obs := [];
               exp := [[flt "10"; flt "5"]]; systs := [] |} in
  Parser.parse card_missing_systematic = inr st
  /\ Py.len (systs st) <> nuisances st
  /\ snd (run stat_only card_missing_systematic) = None
  /\ List.length (fst (run stat_only card_missing_systematic)) = 14%nat.
Proof.
  cbv zeta. split; [exact parse_card_missing_systematic |].
  split; [discriminate |]. split; vm_compute; reflexivity.
Qed.

(** C5, amended: when the statistics-only flag is not set, every input
    whose number of parsed systematics rows differs from the declared
    [kmax] ends in the [RuntimeError] of line 57, right after parsing and
    before anything is printed, whatever the Asimov flag.  With the flag
    set, rows and count are both dropped before the check, which then
    passes. *)
Theorem C5_systematics_count (o : options) (lines : list string) (st : model) :
  Parser.parse lines = inr st ->
  (stat o = false ->
   Py.len (systs st) <> nuisances st ->
   run o lines
   = ([], Some (RuntimeError ("Found " ++ Py.str (Py.len (systs st))
                                ++ " systematics, expected " ++ Py.str (nuisances st)))))
  /\ (stat o = true ->
      Parser.load o lines
      = inr (Parser.apply_asimov o (set_systs (set_nuisances st 0) []))).
Proof.
  intros Hparse. unfold run, Parser.load. rewrite Hparse. cbn [bind].
  unfold Parser.apply_stat. split; intros Hs; rewrite Hs.
  - intros Hne. unfold Parser.check_systs, Parser.apply_asimov.
    destruct (asimov o); cbn [systs nuisances set_obs];
      (destruct (Z.eqb_spec (Py.len (systs st)) (nuisances st)); [contradiction |]);
      reflexivity.
  - unfold Parser.check_systs, Parser.apply_asimov.
    destruct (asimov o); reflexivity.
Qed.

Lemma C5_systematics_count_witness :
  run no_options card_missing_systematic
  = ([], Some (RuntimeError "Found 0 systematics, expected 1"))
  /\ Parser.load stat_only card_missing_systematic
     = inr {| bins := 1; processes := 2; nuisances := 0; obs := [];
              exp := [[flt "10"; flt "5"]]; systs := [] |}.
Proof.
  split.
  - refine (proj1 (C5_systematics_count no_options card_missing_systematic _
                     parse_card_missing_systematic) _ _).
    + reflexivity.
    + discriminate.
  - exact (proj2 (C5_systematics_count stat_only card_missing_systematic _
                    parse_card_missing_systematic) eq_refl).
Defined.

(** ** The [bin] row *)

Lemma iterM_raises {A} (body : A -> result unit) (l : list A) (e : exn) (x : A) :
  In x l -> body x = inl e ->
  (forall y, In y l -> body y = inr tt \/ body y = inl e) ->
  iterM body l = inl e.
Proof.
  induction l as [| y l IH]; intros Hx He Hall; [contradiction |].
  cbn. destruct (Hall y (or_introl eq_refl)) as [E | E]; rewrite E; [| reflexivity].
  cbn. destruct Hx as [<- | Hx]; [congruence |].
  apply IH; auto. intros; apply Hall; now right.
Qed.

Lemma nth_error_combine {A B} (l1 : list A) (l2 : list B) (i : nat) (a : A) (b : B) :
  nth_error l1 i = Some a -> nth_error l2 i = Some b ->
  nth_error (combine l1 l2) i = Some (a, b).
Proof.
  revert l2 i. induction l1 as [| a' l1 IH]; intros [| b' l2] [| i]; cbn;
    try discriminate; [congruence | apply IH].
Qed.

Lemma enumerate_In {A} (l : list A) (i : nat) (x : A) :
  nth_error l i = Some x -> In (Z.of_nat i, x) (Py.enumerate l).
Proof.
  intros H. apply (nth_error_In _ i). unfold Py.enumerate.
  apply nth_error_combine; [| exact H].
  assert (i < List.length l)%nat by (apply nth_error_Some; congruence).
  rewrite <- (Nat2Z.id i) at 1. apply range_nth_error. unfold Py.len. lia.
Qed.

(** C7: a [bin] row of the right length with a cell that differs from
    [i/processes + 1] does stop the parser at once, but with
    [NameError: name 'line' is not defined], raised while line 30 builds
    its message from the unbound name [line]; the descriptive
    [RuntimeError] with the row is never produced. *)
Theorem C7_bin_mismatch_raises_name_error
    (st : model) (cells : list string) (i : nat) (x : string) :
  Py.len cells = bins st * processes st ->
  nth_error cells i = Some x ->
  x <> Py.str (Z.of_nat i / processes st + 1) ->
  Parser.header_line st ("bin" :: cells) = inl (NameError "line").
Proof.
  intros Hlen Hi Hx. rewrite header_line_bin.
  destruct (Z.eqb_spec (Py.len cells) (bins st * processes st)) as [_ | N];
    [| contradiction].
  cbn [negb].
  assert (Hp : processes st <> 0).
  { intros E. rewrite E, Z.mul_0_r in Hlen.
    apply len_nil_inv in Hlen. subst cells. destruct i; discriminate. }
  assert (Hcell : forall j y,
             Parser.check_bin_cell (processes st) (j, y)
             = if (y =? Py.str (j / processes st + 1))%string
               then inr tt else inl (NameError "line")).
  { intros j y. unfold Parser.check_bin_cell.
    destruct (Z.eqb_spec (processes st) 0); [contradiction |]. cbn.
    destruct (String.eqb _ _); reflexivity. }
  rewrite (iterM_raises _ _ (NameError "line") (Z.of_nat i, x)).
  - reflexivity.
  - now apply enumerate_In.
  - rewrite Hcell. now destruct (String.eqb_spec x (Py.str (Z.of_nat i / processes st + 1))).
  - intros [j y] _. rewrite Hcell. destruct (String.eqb _ _); auto.
Qed.

Lemma C7_bin_mismatch_raises_name_error_witness :
  Parser.header_line (set_processes initial 2) ["bin"; "1"; "2"] = inl (NameError "line")
  /\ run no_options card_bad_bin_row = ([], Some (NameError "line")).
Proof.
  split.
  - apply (C7_bin_mismatch_raises_name_error (set_processes initial 2) ["1"; "2"] 1 "2").
    + reflexivity.
    + reflexivity.
    + vm_compute. discriminate.
  - vm_compute. reflexivity.
Defined.

(** ** Rows of the systematics table *)

Section SystFields.

Variables (st : model) (idx : string) (vals : list string).

Hypothesis Hidx : Py.int idx = inr (Py.len (systs st) + 1).

Let f : list string := idx :: "lnN" :: vals.

Lemma syst_fields_checked :
  Parser.syst_fields st f
  = if Py.len vals + 1 <? bins st * processes st
    then raise (RuntimeError (Parser.shape_msg "Malformed rate line: "
                                (Py.len vals + 1) (bins st) (processes st)))
    else errline <- Parser.read_rows f 2 (bins st) (processes st) ;;
         ret (set_systs st (systs st ++ [errline])%list).
Proof.
  unfold Parser.syst_fields, f.
  change (Py.getitem (idx :: "lnN" :: vals) 0) with (@inr exn string idx).
  cbn [bind]. rewrite Hidx. cbn [bind].
  change (Py.getitem (idx :: "lnN" :: vals) 1) with (@inr exn string "lnN").
  cbn [bind]. rewrite Z.eqb_refl. cbn [negb String.eqb Ascii.eqb Bool.eqb tl].
  replace (Py.len ("lnN" :: vals)) with (Py.len vals + 1)
    by (unfold Py.len; cbn [List.length]; lia).
  reflexivity.
Qed.

(** A row that is two or more numbers short gets the message. *)
Lemma syst_fields_too_short :
  Py.len vals + 1 < bins st * processes st ->
  Parser.syst_fields st f
  = inl (RuntimeError (Parser.shape_msg "Malformed rate line: "
                         (Py.len vals + 1) (bins st) (processes st))).
Proof.
  intros H. rewrite syst_fields_checked.
  destruct (Z.ltb_spec (Py.len vals + 1) (bins st * processes st)); [reflexivity | lia].
Qed.

Hypothesis Hfloats : forall v, In v vals -> exists x, PyFloat.of_string v = inr x.

(** Reading a cell of the row: a number, or no such field. *)
Lemma syst_cell (k : Z) (e : exn) :
  2 <= k ->
  (s <- Py.getitem f k ;; PyFloat.of_string s) = inl e -> e = IndexError.
Proof.
  intros Hk H. destruct (Py.getitem f k) as [e' | s] eqn:E; cbn [bind] in H.
  - injection H as <-. exact (getitem_error _ _ _ E).
  - apply getitem_inr in E; [| lia].
    replace (Z.to_nat k) with (S (S (Z.to_nat (k - 2)))) in E by lia.
    cbn [f nth_error] in E. apply nth_error_In in E.
    destruct (Hfloats _ E) as [x Hx]. congruence.
Qed.

(** A row that is one number short passes the check of line 44 and
    fails on its last cell. *)
Lemma read_rows_one_short :
  1 <= bins st -> 1 <= processes st ->
  Py.len vals = bins st * processes st - 1 ->
  Parser.read_rows f 2 (bins st) (processes st) = inl IndexError.
Proof.
  intros Hb Hp Hlen.
  destruct (Parser.read_rows f 2 (bins st) (processes st)) as [e | rows] eqn:E.
  - f_equal. unfold Parser.read_rows in E.
    apply mapM_inl in E. destruct E as (b & Hbin & E).
    apply mapM_inl in E. destruct E as (p & Hpin & E).
    apply range_In in Hbin. apply range_In in Hpin.
    eapply syst_cell; [| exact E]. nia.
  - exfalso. unfold Parser.read_rows in E.
    destruct (mapM_In _ _ _ (bins st - 1) E) as [row Hrow];
      [apply range_In; lia |].
    destruct (mapM_In _ _ _ (processes st - 1) Hrow) as [y Hy];
      [apply range_In; lia |].
    rewrite getitem_beyond in Hy; [discriminate |].
    unfold Py.len in *. cbn [f List.length]. nia.
Qed.

End SystFields.

(** C6: the check of line 44 counts the distribution-family field among
    the numbers.  A row that is two or more scale factors short is
    rejected with the field-count [RuntimeError]; but a row with exactly
    [bins * processes - 1] scale factors passes the check, and the
    reading of its last cell raises a bare [IndexError]. *)
Theorem C6_rows_too_short (st : model) (idx : string) (vals : list string) :
  Py.int idx = inr (Py.len (systs st) + 1) ->
  (Py.len vals + 1 < bins st * processes st ->
   Parser.syst_fields st (idx :: "lnN" :: vals)
   = inl (RuntimeError (Parser.shape_msg "Malformed rate line: "
                          (Py.len vals + 1) (bins st) (processes st))))
  /\ ((forall v, In v vals -> exists x, PyFloat.of_string v = inr x) ->
      1 <= bins st -> 1 <= processes st ->
      Py.len vals = bins st * processes st - 1 ->
      Parser.syst_fields st (idx :: "lnN" :: vals) = inl IndexError).
Proof.
  intros Hidx. split.
  - now apply syst_fields_too_short.
  - intros Hfl Hb Hp Hlen. rewrite (syst_fields_checked _ _ _ Hidx).
    destruct (Z.ltb_spec (Py.len vals + 1) (bins st * processes st)); [lia |].
    now rewrite (read_rows_one_short st idx vals Hfl Hb Hp Hlen).
Qed.

Lemma C6_rows_too_short_witness :
  Parser.syst_fields (set_processes initial 2) ["1"; "lnN"]
  = inl (RuntimeError "Malformed rate line: 1, while bins*processes = 1*2")
  /\ Parser.syst_fields (set_processes initial 2) ["1"; "lnN"; "1.1"] = inl IndexError
  /\ run no_options card_short_row = ([], Some IndexError).
Proof.
  split; [| split].
  - apply (proj1 (C6_rows_too_short (set_processes initial 2) "1" [] eq_refl)).
    cbn. lia.
  - apply (proj2 (C6_rows_too_short (set_processes initial 2) "1" ["1.1"] eq_refl)).
    + intros v [<- | []]. eexists. vm_compute. reflexivity.
    + cbn. lia.
    + cbn. lia.
    + reflexivity.
  - vm_compute. reflexivity.
Defined.

(** ** The [Observation] line *)

Lemma first_pass_app (pre rest : list string) (st st' : model) :
  headers_read st pre = Some st' ->
  Parser.first_pass st (pre ++ rest) = Parser.first_pass st' rest.
Proof.
  revert st. induction pre as [| l pre IH]; cbn; intros st H.
  - now injection H as <-.
  - destruct (Parser.header_line st (Py.split l)) as [e | [st1 [|]]];
      try discriminate. cbn. now apply IH.
Qed.

(** The bin count in force after header lines without an [imax] line. *)
Lemma headers_read_bins (pre : list string) (st st' : model) :
  headers_read st pre = Some st' -> absent "imax" pre -> bins st' = bins st.
Proof.
  revert st. induction pre as [| l pre IH]; cbn; intros st H Ha.
  - now injection H as <-.
  - destruct (Parser.header_line st (Py.split l)) as [e | [st1 [|]]] eqn:E;
      try discriminate.
    destruct (header_line_effect _ _ _ _ E) as (_ & Hb & _).
    rewrite (IH _ H (Forall_inv_tail Ha)). apply Hb. exact (Forall_inv Ha).
Qed.

(** A run that stops in the first loop prints nothing. *)
Lemma run_first_pass_raises (o : options) (lines : list string) (e : exn) :
  Parser.first_pass initial lines = inl e -> run o lines = ([], Some e).
Proof. intros H. unfold run, Parser.load, Parser.parse. now rewrite H. Qed.

Lemma headers_read_app_inv (pre1 pre2 : list string) (st st' : model) :
  headers_read st (pre1 ++ pre2) = Some st' ->
  exists st1, headers_read st pre1 = Some st1 /\ headers_read st1 pre2 = Some st'.
Proof.
  revert st. induction pre1 as [| l pre1 IH]; cbn; intros st H.
  - eauto.
  - destruct (Parser.header_line st (Py.split l)) as [e | [st1 [|]]];
      try discriminate. now apply IH.
Qed.

(** The bin count in force after header lines is the value of the last
    [imax] line among them. *)
Lemma headers_read_declared_bins
    (pre1 pre2 : list string) (l s : string) (more : list string) (st : model) :
  headers_read initial (pre1 ++ l :: pre2) = Some st ->
  Py.split l = "imax" :: s :: more ->
  absent "imax" pre2 ->
  Py.int s = inr (bins st).
Proof.
  intros H Hl Ha.
  destruct (headers_read_app_inv _ _ _ _ H) as (st1 & _ & H1).
  cbn in H1. rewrite Hl, header_line_imax in H1.
  change (Py.getitem ("imax" :: s :: more) 1) with (@inr exn string s) in H1.
  cbn [bind] in H1. destruct (Py.int s) as [e | v]; [discriminate |].
  cbn in H1. now rewrite (headers_read_bins _ _ _ H1 Ha).
Qed.

(** C8, as stated, fails: an [Observation] line with one value in a
    datacard that declares two bins further down passes the check of line
    26 (made against the default of one bin), and the run prints two
    statements before it stops on a bare [IndexError]. *)
Lemma C8_observation_before_imax :
  Parser.parse card_observation_first
  = inr {| bins := 2; processes := 1; nuisances := 0; obs := [flt "7"];
           exp := [[flt "1"]; [flt "2"]]; systs := [] |}
  /\ run no_options card_observation_first
     = (["/// ----- observables (already set to asimov values) -----";
         "n_obs_bin0[7.000000,0,10000];"],
        Some IndexError).
Proof. split; vm_compute; reflexivity. Qed.

(** C8, amended: when the [Observation] line is reached by the first loop
    and carries a number of values different from the bin count in force
    at that line (the value of the last [imax] line above it, 1 when
    there is none), the run stops there, before anything is printed: with
    the [RuntimeError] of line 26 when the values are numbers, with the
    exception of [float] otherwise. *)
Theorem C8_observation_count
    (o : options) (pre post : list string) (l : string) (vals : list string)
    (st : model) :
  headers_read initial pre = Some st ->
  Py.split l = "Observation" :: vals ->
  Py.len vals <> bins st ->
  (exists e, run o (pre ++ l :: post) = ([], Some e)
             /\ ((forall v, In v vals -> exists x, PyFloat.of_string v = inr x) ->
                 e = RuntimeError ("Found " ++ Py.str (Py.len vals)
                                     ++ " observations but " ++ Py.str (bins st)
                                     ++ " bins")))
  /\ (absent "imax" pre -> bins st = 1)
  /\ (forall pre1 pre2 li s more,
        pre = (pre1 ++ li :: pre2)%list -> Py.split li = "imax" :: s :: more ->
        absent "imax" pre2 -> Py.int s = inr (bins st)).
Proof.
  intros Hpre Hl Hne. split; [| split].
  - assert (Hstep : Parser.first_pass initial (pre ++ l :: post)
                    = '(st', brk) <- Parser.header_line st ("Observation" :: vals) ;;
                      if brk : bool then ret (st', post) else Parser.first_pass st' post).
    { rewrite (first_pass_app _ _ _ _ Hpre). cbn [Parser.first_pass]. now rewrite Hl. }
    rewrite header_line_observation in Hstep.
    destruct (mapM PyFloat.of_string vals) as [e | ov] eqn:E; cbn [bind] in Hstep.
    + exists e. split; [now apply run_first_pass_raises |].
      intros Hfl. destruct (mapM_total _ _ Hfl) as [ys Hys]. congruence.
    + assert (Hlen : Py.len ov = Py.len vals)
        by (unfold Py.len; now rewrite (mapM_length _ _ _ E)).
      rewrite Hlen in Hstep.
      destruct (Z.eqb_spec (Py.len vals) (bins st)) as [| _]; [contradiction |].
      cbn in Hstep. eexists. split; [apply run_first_pass_raises, Hstep |].
      reflexivity.
  - intros Ha. exact (headers_read_bins _ _ _ Hpre Ha).
  - intros pre1 pre2 li s more -> Hli Ha.
    exact (headers_read_declared_bins _ _ _ _ _ _ Hpre Hli Ha).
Qed.

Lemma C8_observation_count_witness :
  run no_options card_three_observations
  = ([], Some (RuntimeError "Found 3 observations but 2 bins")).
Proof.
  destruct (C8_observation_count no_options
              (map ln ["imax 2"; "jmax 1"; "kmax 0"])
              (map ln ["bin 1 1 2 2"; "process 0 1 0 1"; "rate 10 5 8 4"])
              (ln "Observation 3 4 5") ["3"; "4"; "5"]
              {| bins := 2; processes := 2; nuisances := 0; obs := [];
                 exp := []; systs := [] |})
    as ((e & Hrun & He) & _ & Himax).
  - reflexivity.
  - reflexivity.
  - discriminate.
  - assert (Hbins : Py.int "2" = inr 2).
    { apply (Himax [] (map ln ["jmax 1"; "kmax 0"]) (ln "imax 2") "2" []).
      - reflexivity.
      - reflexivity.
      - repeat constructor; vm_compute; discriminate. }
    rewrite He in Hrun; [exact Hrun |].
    intros v [<- | [<- | [<- | []]]]; eexists; vm_compute; reflexivity.
Defined.

(** ** Per-process yields *)

Lemma append_assoc (s1 s2 s3 : string) : ((s1 ++ s2) ++ s3 = s1 ++ (s2 ++ s3))%string.
Proof. induction s1 as [| c s1 IH]; cbn; [reflexivity | now rewrite IH]. Qed.

Lemma append_nil_r (s : string) : (s ++ "" = s)%string.
Proof. induction s as [| c s IH]; cbn; [reflexivity | now rewrite IH]. Qed.

Lemma concat_nil_cons (x : string) (l : list string) :
  String.concat "" (x :: l) = (x ++ String.concat "" l)%string.
Proof. destruct l; cbn; [now rewrite append_nil_r | reflexivity]. Qed.

Lemma str_inj (n n' : Z) : Py.str n = Py.str n' -> n = n'.
Proof.
  intros H. apply DecimalZ.to_int_inj.
  assert (Hisi : forall z, NilZero.int_of_string (Py.str z) = Some (Z.to_int z)).
  { intros z. apply NilZero.isi; destruct z; cbn; try discriminate;
      intros [= E]; exact (Unsigned.to_uint_nonnil _ E). }
  pose proof (Hisi n) as H1. rewrite H, Hisi in H1. now injection H1.
Qed.

Lemma theta_inj (n n' : Z) : Gen.theta n = Gen.theta n' -> n = n'.
Proof. unfold Gen.theta. intros [= H]. now apply str_inj. Qed.

(** The loop of lines 86-89 over the nuisances [l]. *)
Lemma nuisance_terms (st : model) (b p : Z) (l : list Z) (strexpr args : string) :
  (forall n, In n l -> exists v, scale_at st n b p = inr v) ->
  foldM (Gen.nuisance_term st b p) l (strexpr, args)
  = inr ((strexpr ++ String.concat "" (map pow_term (flat_map (acting_one st b p) l)))%string,
         (args ++ String.concat "" (map arg_term (flat_map (acting_one st b p) l)))%string).
Proof.
  revert strexpr args. induction l as [| n l IH]; intros strexpr args H; cbn [foldM flat_map].
  - cbn. now rewrite !append_nil_r.
  - destruct (H n (or_introl eq_refl)) as [v Hv].
    assert (Hstep : Gen.nuisance_term st b p (strexpr, args) n
                    = if PyFloat.ne v PyFloat.one
                      then inr ((strexpr ++ pow_term (n, v))%string,
                                (args ++ arg_term (n, v))%string)
                      else inr (strexpr, args)).
    { unfold Gen.nuisance_term. unfold scale_at in Hv.
      destruct (Py.getitem (systs st) n) as [| sn]; [discriminate |]. cbn [bind] in *.
      destruct (Py.getitem sn b) as [| sb]; [discriminate |]. cbn [bind] in *.
      rewrite Hv. cbn [bind]. reflexivity. }
    rewrite Hstep. unfold acting_one at 1 3. rewrite Hv.
    destruct (PyFloat.ne v PyFloat.one); cbn [bind app map].
    + rewrite IH by (intros; apply H; now right).
      now rewrite !concat_nil_cons, !append_assoc.
    + apply IH. intros; apply H; now right.
Qed.

Lemma process_yield_statement (st : model) (b p : Z) (rate : PyFloat.float) :
  rate_at st b p = inr rate ->
  (forall n, 0 <= n < nuisances st -> exists v, scale_at st n b p = inr v) ->
  Gen.process_yield st b p = ([yield_statement b p rate (acting st b p)], None).
Proof.
  intros Hrate Hscale. unfold Gen.process_yield. unfold rate_at in Hrate.
  rewrite Hrate. cbn [eval].
  rewrite nuisance_terms by (intros n Hn; apply Hscale, range_In, Hn).
  cbn [eval]. fold (acting st b p). unfold yield_statement.
  destruct (acting st b p) as [| t ts]; [reflexivity |].
  cbn [map]. rewrite !concat_nil_cons.
  assert (Hargs : (("" ++ arg_term t ++ String.concat "" (map arg_term ts)) =? "")%string
                  = false) by reflexivity.
  rewrite Hargs. cbn [negb]. unfold Gen.print, emit. cbn [Py.join String.concat].
  unfold Gen.ROOFIT_EXPR. do 2 f_equal.
  change ("" ++ arg_term t ++ String.concat "" (map arg_term ts))%string
    with (arg_term t ++ String.concat "" (map arg_term ts))%string.
  rewrite !append_assoc. reflexivity.
Qed.

(** ** The shape of a loaded model *)

Lemma shaped_lookup (rows : list (list PyFloat.float)) (b p i j : Z) :
  shaped b p rows -> 0 <= i < b -> 0 <= j < p ->
  exists row v, Py.getitem rows i = inr row /\ Py.getitem row j = inr v.
Proof.
  intros [Hlen Hrows] Hi Hj.
  destruct (nth_error rows (Z.to_nat i)) as [row |] eqn:Er;
    [| apply nth_error_None in Er; lia].
  assert (Hrow : List.length row = Z.to_nat p).
  { apply nth_error_In in Er. rewrite Forall_forall in Hrows. now apply Hrows. }
  destruct (nth_error row (Z.to_nat j)) as [v |] eqn:Ev;
    [| apply nth_error_None in Ev; lia].
  exists row, v. split; apply getitem_nth; auto; lia.
Qed.

Lemma check_systs_inr (st : model) :
  Parser.check_systs st = inr tt -> Py.len (systs st) = nuisances st.
Proof.
  unfold Parser.check_systs.
  destruct (Z.eqb_spec (Py.len (systs st)) (nuisances st)); [auto | discriminate].
Qed.

Lemma load_shape (o : options) (lines : list string) (st : model) :
  Parser.load o lines = inr st ->
  (exp st = [] \/ shaped (bins st) (processes st) (exp st))
  /\ Py.len (systs st) = nuisances st
  /\ Forall (shaped (bins st) (processes st)) (systs st).
Proof.
  intros H. destruct (load_inr _ _ _ H) as (st0 & Hparse & -> & Hcheck).
  apply check_systs_inr in Hcheck. split; [| split; [exact Hcheck |]].
  all: unfold Parser.parse in Hparse;
    destruct (Parser.first_pass initial lines) as [e | [st1 rest]] eqn:E1;
    [discriminate |]; cbn [bind] in Hparse;
    destruct (first_pass_effect _ _ _ _ E1) as (Hs1 & _ & _ & _ & He1);
    destruct (second_pass_effect _ _ _ Hparse) as (Hb & Hp & _ & _ & He & Hs).
  - assert (Hexp : exp st0 = [] \/ shaped (bins st0) (processes st0) (exp st0)).
    { rewrite He, Hb, Hp. destruct He1 as [-> | (rows & -> & Hsh)]; auto. }
    unfold Parser.apply_asimov, Parser.apply_stat.
    destruct (asimov o), (stat o); exact Hexp.
  - assert (Hall : Forall (shaped (bins st0) (processes st0)) (systs st0)).
    { rewrite Hb, Hp. apply Hs. rewrite Hs1. constructor. }
    unfold Parser.apply_asimov, Parser.apply_stat.
    destruct (asimov o), (stat o); cbn; auto.
Qed.

Lemma loaded_scale_at (o : options) (lines : list string) (st : model) (n b p : Z) :
  Parser.load o lines = inr st ->
  0 <= n < nuisances st -> 0 <= b < bins st -> 0 <= p < processes st ->
  exists v, scale_at st n b p = inr v.
Proof.
  intros H Hn Hb Hp. destruct (load_shape _ _ _ H) as (_ & Hlen & Hall).
  destruct (nth_error (systs st) (Z.to_nat n)) as [sn |] eqn:En;
    [| apply nth_error_None in En; unfold Py.len in Hlen; lia].
  assert (Hsn : shaped (bins st) (processes st) sn).
  { apply nth_error_In in En. rewrite Forall_forall in Hall. now apply Hall. }
  destruct (shaped_lookup _ _ _ _ _ Hsn Hb Hp) as (sb & v & Hsb & Hv).
  exists v. unfold scale_at. rewrite (getitem_nth _ _ _ (proj1 Hn) En). cbn [bind].
  rewrite Hsb. exact Hv.
Qed.

Lemma loaded_rate_at (o : options) (lines : list string) (st : model) (b p : Z) :
  Parser.load o lines = inr st -> exp st <> [] ->
  0 <= b < bins st -> 0 <= p < processes st ->
  exists rate, rate_at st b p = inr rate.
Proof.
  intros H Hne Hb Hp. destruct (load_shape _ _ _ H) as ([He | Hsh] & _); [contradiction |].
  destruct (shaped_lookup _ _ _ _ _ Hsh Hb Hp) as (row & v & Hrow & Hv).
  exists v. unfold rate_at. now rewrite Hrow.
Qed.

(** ** Asimov mode, on a loaded datacard *)

(** ** Runs that reach the end *)

Lemma andThen_None (a b : output) :
  snd (a >> b) = None ->
  snd a = None /\ snd b = None /\ fst (a >> b) = (fst a ++ fst b)%list.
Proof. destruct a as [oa [ea |]], b as [ob eb]; cbn; [discriminate | auto]. Qed.

Lemma for_each_outputs {A} (g : A -> list string) (body : A -> output) (l : list A) :
  (forall x, In x l -> body x = (g x, None)) ->
  for_each l body = (flat_map g l, None).
Proof.
  induction l as [| x l IH]; intros H; cbn [for_each flat_map]; [reflexivity |].
  rewrite H by now left. rewrite IH by (intros; apply H; now right). reflexivity.
Qed.

(** The block of expected yields of a loaded model holds the statement of
    every process of every bin. *)
Lemma expected_contains (st : model) (b p : Z) (stmt : string) :
  (forall b' p', 0 <= b' < bins st -> 0 <= p' < processes st ->
                 exists s, Gen.process_yield st b' p' = ([s], None)) ->
  0 <= b < bins st -> 0 <= p < processes st ->
  Gen.process_yield st b p = ([stmt], None) ->
  snd (Gen.expected st) = None /\ In stmt (fst (Gen.expected st)).
Proof.
  intros Hall Hb Hp Hstmt. unfold Gen.expected.
  set (g := fun b' => (flat_map (fun p' => fst (Gen.process_yield st b' p'))
                          (Py.range (processes st))
                        ++ fst (Gen.bin_totals st b'))%list).
  rewrite (for_each_outputs g).
  - split; [reflexivity |]. cbn. right. apply in_flat_map. exists b.
    split; [now apply range_In |]. unfold g. apply in_or_app. left.
    apply in_flat_map. exists p. split; [now apply range_In |].
    rewrite Hstmt. now left.
  - intros b' Hb'. apply range_In in Hb'.
    rewrite (for_each_outputs (fun p' => fst (Gen.process_yield st b' p'))).
    + unfold g. now destruct (Gen.bin_totals st b') as [ot [e |]] eqn:E.
    + intros p' Hp'. apply range_In in Hp'.
      destruct (Hall b' p' Hb' Hp') as [s ->]. reflexivity.
Qed.

Lemma acting_In (st : model) (b p n : Z) (v : PyFloat.float) :
  In (n, v) (acting st b p) <->
  0 <= n < nuisances st /\ scale_at st n b p = inr v /\ PyFloat.ne v PyFloat.one = true.
Proof.
  unfold acting. rewrite in_flat_map. split.
  - intros (n' & Hn' & Hin). apply range_In in Hn'. unfold acting_one in Hin.
    destruct (scale_at st n' b p) as [| v'] eqn:E; [contradiction |].
    destruct (PyFloat.ne v' PyFloat.one) eqn:Ene; [| contradiction].
    destruct Hin as [[= <- <-] | []]. auto.
  - intros (Hn & Hv & Hne). exists n. split; [now apply range_In |].
    unfold acting_one. rewrite Hv, Hne. now left.
Qed.

(** C3: for a loaded datacard with a rate row, the statement printed for
    process [p] of bin [b] is the one built from exactly the nuisances
    whose factor at [(b, p)] differs from 1.0.  A nuisance whose factor
    there is exactly 1.0 is not among them, so the statement has no power
    term and no [theta_<n>] argument for it; and when every factor is 1.0
    the statement is the plain symbol [n_exp_bin<b>_proc<p>[<rate>];].
    In a run that reaches its end this statement is part of the output. *)
Theorem C3_unit_factors_omitted
    (o : options) (lines : list string) (st : model) (b p : Z) :
  Parser.load o lines = inr st ->
  exp st <> [] ->
  0 <= b < bins st ->
  0 <= p < processes st ->
  exists rate,
    rate_at st b p = inr rate
    /\ Gen.process_yield st b p = ([yield_statement b p rate (acting st b p)], None)
    /\ (forall n v, scale_at st n b p = inr v -> PyFloat.ne v PyFloat.one = false ->
          ~ In n (map fst (acting st b p))
          /\ ~ In (Gen.theta n) (map (fun t => Gen.theta (fst t)) (acting st b p)))
    /\ ((forall n v, scale_at st n b p = inr v -> PyFloat.ne v PyFloat.one = false) ->
        yield_statement b p rate (acting st b p)
        = Gen.n_exp_bin_proc b p ++ "[" ++ PyFloat.format_g rate ++ "];")
    /\ (snd (run o lines) = None ->
        In (yield_statement b p rate (acting st b p)) (fst (run o lines))).
Proof.
  intros Hload Hexp Hb Hp.
  assert (Hyield : forall b' p', 0 <= b' < bins st -> 0 <= p' < processes st ->
             exists rate, rate_at st b' p' = inr rate
                          /\ Gen.process_yield st b' p'
                             = ([yield_statement b' p' rate (acting st b' p')], None)).
  { intros b' p' Hb' Hp'.
    destruct (loaded_rate_at _ _ _ _ _ Hload Hexp Hb' Hp') as [rate Hrate].
    exists rate. split; [exact Hrate |]. apply process_yield_statement; [exact Hrate |].
    intros n Hn. now apply (loaded_scale_at o lines). }
  destruct (Hyield b p Hb Hp) as (rate & Hrate & Hstmt).
  exists rate. split; [exact Hrate |]. split; [exact Hstmt |].
  assert (Hnot : forall n v, scale_at st n b p = inr v ->
                             PyFloat.ne v PyFloat.one = false ->
                             ~ In n (map fst (acting st b p))).
  { intros n v Hv Hone Hin. apply in_map_iff in Hin.
    destruct Hin as ([n' v'] & Hfst & Hin). cbn in Hfst. subst n'.
    apply acting_In in Hin. destruct Hin as (_ & Hv' & Hne). congruence. }
  split; [| split].
  - intros n v Hv Hone. split; [now apply (Hnot n v) |].
    intros Hin. apply in_map_iff in Hin. destruct Hin as (t & Ht & Hin).
    apply theta_inj in Ht. apply (Hnot n v Hv Hone). apply in_map_iff.
    now exists t.
  - intros Hall. destruct (acting st b p) as [| [n v] ts] eqn:E; [reflexivity |].
    exfalso. assert (Hin : In (n, v) (acting st b p)) by (rewrite E; now left).
    apply acting_In in Hin. destruct Hin as (_ & Hv & Hne).
    rewrite (Hall n v Hv) in Hne. discriminate.
  - rewrite (run_loaded _ _ _ Hload). unfold Gen.generate. intros Hend.
    destruct (andThen_None _ _ Hend) as (_ & H1 & ->).
    destruct (andThen_None _ _ H1) as (_ & H2 & ->).
    destruct (andThen_None _ _ H2) as (_ & H3 & ->).
    destruct (andThen_None _ _ H3) as (_ & _ & ->).
    apply in_or_app. right. apply in_or_app. right. apply in_or_app. right.
    apply in_or_app. left.
    refine (proj2 (expected_contains st b p _ _ Hb Hp Hstmt)).
    intros b' p' Hb' Hp'. destruct (Hyield b' p' Hb' Hp') as (r & _ & Hs). eauto.
Qed.

Lemma C3_unit_factors_omitted_witness :
  In "n_exp_bin0_proc0 = expr('10.5  * pow(1.100000,theta_0)', theta_0);"
     (fst (run no_options card_two_systematics))
  /\ ~ In (Gen.theta 1) (map (fun t => Gen.theta (fst t))
                           (acting card_two_systematics_model 0 0)).
Proof.
  destruct (C3_unit_factors_omitted no_options card_two_systematics
              card_two_systematics_model 0 0)
    as (rate & Hrate & _ & Hnot & _ & Hin).
  - vm_compute. reflexivity.
  - discriminate.
  - cbn. lia.
  - cbn. lia.
  - assert (rate = flt "10.5") as -> by (vm_compute in Hrate; now injection Hrate).
    split.
    + apply Hin. vm_compute. reflexivity.
    + apply (Hnot 1 (flt "1.0")); vm_compute; reflexivity.
Defined.

(** ** Rounding *)

Lemma div_rne_bounds (N D : Z) : 0 < D -> N / D <= PyFloat.div_rne N D <= N / D + 1.
Proof.
  intros HD. unfold PyFloat.div_rne.
  destruct (2 * (N mod D) ?= D); [destruct (Z.even (N / D)) | |]; lia.
Qed.

Lemma div_rne_exact (q D : Z) : 0 < D -> PyFloat.div_rne (q * D) D = q.
Proof.
  intros HD. unfold PyFloat.div_rne.
  rewrite Z.mod_mul, Z.div_mul by lia.
  change (2 * 0) with 0. now destruct (Z.compare_spec 0 D); try lia.
Qed.

Lemma div_rne_scale (c N D : Z) :
  0 < c -> 0 < D -> PyFloat.div_rne (c * N) (c * D) = PyFloat.div_rne N D.
Proof.
  intros Hc HD. unfold PyFloat.div_rne.
  rewrite Z.div_mul_cancel_l, Z.mul_mod_distr_l by lia.
  replace (2 * (c * (N mod D))) with (c * (2 * (N mod D))) by lia.
  destruct (Z.compare_spec (c * (2 * (N mod D))) (c * D)),
    (Z.compare_spec (2 * (N mod D)) D); try reflexivity; nia.
Qed.

(** [round_ratio] when the rounded mantissa fits. *)
Lemma round_ratio_finite (s : bool) (N D e : Z) (m : positive) :
  N <> 0 ->
  e = Z.max (PyFloat.ilog2_ratio N D - 52) (-1074) ->
  PyFloat.div_rne (PyFloat.scale_num N e) (PyFloat.scale_den D e) = Zpos m ->
  Zpos m < 2 ^ 53 ->
  e <= 971 ->
  PyFloat.round_ratio s N D = S754_finite s m e.
Proof.
  intros HN He Hm Hlt Hmax. unfold PyFloat.round_ratio.
  destruct (Z.eqb_spec N 0); [contradiction |].
  change (Z.max (PyFloat.ilog2_ratio N D - (PyFloat.prec - 1)) PyFloat.emin)
    with (Z.max (PyFloat.ilog2_ratio N D - 52) (-1074)).
  rewrite <- He. cbv zeta. rewrite Hm.
  change (2 ^ PyFloat.prec) with (2 ^ 53).
  destruct (Z.eqb_spec (Zpos m) (2 ^ 53)); [lia |].
  change (PyFloat.emax - PyFloat.prec) with 971.
  destruct (Z.leb_spec e 971); [reflexivity | lia].
Qed.

(** Integers below 2^53 are floats. *)
Lemma round_ratio_integer (c : Z) :
  0 < c < 2 ^ 53 ->
  PyFloat.round_ratio false c 1
  = S754_finite false (Z.to_pos (c * 2 ^ (52 - Z.log2 c))) (Z.log2 c - 52).
Proof.
  intros Hc.
  assert (Hl : 0 <= Z.log2 c < 53).
  { split; [apply Z.log2_nonneg |]. apply Z.log2_lt_pow2; lia. }
  pose proof (Z.log2_spec c (proj1 Hc)) as Hspec.
  assert (Hfl : PyFloat.ilog2_ratio c 1 = Z.log2 c).
  { unfold PyFloat.ilog2_ratio, PyFloat.scale_den, PyFloat.scale_num.
    change (Z.log2 1) with 0. rewrite Z.sub_0_r.
    rewrite Z.max_r, Z.max_l by lia. rewrite Z.pow_0_r.
    destruct (Z.leb_spec (1 * 2 ^ Z.log2 c) (c * 1)); [reflexivity | lia]. }
  assert (Hm : 2 ^ 52 <= c * 2 ^ (52 - Z.log2 c) < 2 ^ 53).
  { replace (2 ^ 52) with (2 ^ Z.log2 c * 2 ^ (52 - Z.log2 c))
      by (rewrite <- Z.pow_add_r by lia; f_equal; lia).
    replace (2 ^ 53) with (2 ^ Z.succ (Z.log2 c) * 2 ^ (52 - Z.log2 c))
      by (rewrite <- Z.pow_add_r by lia; f_equal; lia).
    assert (0 < 2 ^ (52 - Z.log2 c)) by (apply Z.pow_pos_nonneg; lia).
    nia. }
  apply round_ratio_finite.
  - lia.
  - rewrite Hfl. lia.
  - unfold PyFloat.scale_num, PyFloat.scale_den.
    rewrite Z.max_r, Z.max_l by lia. rewrite Z.pow_0_r.
    replace (- (Z.log2 c - 52)) with (52 - Z.log2 c) by lia.
    rewrite Z2Pos.id by lia.
    replace (c * 2 ^ (52 - Z.log2 c)) with ((c * 2 ^ (52 - Z.log2 c)) * (1 * 1)) at 1 by lia.
    apply div_rne_exact. lia.
  - rewrite Z2Pos.id; lia.
  - lia.
Qed.

Lemma to_int_integer (c : Z) :
  0 < c < 2 ^ 53 -> PyFloat.to_int (PyFloat.round_ratio false c 1) = inr c.
Proof.
  intros Hc. rewrite round_ratio_integer by exact Hc.
  assert (Hl : 0 <= Z.log2 c < 53).
  { split; [apply Z.log2_nonneg |]. apply Z.log2_lt_pow2; lia. }
  assert (Hp : 0 < 2 ^ (52 - Z.log2 c)) by (apply Z.pow_pos_nonneg; lia).
  unfold PyFloat.to_int, ret. rewrite Z2Pos.id by nia. f_equal.
  destruct (Z.leb_spec 0 (Z.log2 c - 52)).
  - replace (Z.log2 c - 52) with 0 by lia. replace (52 - Z.log2 c) with 0 by lia.
    rewrite Z.pow_0_r. lia.
  - replace (- (Z.log2 c - 52)) with (52 - Z.log2 c) by lia.
    apply Z.div_mul. lia.
Qed.

Lemma ilog2_ratio_cases (N D : Z) :
  PyFloat.ilog2_ratio N D = Z.log2 N - Z.log2 D
  \/ PyFloat.ilog2_ratio N D = Z.log2 N - Z.log2 D - 1.
Proof. unfold PyFloat.ilog2_ratio. destruct (_ <=? _); auto. Qed.

Lemma ilog2_ratio_upper (N D : Z) :
  0 < N -> 0 < D -> 0 <= PyFloat.ilog2_ratio N D ->
  N < D * 2 ^ (PyFloat.ilog2_ratio N D + 1).
Proof.
  intros HN HD. unfold PyFloat.ilog2_ratio, PyFloat.scale_num, PyFloat.scale_den.
  set (l := Z.log2 N - Z.log2 D).
  destruct (Z.leb_spec (D * 2 ^ Z.max 0 l) (N * 2 ^ Z.max 0 (- l))) as [_ | H]; intros Hl.
  - pose proof (Z.log2_spec N HN) as [_ HNu]. pose proof (Z.log2_spec D HD) as [HDl _].
    pose proof (Z.log2_nonneg D) as HlD.
    replace (Z.succ (Z.log2 N)) with (Z.log2 D + (l + 1)) in HNu by (unfold l; lia).
    rewrite Z.pow_add_r in HNu by lia.
    assert (0 < 2 ^ (l + 1)) by (apply Z.pow_pos_nonneg; lia). nia.
  - rewrite Z.max_l, Z.max_r in H by lia. rewrite Z.pow_0_r in H.
    replace (l - 1 + 1) with l by lia. lia.
Qed.

Lemma rounded_mantissa_bounds (X y m : Z) :
  X = 16 * y -> 256 <= X -> X < 10 * 2 ^ 53 -> X / 10 <= m <= X / 10 + 1 ->
  0 < m < 2 ^ 53.
Proof.
  change (2 ^ 53) with 9007199254740992. intros HX Hlo Hhi Hm.
  assert (Hy : y <= 5629499534213119) by lia.
  assert (Hq : 25 <= X / 10 <= 9007199254740990).
  { split; [apply Z.div_le_lower_bound; lia |].
    apply Z.lt_succ_r. apply Z.div_lt_upper_bound; lia. }
  lia.
Qed.

(** The quotient of an integer by ten, as the script computes it. *)
Lemma div_by_ten (B : Z) :
  16 <= B < 2 ^ 52 ->
  exists m a,
    4 <= a <= 52
    /\ PyFloat.div (PyFloat.round_ratio false B 1) PyFloat.ten
       = inr (S754_finite false m (- a))
    /\ Zpos m = PyFloat.div_rne (B * 2 ^ a) 10.
Proof.
  intros HB.
  assert (HlB : 4 <= Z.log2 B < 52).
  { split; [apply Z.log2_le_pow2; lia | apply Z.log2_lt_pow2; lia]. }
  rewrite round_ratio_integer by lia.
  assert (HX : 0 < 2 ^ (52 - Z.log2 B)) by (apply Z.pow_pos_nonneg; lia).
  unfold PyFloat.div, PyFloat.ten. rewrite Z2Pos.id by nia.
  replace (Z.max 0 (Z.log2 B - 52 - -49)) with (Z.log2 B - 3) by lia.
  replace (Z.max 0 (-49 - (Z.log2 B - 52))) with 0 by lia.
  rewrite <- Z.mul_assoc, <- Z.pow_add_r by lia.
  replace (52 - Z.log2 B + (Z.log2 B - 3)) with 49 by lia.
  change (Z.pos (5 * 2 ^ 50) * 2 ^ 0) with (2 ^ 49 * 10).
  set (N := B * 2 ^ 49). set (D := 2 ^ 49 * 10).
  assert (HN : 0 < N) by (unfold N; lia).
  assert (HD : 0 < D) by (unfold D; lia).
  assert (Hl : Z.log2 N - Z.log2 D = Z.log2 B - 3).
  { unfold N. rewrite Z.log2_mul_pow2 by lia. change (Z.log2 D) with 52. lia. }
  set (fl := PyFloat.ilog2_ratio N D).
  assert (Hfl : 0 <= fl <= 48)
    by (unfold fl; destruct (ilog2_ratio_cases N D) as [-> | ->]; lia).
  pose proof (ilog2_ratio_upper N D HN HD (proj1 Hfl)) as Hup. fold fl in Hup.
  set (a := 52 - fl).
  assert (HP : 16 <= 2 ^ a).
  { change 16 with (2 ^ 4). apply Z.pow_le_mono_r; unfold a; lia. }
  assert (Hlt : B * 2 ^ a < 10 * 2 ^ 53).
  { replace (2 ^ 53) with (2 ^ (fl + 1) * 2 ^ a)
      by (rewrite <- Z.pow_add_r by (unfold a; lia); f_equal; unfold a; lia).
    assert (0 < 2 ^ (fl + 1)) by (apply Z.pow_pos_nonneg; lia).
    unfold N, D in Hup. nia. }
  assert (Hmul : B * 2 ^ a = 16 * (B * 2 ^ (a - 4))).
  { replace (2 ^ a) with (2 ^ 4 * 2 ^ (a - 4))
      by (rewrite <- Z.pow_add_r by (unfold a; lia); f_equal; lia).
    change (2 ^ 4) with 16. ring. }
  pose proof (div_rne_bounds (B * 2 ^ a) 10 ltac:(lia)) as Hm.
  assert (Hm0 : 0 < PyFloat.div_rne (B * 2 ^ a) 10 < 2 ^ 53).
  { apply (rounded_mantissa_bounds _ _ _ Hmul); [nia | exact Hlt | exact Hm]. }
  exists (Z.to_pos (PyFloat.div_rne (B * 2 ^ a) 10)), a.
  split; [unfold a; lia |]. split; [| rewrite Z2Pos.id; lia].
  unfold ret. cbn [xorb]. f_equal. apply round_ratio_finite.
  - lia.
  - fold fl. unfold a. lia.
  - unfold PyFloat.scale_num, PyFloat.scale_den.
    replace (Z.max 0 (- - a)) with a by (unfold a; lia).
    replace (Z.max 0 (- a)) with 0 by (unfold a; lia).
    rewrite Z2Pos.id by lia. unfold N, D.
    replace (B * 2 ^ 49 * 2 ^ a) with (2 ^ 49 * (B * 2 ^ a)) by ring.
    replace (2 ^ 49 * 10 * 2 ^ 0) with (2 ^ 49 * 10) by (rewrite Z.pow_0_r; ring).
    apply div_rne_scale; lia.
  - rewrite Z2Pos.id; lia.
  - unfold a. lia.
Qed.

(** Rounding [B / 10] to a multiple of [1 / P] does not move it across
    an integer when [P] is at least 16. *)
Lemma ceil_of_rounded (B P : Z) :
  0 <= B -> 16 <= P ->
  (PyFloat.div_rne (B * P) 10 + P - 1) / P = (B + 9) / 10.
Proof.
  intros HB HP.
  pose proof (Z.div_mod B 10 ltac:(lia)) as HBk.
  pose proof (Z.mod_pos_bound B 10 ltac:(lia)) as Hj.
  assert (Hk : 0 <= B / 10) by (apply Z.div_pos; lia).
  generalize dependent (B mod 10). generalize dependent (B / 10). intros k Hk j HBk Hj.
  replace ((B + 9) / 10) with (if j =? 0 then k else k + 1)
    by (destruct (Z.eqb_spec j 0);
        [apply (Z.div_unique_pos _ _ k 9) | apply (Z.div_unique_pos _ _ (k + 1) (j - 1))];
        lia).
  destruct (Z.eqb_spec j 0) as [Hj0 | Hj0].
  - replace (B * P) with (k * P * 10) by nia.
    rewrite div_rne_exact by lia.
    symmetry. apply (Z.div_unique_pos _ _ k (P - 1)); lia.
  - pose proof (div_rne_bounds (B * P) 10 ltac:(lia)) as Hm.
    replace (B * P) with (k * P * 10 + j * P) in * by nia.
    rewrite Z.div_add_l in Hm by lia.
    assert (HjP : 16 <= j * P <= 9 * P) by nia.
    assert (Hq : 1 <= j * P / 10 <= P - 1).
    { split; [apply Z.div_le_lower_bound; lia |].
      apply Z.lt_succ_r. apply Z.div_lt_upper_bound; lia. }
    generalize dependent (PyFloat.div_rne (k * P * 10 + j * P) 10). intros m Hm.
    symmetry. apply (Z.div_unique_pos _ _ (k + 1) (m + P - 1 - (k + 1) * P)); nia.
Qed.

(** Line 110 computes the integer ceiling of [bins / 10]. *)
Lemma nblocks_exact (B : Z) :
  16 <= B < 2 ^ 52 -> Gen.nblocks B = inr ((B + 9) / 10).
Proof.
  intros HB. unfold Gen.nblocks.
  assert (Hof : PyFloat.of_int B = inr (PyFloat.round_ratio false B 1)).
  { unfold PyFloat.of_int. destruct (Z.ltb_spec B 0); [lia |].
    rewrite Z.abs_eq by lia. now rewrite round_ratio_integer by lia. }
  rewrite Hof. cbn [bind].
  destruct (div_by_ten B HB) as (m & a & Ha & -> & Hm). cbn [bind].
  unfold PyFloat.ceil. destruct (Z.leb_spec 0 (- a)); [lia |].
  rewrite Z.opp_involutive, Hm.
  assert (HP : 16 <= 2 ^ a).
  { change 16 with (2 ^ 4). apply Z.pow_le_mono_r; lia. }
  rewrite ceil_of_rounded by lia.
  apply to_int_integer. split.
  - apply Z.div_str_pos. lia.
  - apply Z.div_lt_upper_bound; lia.
Qed.


(** ** Aggregation *)






Lemma print3 (a b c : string) :
  Gen.print [a; b; c] = ([a ++ " " ++ b ++ " " ++ c], None).
Proof. reflexivity. Qed.

Lemma block_output (prefix : string) (bins i : Z) :
  Gen.block prefix bins i = (block_statements prefix bins i, None).
Proof.
  unfold Gen.block, block_statements, product_of. rewrite !print3. cbn [andThen fst snd app].
  fold (block_bins bins i). now rewrite !append_assoc.
Qed.

Lemma aggregate_blocks (prefix : string) (bins n : Z) :
  50 < bins -> Gen.nblocks bins = inr n ->
  Gen.aggregate prefix bins
  = ((flat_map (block_statements prefix bins) (Py.range n)
        ++ combined_statements prefix n)%list, None).
Proof.
  intros Hb Hn. unfold Gen.aggregate.
  destruct (Z.ltb_spec 50 bins); [| lia]. rewrite Hn. cbn [eval].
  rewrite (for_each_outputs (block_statements prefix bins))
    by (intros; apply block_output).
  rewrite !print3. cbn [andThen fst snd app]. unfold combined_statements, product_of.
  now rewrite !append_assoc.
Qed.

Lemma aggregate_direct (prefix : string) (bins : Z) :
  bins <= 50 ->
  Gen.aggregate prefix bins
  = ([direct_product_of (prefix ++ "_s") (map Gen.pdf_bin (Py.range (Z.min 50 bins)));
      direct_product_of (prefix ++ "_b")
        (map Gen.pdf_bin_bonly (Py.range (Z.min 50 bins)))], None).
Proof.
  intros Hb. unfold Gen.aggregate.
  destruct (Z.ltb_spec 50 bins); [lia |].
  rewrite !print3. cbn [andThen fst snd app]. unfold direct_product_of.
  now rewrite !append_assoc.
Qed.



(** * Further properties of the parser and of the generator *)

(** ** Rows of the systematics table, accepted and refused *)

Lemma syst_fields_inr (st st' : model) (f : list string) :
  Parser.syst_fields st f = inr st' ->
  exists idx rest errline,
    f = idx :: "lnN" :: rest
    /\ Py.int idx = inr (Py.len (systs st) + 1)
    /\ Parser.read_rows f 2 (bins st) (processes st) = inr errline
    /\ st' = set_systs st (systs st ++ [errline])%list.
Proof.
  unfold Parser.syst_fields. destruct f as [| idx [| pdf rest]]; try discriminate.
  - cbn. destruct (Py.int idx); discriminate.
  - change (Py.getitem (idx :: pdf :: rest) 0) with (@inr exn string idx).
    cbn [bind]. destruct (Py.int idx) as [e | n] eqn:En; [discriminate |]. cbn [bind].
    change (Py.getitem (idx :: pdf :: rest) 1) with (@inr exn string pdf). cbn [bind].
    destruct (Z.eqb_spec n (Py.len (systs st) + 1)) as [-> | _]; [| discriminate].
    cbn [negb]. destruct (String.eqb_spec pdf "lnN") as [-> | _]; [| discriminate].
    cbn [negb]. destruct (_ <? _); [discriminate |].
    destruct (Parser.read_rows _ _ _ _) as [e | errline] eqn:Er; [discriminate |].
    cbn [bind]. intros [= <-]. now exists idx, rest, errline.
Qed.

(** X1: a row of the systematics table whose index is an integer other
    than the number of rows read so far plus one is refused.  When a
    second field follows the index the row raises [RuntimeError]
    "Unexpected systematic <index>", whatever that field and the rest of
    the row are; when the index stands alone it raises a bare
    [IndexError], line 41 reading the second field before line 42 looks
    at the index. *)
Theorem X1_unexpected_systematic
    (st : model) (idx : string) (rest : list string) (n : Z) :
  Py.int idx = inr n ->
  n <> Py.len (systs st) + 1 ->
  Parser.syst_fields st (idx :: rest)
  = inl (match rest with
         | [] => IndexError
         | _ :: _ => RuntimeError ("Unexpected systematic " ++ Py.str n)
         end).
Proof.
  intros Hn Hne. unfold Parser.syst_fields.
  change (Py.getitem (idx :: rest) 0) with (@inr exn string idx).
  cbn [bind]. rewrite Hn. cbn [bind].
  destruct rest as [| pdf rest]; [reflexivity |].
  change (Py.getitem (idx :: pdf :: rest) 1) with (@inr exn string pdf). cbn [bind].
  destruct (Z.eqb_spec n (Py.len (systs st) + 1)); [contradiction | reflexivity].
Qed.

Lemma X1_unexpected_systematic_witness :
  Parser.syst_fields initial ["2"; "lnN"; "1.1"]
  = inl (RuntimeError "Unexpected systematic 2")
  /\ Parser.syst_fields initial ["2"] = inl IndexError.
Proof.
  split.
  - apply (X1_unexpected_systematic initial "2" ["lnN"; "1.1"] 2).
    + reflexivity.
    + cbn. lia.
  - apply (X1_unexpected_systematic initial "2" [] 2).
    + reflexivity.
    + cbn. lia.
Defined.

(** X2: a row with the right index and a distribution family other than
    [lnN] is refused with [RuntimeError] "Unsupported pdf <family>",
    before its numbers are counted or read. *)
Theorem X2_unsupported_pdf
    (st : model) (idx pdf : string) (rest : list string) :
  Py.int idx = inr (Py.len (systs st) + 1) ->
  pdf <> "lnN" ->
  Parser.syst_fields st (idx :: pdf :: rest)
  = inl (RuntimeError ("Unsupported pdf " ++ pdf)).
Proof.
  intros Hn Hne. unfold Parser.syst_fields.
  change (Py.getitem (idx :: pdf :: rest) 0) with (@inr exn string idx).
  cbn [bind]. rewrite Hn. cbn [bind].
  change (Py.getitem (idx :: pdf :: rest) 1) with (@inr exn string pdf). cbn [bind].
  rewrite Z.eqb_refl. cbn [negb].
  destruct (String.eqb_spec pdf "lnN"); [contradiction | reflexivity].
Qed.

Lemma X2_unsupported_pdf_witness :
  Parser.syst_fields initial ["1"; "gmN"; "abc"]
  = inl (RuntimeError "Unsupported pdf gmN").
Proof.
  apply (X2_unsupported_pdf initial "1" "gmN" ["abc"]).
  - reflexivity.
  - discriminate.
Defined.

Lemma syst_line_comment (st : model) (l : string) :
  is_row l = false -> Parser.syst_line st l = inr st.
Proof.
  unfold is_row, Parser.syst_line. now destruct (Py.startswith l "--").
Qed.

Lemma syst_line_row (st : model) (l : string) :
  is_row l = true -> Parser.syst_line st l = Parser.syst_fields st (Py.split l).
Proof.
  unfold is_row, Parser.syst_line. now destruct (Py.startswith l "--").
Qed.

(** X3: when the second loop reads the rest of the file without raising,
    the lines it did not skip are numbered on from the rows already read,
    one by one, each with the family [lnN], and the model has one more
    table of scale factors for each of them. *)
Theorem X3_rows_are_numbered (lines : list string) (st st' : model) :
  Parser.second_pass st lines = inr st' ->
  Py.len (systs st') = Py.len (systs st) + Py.len (rows_of lines)
  /\ Forall2 numbered_row (rows_of lines)
       (Py.range2 (Py.len (systs st) + 1)
                  (Py.len (systs st) + 1 + Py.len (rows_of lines))).
Proof.
  unfold Parser.second_pass, rows_of. revert st.
  induction lines as [| l lines IH]; intros st H; cbn [foldM filter] in *.
  - injection H as <-. split; [unfold Py.len; cbn; lia |].
    rewrite range2_nil by (unfold Py.len; cbn; lia). constructor.
  - destruct (Parser.syst_line st l) as [e | st1] eqn:E; [discriminate |].
    cbn [bind] in H. destruct (IH _ H) as [Hlen Hall].
    destruct (is_row l) eqn:Hrow.
    + rewrite (syst_line_row _ _ Hrow) in E.
      destruct (syst_fields_inr _ _ _ E) as (idx & rest & errline & Hf & Hidx & _ & ->).
      assert (Hs : Py.len (systs (set_systs st (systs st ++ [errline])%list))
                   = Py.len (systs st) + 1)
        by (unfold Py.len; cbn [systs set_systs]; rewrite length_app; cbn; lia).
      rewrite Hs in Hlen, Hall.
      assert (Hcons : Py.len (l :: filter is_row lines)
                      = Py.len (filter is_row lines) + 1)
        by (unfold Py.len; cbn [List.length]; lia).
      rewrite Hcons. split; [lia |].
      rewrite range2_cons by (unfold Py.len; lia). constructor.
      * now exists idx, rest.
      * replace (Py.len (systs st) + 1 + (Py.len (filter is_row lines) + 1))
          with (Py.len (systs st) + 1 + 1 + Py.len (filter is_row lines)) by lia.
        exact Hall.
    + rewrite (syst_line_comment _ _ Hrow) in E. injection E as <-. now split.
Qed.

Lemma X3_rows_are_numbered_witness :
  Forall2 numbered_row (map ln ["1 lnN 1.1 1.0"; "2 lnN 1.0 1.3"]) [1; 2].
Proof.
  refine (proj2 (X3_rows_are_numbered
                   (map ln ["--------"; "1 lnN 1.1 1.0"; "2 lnN 1.0 1.3"])
                   (set_processes initial 2)
                   {| bins := 1; processes := 2; nuisances := 0; obs := []; exp := [];
                      systs := [[[flt "1.1"; flt "1.0"]]; [[flt "1.0"; flt "1.3"]]] |} _)).
  vm_compute. reflexivity.
Defined.

(** X4: the lines that start with two dashes play no part: the second
    loop gives the same result, model or exception, on the file with
    those lines taken out. *)
Theorem X4_comment_lines_are_skipped (lines : list string) (st : model) :
  Parser.second_pass st lines = Parser.second_pass st (rows_of lines).
Proof.
  unfold Parser.second_pass, rows_of. revert st.
  induction lines as [| l lines IH]; intros st; cbn [foldM filter]; [reflexivity |].
  destruct (is_row l) eqn:Hrow; cbn [foldM].
  - destruct (Parser.syst_line st l); cbn [bind]; [reflexivity | apply IH].
  - rewrite (syst_line_comment _ _ Hrow). cbn [bind]. apply IH.
Qed.

(** ** Fields beyond the table *)

Lemma getitem_app {A} (f extra : list A) (i : Z) :
  0 <= i < Py.len f -> Py.getitem (f ++ extra)%list i = Py.getitem f i.
Proof.
  intros Hi. unfold Py.len in Hi.
  destruct (nth_error f (Z.to_nat i)) as [x |] eqn:E;
    [| apply nth_error_None in E; lia].
  rewrite (getitem_nth f i x) by (auto; lia).
  apply getitem_nth; [lia |]. rewrite nth_error_app1 by lia. exact E.
Qed.

Lemma mapM_ext {A B} (f g : A -> result B) (l : list A) :
  (forall x, In x l -> f x = g x) -> mapM f l = mapM g l.
Proof.
  induction l as [| x l IH]; intros H; cbn; [reflexivity |].
  rewrite (H x) by now left. destruct (g x); cbn; [reflexivity |].
  now rewrite IH by (intros; apply H; now right).
Qed.

(** The cells of a table lie below [off + b * p]. *)
Lemma cell_index_bound (b p i j : Z) :
  0 <= i < b -> 0 <= j < p -> 0 <= i * p + j < b * p.
Proof. intros Hi Hj. nia. Qed.

Lemma read_rows_app (f extra : list string) (off b p : Z) :
  0 <= off -> off + b * p <= Py.len f ->
  Parser.read_rows (f ++ extra)%list off b p = Parser.read_rows f off b p.
Proof.
  intros Hoff Hlen. unfold Parser.read_rows.
  apply mapM_ext. intros i Hi. apply mapM_ext. intros j Hj.
  apply range_In in Hi. apply range_In in Hj.
  pose proof (cell_index_bound b p i j Hi Hj).
  rewrite getitem_app by lia. reflexivity.
Qed.

(** X5: the [rate] row and the rows of the systematics table may carry
    more fields than [bins * processes] numbers (a label, a comment): the
    fields after the table are neither counted against the row nor read,
    so the row is accepted or refused, and the model changed, as
    without them. *)
Theorem X5_trailing_fields_are_ignored
    (st : model) (idx pdf : string) (vals extra : list string) :
  bins st * processes st <= Py.len vals ->
  Parser.header_line st ("rate" :: vals ++ extra)%list
  = Parser.header_line st ("rate" :: vals)
  /\ Parser.syst_fields st (idx :: pdf :: vals ++ extra)%list
     = Parser.syst_fields st (idx :: pdf :: vals).
Proof.
  intros Hlen.
  assert (Happ : Py.len (vals ++ extra)%list = Py.len vals + Py.len extra)
    by (unfold Py.len; rewrite length_app; lia).
  assert (Hextra : 0 <= Py.len extra) by (unfold Py.len; lia).
  split.
  - rewrite !header_line_rate, Happ.
    destruct (Z.ltb_spec (Py.len vals) (bins st * processes st)); [lia |].
    destruct (Z.ltb_spec (Py.len vals + Py.len extra) (bins st * processes st)); [lia |].
    change ("rate" :: vals ++ extra)%list with (("rate" :: vals) ++ extra)%list.
    rewrite read_rows_app; [reflexivity | lia |].
    unfold Py.len in *. cbn [List.length]. lia.
  - unfold Parser.syst_fields.
    change (Py.getitem (idx :: pdf :: vals ++ extra)%list 0) with (@inr exn string idx).
    change (Py.getitem (idx :: pdf :: vals) 0) with (@inr exn string idx).
    cbn [bind]. destruct (Py.int idx) as [e | n]; [reflexivity |]. cbn [bind].
    change (Py.getitem (idx :: pdf :: vals ++ extra)%list 1) with (@inr exn string pdf).
    change (Py.getitem (idx :: pdf :: vals) 1) with (@inr exn string pdf).
    cbn [bind tl]. destruct (negb _); [reflexivity |]. destruct (negb _); [reflexivity |].
    assert (H1 : Py.len (pdf :: vals) = Py.len vals + 1)
      by (unfold Py.len; cbn [List.length]; lia).
    assert (H2 : Py.len (pdf :: vals ++ extra)%list = Py.len vals + Py.len extra + 1)
      by (unfold Py.len in *; cbn [List.length]; rewrite length_app; lia).
    rewrite H1, H2.
    destruct (Z.ltb_spec (Py.len vals + 1) (bins st * processes st)); [lia |].
    destruct (Z.ltb_spec (Py.len vals + Py.len extra + 1) (bins st * processes st));
      [lia |].
    change (idx :: pdf :: vals ++ extra)%list with ((idx :: pdf :: vals) ++ extra)%list.
    rewrite read_rows_app; [reflexivity | lia |].
    unfold Py.len in *. cbn [List.length]. lia.
Qed.

Lemma X5_trailing_fields_are_ignored_witness :
  Parser.syst_fields (set_processes initial 2) ["1"; "lnN"; "1.1"; "1.0"; "lumi"]
  = Parser.syst_fields (set_processes initial 2) ["1"; "lnN"; "1.1"; "1.0"].
Proof.
  refine (proj2 (X5_trailing_fields_are_ignored (set_processes initial 2)
                   "1" "lnN" ["1.1"; "1.0"] ["lumi"] _)).
  cbn. lia.
Defined.

(** ** Where the numbers of a row go *)

Lemma mapM_nth {A B} (f : A -> result B) (l : list A) (ys : list B) (k : nat) (x : A) :
  mapM f l = inr ys -> nth_error l k = Some x ->
  exists y, f x = inr y /\ nth_error ys k = Some y.
Proof.
  intros H. apply mapM_Forall2 in H. revert k.
  induction H as [| a y l ys Hay _ IH]; intros [| k] Hk; try discriminate.
  - injection Hk as <-. eauto.
  - now apply IH.
Qed.

(** The cell [(i, j)] of a table read from a row is the number written in
    field [off + i * p + j]. *)
Lemma read_rows_cell (f : list string) (off b p i j : Z)
    (rows : list (list PyFloat.float)) :
  Parser.read_rows f off b p = inr rows ->
  0 <= i < b -> 0 <= j < p ->
  exists s v,
    Py.getitem f (off + (i * p + j)) = inr s
    /\ PyFloat.of_string s = inr v
    /\ (row <- Py.getitem rows i ;; Py.getitem row j) = inr v.
Proof.
  intros H Hi Hj. unfold Parser.read_rows in H.
  destruct (mapM_nth _ _ _ _ _ H (range_nth_error b i Hi)) as (row & Hrow & Hnth).
  destruct (mapM_nth _ _ _ _ _ Hrow (range_nth_error p j Hj)) as (v & Hv & Hnthv).
  destruct (Py.getitem f (off + (i * p + j))) as [e | s] eqn:Es; [discriminate |].
  cbn [bind] in Hv. exists s, v. split; [reflexivity |]. split; [exact Hv |].
  rewrite (getitem_nth _ _ _ (proj1 Hi) Hnth). cbn [bind].
  exact (getitem_nth _ _ _ (proj1 Hj) Hnthv).
Qed.

(** X6: an accepted [rate] row ends the first loop and fills the table of
    expected yields bin by bin: the yield of process [p] in bin [b] is the
    number written in field [b * processes + p] of the row, counted from
    0 after the keyword. *)
Theorem X6_rate_row_layout
    (st st' : model) (vals : list string) (brk : bool) (b p : Z) :
  Parser.header_line st ("rate" :: vals) = inr (st', brk) ->
  exp st = [] ->
  0 <= b < bins st -> 0 <= p < processes st ->
  brk = true
  /\ bins st' = bins st /\ processes st' = processes st
  /\ shaped (bins st) (processes st) (exp st')
  /\ exists s v,
       nth_error vals (Z.to_nat (b * processes st + p)) = Some s
       /\ PyFloat.of_string s = inr v
       /\ rate_at st' b p = inr v.
Proof.
  intros H Hexp Hb Hp. rewrite header_line_rate in H.
  destruct (_ <? _); [discriminate |].
  destruct (Parser.read_rows _ _ _ _) as [e | rows] eqn:Er; [discriminate |].
  cbn [bind] in H. injection H as <- <-. rewrite Hexp. cbn [app].
  split; [reflexivity |]. split; [reflexivity |]. split; [reflexivity |].
  split; [exact (read_rows_shaped _ _ _ _ _ Er) |].
  destruct (read_rows_cell _ _ _ _ _ _ _ Er Hb Hp) as (s & v & Hs & Hv & Hcell).
  exists s, v. split; [| split; [exact Hv | exact Hcell]].
  pose proof (cell_index_bound _ _ _ _ Hb Hp).
  apply getitem_inr in Hs; [| lia].
  replace (Z.to_nat (1 + (b * processes st + p)))
    with (S (Z.to_nat (b * processes st + p))) in Hs by lia.
  exact Hs.
Qed.

Lemma X6_rate_row_layout_witness :
  exists s v,
    nth_error ["10"; "5"; "8"; "4"] 3 = Some s
    /\ PyFloat.of_string s = inr v
    /\ rate_at (set_exp (set_processes (set_bins initial 2) 2)
                  [[flt "10"; flt "5"]; [flt "8"; flt "4"]]) 1 1 = inr v.
Proof.
  refine (proj2 (proj2 (proj2 (proj2
            (X6_rate_row_layout (set_processes (set_bins initial 2) 2) _
               ["10"; "5"; "8"; "4"] true 1 1 _ _ _ _))))).
  - vm_compute. reflexivity.
  - reflexivity.
  - cbn. lia.
  - cbn. lia.
Defined.

(** An accepted row of the systematics table adds one table of scale
    factors, read from the row bin by bin, and changes nothing else. *)
Lemma syst_fields_layout
    (st st' : model) (f : list string) (b p : Z) :
  Parser.syst_fields st f = inr st' ->
  0 <= b < bins st -> 0 <= p < processes st ->
  bins st' = bins st /\ processes st' = processes st
  /\ Py.len (systs st') = Py.len (systs st) + 1
  /\ (forall n, 0 <= n < Py.len (systs st) -> scale_at st' n b p = scale_at st n b p)
  /\ exists s v,
       nth_error f (2 + Z.to_nat (b * processes st + p)) = Some s
       /\ PyFloat.of_string s = inr v
       /\ scale_at st' (Py.len (systs st)) b p = inr v.
Proof.
  intros H Hb Hp.
  destruct (syst_fields_inr _ _ _ H) as (idx' & rest & errline & Hf & _ & Er & ->).
  cbn [bins processes nuisances obs exp systs set_systs].
  split; [reflexivity |]. split; [reflexivity |]. split; [| split].
  - unfold Py.len. rewrite length_app. cbn. lia.
  - intros n Hn. unfold scale_at. cbn [systs set_systs]. unfold Py.len in Hn.
    f_equal. destruct (nth_error (systs st) (Z.to_nat n)) as [x |] eqn:E;
      [| apply nth_error_None in E; lia].
    rewrite (getitem_nth _ _ _ (proj1 Hn) E).
    apply getitem_nth; [lia |]. rewrite nth_error_app1 by lia. exact E.
  - destruct (read_rows_cell _ _ _ _ _ _ _ Er Hb Hp) as (s & v & Hs & Hv & Hcell).
    exists s, v. split; [| split; [exact Hv |]].
    + pose proof (cell_index_bound _ _ _ _ Hb Hp).
      apply getitem_inr in Hs; [| lia].
      replace (Z.to_nat (2 + (b * processes st + p)))
        with (2 + Z.to_nat (b * processes st + p))%nat in Hs by lia.
      exact Hs.
    + unfold scale_at. cbn [systs set_systs].
      rewrite (getitem_nth _ _ errline); [exact Hcell | unfold Py.len; lia |].
      unfold Py.len. rewrite Nat2Z.id, nth_error_app2 by lia.
      now rewrite Nat.sub_diag.
Qed.

(** The rows read later leave the tables read before as they are. *)
Lemma second_pass_keeps (lines : list string) (st st' : model) (n b p : Z) :
  Parser.second_pass st lines = inr st' ->
  0 <= n < Py.len (systs st) ->
  scale_at st' n b p = scale_at st n b p.
Proof.
  unfold Parser.second_pass. revert st.
  induction lines as [| l lines IH]; intros st H Hn; cbn [foldM] in H.
  - now injection H as <-.
  - destruct (Parser.syst_line st l) as [e | st1] eqn:El; [discriminate |].
    cbn [bind] in H.
    destruct (syst_line_effect _ _ _ El) as (_ & _ & _ & _ & _ & Hs).
    assert (Hkeep : scale_at st1 n b p = scale_at st n b p
                    /\ Py.len (systs st) <= Py.len (systs st1)).
    { destruct Hs as [Hs | (errline & Hs & _)]; unfold scale_at; rewrite Hs.
      - split; [reflexivity | lia].
      - split; [| unfold Py.len; rewrite length_app; lia].
        f_equal. unfold Py.len in Hn.
        destruct (nth_error (systs st) (Z.to_nat n)) as [x |] eqn:E;
          [| apply nth_error_None in E; lia].
        rewrite (getitem_nth _ _ _ (proj1 Hn) E).
        apply getitem_nth; [lia |]. rewrite nth_error_app1 by lia. exact E. }
    destruct Hkeep as [<- Hle]. apply (IH st1 H). lia.
Qed.

(** X7: the systematics table is stored in the order of the file.  When
    the second loop has read its lines, the factor of nuisance number
    [len(systs) + i] for process [p] of bin [b] is the number written in
    field [2 + b * processes + p] of row [i] of the table, comment lines
    not counted, fields and rows counted from 0; the bin and process
    counts are those the loop started with. *)
Theorem X7_systematics_table_layout
    (lines : list string) (st st' : model) (i : nat) (l : string) (b p : Z) :
  Parser.second_pass st lines = inr st' ->
  nth_error (rows_of lines) i = Some l ->
  0 <= b < bins st -> 0 <= p < processes st ->
  exists s v,
    nth_error (Py.split l) (2 + Z.to_nat (b * processes st + p)) = Some s
    /\ PyFloat.of_string s = inr v
    /\ scale_at st' (Py.len (systs st) + Z.of_nat i) b p = inr v.
Proof.
  unfold Parser.second_pass, rows_of. revert st i.
  induction lines as [| l0 lines IH]; intros st i H Hi Hb Hp;
    cbn [foldM filter] in *; [now destruct i |].
  destruct (Parser.syst_line st l0) as [e | st1] eqn:El; [discriminate |].
  cbn [bind] in H.
  destruct (is_row l0) eqn:Hrow.
  - rewrite (syst_line_row _ _ Hrow) in El.
    destruct (syst_fields_layout _ _ _ _ _ El Hb Hp)
      as (Hbins & Hprocs & Hlen & _ & s & v & Hs & Hv & Hcell).
    destruct i as [| i]; cbn [nth_error] in Hi.
    + injection Hi as <-. exists s, v. split; [exact Hs |]. split; [exact Hv |].
      rewrite Z.add_0_r, <- Hcell.
      apply (second_pass_keeps lines st1 st'); [exact H | unfold Py.len in *; lia].
    + rewrite <- Hbins in Hb. rewrite <- Hprocs in Hp.
      destruct (IH st1 i H Hi Hb Hp) as (s' & v' & Hs' & Hv' & Hcell').
      exists s', v'. rewrite <- Hprocs. split; [exact Hs' |]. split; [exact Hv' |].
      rewrite <- Hcell'. f_equal. lia.
  - rewrite (syst_line_comment _ _ Hrow) in El. injection El as <-.
    exact (IH st i H Hi Hb Hp).
Qed.

Lemma X7_systematics_table_layout_witness :
  exists s v,
    nth_error (Py.split (ln "2 lnN 1.0 1.3")) 3 = Some s
    /\ PyFloat.of_string s = inr v
    /\ scale_at (set_systs (set_processes initial 2)
                   [[[flt "1.1"; flt "1.0"]]; [[flt "1.0"; flt "1.3"]]]) 1 0 1
       = inr v.
Proof.
  refine (X7_systematics_table_layout
            [ln "1 lnN 1.1 1.0"; ln "---"; ln "2 lnN 1.0 1.3"]
            (set_processes initial 2) _ 1 (ln "2 lnN 1.0 1.3") 0 1 _ _ _ _).
  - vm_compute. reflexivity.
  - reflexivity.
  - cbn. lia.
  - cbn. lia.
Defined.

(** ** The [bin] row *)









(** ** Lines that raise a bare exception *)

Lemma foldM_app {A S} (body : S -> A -> result S) (l1 l2 : list A) (s : S) :
  foldM body (l1 ++ l2) s = (s' <- foldM body l1 s ;; foldM body l2 s').
Proof.
  revert s. induction l1 as [| x l1 IH]; intros s; cbn; [reflexivity |].
  destruct (body s x); cbn; [reflexivity | apply IH].
Qed.

Lemma run_row_raises (o : options) (lines : list string) (l : string)
    (st1 : model) (e : exn) :
  reaches_row lines l st1 -> Parser.syst_line st1 l = inl e ->
  run o lines = ([], Some e).
Proof.
  intros (st & pre & post & Hfirst & Hpre) Hl.
  unfold run, Parser.load, Parser.parse. rewrite Hfirst. cbn [bind].
  unfold Parser.second_pass in *. rewrite foldM_app, Hpre. cbn [bind foldM].
  now rewrite Hl.
Qed.

(** The first field of a line that begins with two dashes begins with
    them too. *)
Lemma split_aux_cur (s : string) (cur : list ascii) :
  cur <> [] ->
  exists more rest,
    Py.split_aux s cur = string_of_list_ascii (rev cur ++ more) :: rest.
Proof.
  revert cur. induction s as [| c s IH]; intros cur Hcur.
  - exists [], []. cbn. destruct cur; [contradiction |]. now rewrite List.app_nil_r.
  - cbn [Py.split_aux]. destruct (Py.isspace c).
    + exists [], (Py.split_aux s []). destruct cur; [contradiction |].
      now rewrite List.app_nil_r.
    + destruct (IH (c :: cur)) as (more & rest & E); [discriminate |].
      exists (c :: more), rest. rewrite E. cbn [rev].
      now rewrite <- List.app_assoc.
Qed.

Lemma comment_first_field (l : string) :
  Py.startswith l "--" = true ->
  exists more rest, Py.split l = String "-" (String "-" more) :: rest.
Proof.
  unfold Py.startswith. intros H.
  destruct l as [| a [| b l]]; cbn [String.prefix] in H; try discriminate.
  - destruct (ascii_dec "-" a); discriminate.
  - destruct (ascii_dec "-" a) as [<- |]; [| discriminate].
    destruct (ascii_dec "-" b) as [<- |]; [| discriminate].
    destruct (split_aux_cur l ["-"; "-"]%char) as (more & rest & E); [discriminate |].
    exists (string_of_list_ascii more), rest.
    unfold Py.split. cbn [Py.split_aux Py.isspace]. exact E.
Qed.

Lemma int_error (s : string) (e : exn) : Py.int s = inl e -> e = ValueError.
Proof.
  unfold Py.int.
  destruct (match s with
            | String "-"%char s' => (true, s')
            | String "+"%char s' => (false, s')
            | _ => (false, s)
            end) as [neg body].
  destruct (Py.nat_literal body); [discriminate |]. now intros [= <-].
Qed.

Lemma int_comment (more : string) :
  Py.int (String "-" (String "-" more)) = inl ValueError.
Proof. reflexivity. Qed.

Lemma int_keyword (k : string) : In k keywords -> Py.int k = inl ValueError.
Proof.
  unfold keywords. cbn [In].
  intros [<- | [<- | [<- | [<- | [<- | [<- | [<- | []]]]]]]]; reflexivity.
Qed.

(** X9: in the systematics table only the lines that begin with two
    dashes are skipped.  An empty line, or a line with a single field
    that is an integer, stops the run on a bare [IndexError] before
    anything is printed: the second loop reads fields 0 and 1 of every
    other line without looking at their number. *)
Theorem X9_short_table_line
    (o : options) (lines : list string) (l : string) (st1 : model) :
  reaches_row lines l st1 ->
  Py.split l = [] \/ (exists s n, Py.split l = [s] /\ Py.int s = inr n) ->
  run o lines = ([], Some IndexError).
Proof.
  intros Hreach Hl. apply (run_row_raises _ _ _ _ _ Hreach).
  unfold Parser.syst_line.
  destruct (Py.startswith l "--") eqn:Hs.
  - exfalso. destruct (comment_first_field _ Hs) as (more & rest & E).
    destruct Hl as [Hl | (s & n & Hl & Hn)]; rewrite E in Hl; [discriminate |].
    injection Hl as <- _. rewrite int_comment in Hn. discriminate.
  - destruct Hl as [-> | (s & n & -> & Hn)]; [reflexivity |].
    unfold Parser.syst_fields.
    change (Py.getitem [s] 0) with (@inr exn string s). cbn [bind].
    rewrite Hn. reflexivity.
Qed.

Lemma X9_short_table_line_witness :
  run no_options [ln "rate 7"; ln ""] = ([], Some IndexError).
Proof.
  apply (X9_short_table_line no_options [ln "rate 7"; ln ""] (ln "")
           (set_exp initial [[flt "7"]])).
  - exists (set_exp initial [[flt "7"]]), [], []. split; vm_compute; reflexivity.
  - left. reflexivity.
Defined.

(** X10: below the [rate] row no line is read as a header.  Of the
    lines the second loop comes to, those that begin with two dashes are
    skipped whatever their fields; every other line whose first field is
    no integer stops the run on the bare [ValueError] of [int], before
    anything is printed.  A line whose first field is one of the header
    keywords is such a line: a second [rate] row or a late [kmax] ends
    the run in this way. *)
Theorem X10_header_below_rate
    (o : options) (lines : list string) (l : string) (st1 : model)
    (s : string) (rest : list string) :
  reaches_row lines l st1 ->
  Py.split l = s :: rest ->
  (is_row l = false -> Parser.syst_line st1 l = inr st1)
  /\ (is_row l = true -> (exists e, Py.int s = inl e) ->
      run o lines = ([], Some ValueError))
  /\ (In s keywords -> is_row l = true /\ run o lines = ([], Some ValueError)).
Proof.
  intros Hreach Hl.
  assert (Hrow : is_row l = true -> (exists e, Py.int s = inl e) ->
                 run o lines = ([], Some ValueError)).
  { intros Hr [e He]. apply (run_row_raises _ _ _ _ _ Hreach).
    rewrite (syst_line_row _ _ Hr), Hl. unfold Parser.syst_fields.
    change (Py.getitem (s :: rest) 0) with (@inr exn string s). cbn [bind].
    rewrite He. cbn [bind]. now rewrite (int_error _ _ He). }
  split; [apply syst_line_comment |]. split; [exact Hrow |].
  intros Hk.
  assert (Hr : is_row l = true).
  { unfold is_row. destruct (Py.startswith l "--") eqn:Hs; [| reflexivity].
    exfalso. destruct (comment_first_field _ Hs) as (more & rest' & E).
    rewrite E in Hl. injection Hl as <- _.
    unfold keywords in Hk. cbn [In] in Hk.
    repeat (destruct Hk as [Hk | Hk]; [discriminate Hk |]). exact Hk. }
  split; [exact Hr |].
  apply Hrow; [exact Hr | exists ValueError; now apply int_keyword].
Qed.

Lemma X10_header_below_rate_witness :
  run no_options [ln "rate 7"; ln "kmax 0"] = ([], Some ValueError).
Proof.
  refine (proj2 (proj2 (proj2 (X10_header_below_rate no_options
                                 [ln "rate 7"; ln "kmax 0"]
                                 (ln "kmax 0") (set_exp initial [[flt "7"]])
                                 "kmax" ["0"] _ _)) _)).
  - exists (set_exp initial [[flt "7"]]), [], []. split; vm_compute; reflexivity.
  - reflexivity.
  - cbn. tauto.
Defined.

(** X11: the value of an [imax], [jmax] or [kmax] line is its second
    field alone.  Without one the run stops on a bare [IndexError], with
    one that is no integer (a [*], say) on a bare [ValueError], in both
    cases before anything is printed; with an integer the variable is
    set, [jmax] to one more than the value, and what follows the value on
    the line is not read. *)
Theorem X11_header_value
    (o : options) (pre post : list string) (l key : string) (rest : list string)
    (st : model) :
  headers_read initial pre = Some st ->
  Py.split l = key :: rest ->
  In key ["imax"; "jmax"; "kmax"] ->
  (rest = [] -> run o (pre ++ l :: post) = ([], Some IndexError))
  /\ (forall s more, rest = s :: more -> (exists e, Py.int s = inl e) ->
        run o (pre ++ l :: post) = ([], Some ValueError))
  /\ (forall s more v, rest = s :: more -> Py.int s = inr v ->
        Parser.first_pass initial (pre ++ l :: post)
        = Parser.first_pass
            (if (key =? "imax")%string then set_bins st v
             else if (key =? "jmax")%string then set_processes st (v + 1)
             else set_nuisances st v) post).
Proof.
  intros Hpre Hl Hkey.
  assert (Hfirst : Parser.first_pass initial (pre ++ l :: post)
                   = ('(st', brk) <- Parser.header_line st (key :: rest) ;;
                      if brk : bool then ret (st', post) else Parser.first_pass st' post)).
  { rewrite (first_pass_app _ _ _ _ Hpre). cbn [Parser.first_pass]. now rewrite Hl. }
  split; [| split].
  - intros ->. apply run_first_pass_raises. rewrite Hfirst.
    cbn [In] in Hkey. destruct Hkey as [<- | [<- | [<- | []]]]; reflexivity.
  - intros s more -> [e He]. apply run_first_pass_raises. rewrite Hfirst.
    pose proof (int_error _ _ He) as ->.
    cbn [In] in Hkey. destruct Hkey as [<- | [<- | [<- | []]]].
    + rewrite header_line_imax.
      change (Py.getitem ("imax" :: s :: more) 1) with (@inr exn string s).
      cbn [bind]. now rewrite He.
    + rewrite header_line_jmax.
      change (Py.getitem ("jmax" :: s :: more) 1) with (@inr exn string s).
      cbn [bind]. now rewrite He.
    + rewrite header_line_kmax.
      change (Py.getitem ("kmax" :: s :: more) 1) with (@inr exn string s).
      cbn [bind]. now rewrite He.
  - intros s more v -> Hv. rewrite Hfirst.
    cbn [In] in Hkey. destruct Hkey as [<- | [<- | [<- | []]]].
    + rewrite header_line_imax.
      change (Py.getitem ("imax" :: s :: more) 1) with (@inr exn string s).
      cbn [bind]. now rewrite Hv.
    + rewrite header_line_jmax.
      change (Py.getitem ("jmax" :: s :: more) 1) with (@inr exn string s).
      cbn [bind]. now rewrite Hv.
    + rewrite header_line_kmax.
      change (Py.getitem ("kmax" :: s :: more) 1) with (@inr exn string s).
      cbn [bind]. now rewrite Hv.
Qed.

Lemma X11_header_value_witness :
  run no_options [ln "jmax *"; ln "rate 7"] = ([], Some ValueError).
Proof.
  refine (proj1 (proj2 (X11_header_value no_options [] [ln "rate 7"] (ln "jmax *")
                          "jmax" ["*"] initial _ _ _)) "*" [] _ _).
  - reflexivity.
  - reflexivity.
  - cbn. tauto.
  - reflexivity.
  - exists ValueError. reflexivity.
Defined.

(** ** Lines the first loop passes over *)

Lemma header_line_unknown (st : model) (l : string) :
  unknown l -> Parser.header_line st (Py.split l) = inr (st, false).
Proof.
  intros Hu. unfold unknown, key_of in Hu.
  destruct (Py.split l) as [| key rest]; [reflexivity |].
  apply header_line_other. intros Hk. now apply (Hu key Hk).
Qed.

Lemma first_pass_unknown (st : model) (pre post : list string) (l : string) :
  absent "rate" pre -> unknown l ->
  Parser.first_pass st (pre ++ l :: post) = Parser.first_pass st (pre ++ post).
Proof.
  intros Ha Hu. revert st.
  induction Ha as [| a pre Hrate _ IH]; intros st.
  - cbn [app Parser.first_pass]. rewrite (header_line_unknown _ _ Hu). reflexivity.
  - cbn [app Parser.first_pass].
    destruct (Parser.header_line st (Py.split a)) as [e | [st' brk]] eqn:E;
      [reflexivity |].
    cbn [bind]. destruct brk; [| apply IH].
    exfalso. apply Hrate. unfold key_of.
    now apply (header_line_effect _ _ _ _ E).
Qed.

(** X12: above the [rate] row the first loop passes over every line it
    has no case for: an empty line, a comment, a separator, a line with
    another first field.  Taking such a line out of the header, or
    putting one in, changes neither the output nor the outcome. *)
Theorem X12_unknown_header_lines
    (o : options) (pre post : list string) (l : string) :
  absent "rate" pre -> unknown l ->
  run o (pre ++ l :: post) = run o (pre ++ post).
Proof.
  intros Ha Hu. unfold run, Parser.load, Parser.parse.
  now rewrite (first_pass_unknown _ _ _ _ Ha Hu).
Qed.

Lemma X12_unknown_header_lines_witness :
  run no_options [ln "imax 1"; ln "## one channel"; ln "rate 7"]
  = run no_options [ln "imax 1"; ln "rate 7"].
Proof.
  apply (X12_unknown_header_lines no_options [ln "imax 1"] [ln "rate 7"]
           (ln "## one channel")).
  - repeat constructor. discriminate.
  - intros k Hk. cbn in Hk. vm_compute.
    repeat (destruct Hk as [<- | Hk]; [discriminate |]). destruct Hk.
Defined.

(** ** Which runs come to their end *)

Lemma snd_andThen (a b : output) :
  snd (a >> b) = match snd a with Some e => Some e | None => snd b end.
Proof. destruct a as [oa [ea |]]; reflexivity. Qed.

Lemma for_each_completes {A} (body : A -> output) (l : list A) :
  (forall x, In x l -> snd (body x) = None) -> snd (for_each l body) = None.
Proof.
  induction l as [| x l IH]; intros H; cbn [for_each]; [reflexivity |].
  rewrite snd_andThen, (H x) by now left. apply IH. intros y Hy. apply H. now right.
Qed.

Lemma for_each_stops {A} (body : A -> output) (l1 l2 : list A) (x : A) (e : exn) :
  (forall y, In y l1 -> snd (body y) = None) -> snd (body x) = Some e ->
  snd (for_each (l1 ++ x :: l2) body) = Some e.
Proof.
  intros H Hx. induction l1 as [| y l1 IH]; cbn [app for_each]; rewrite snd_andThen.
  - now rewrite Hx.
  - rewrite (H y) by now left. apply IH. intros z Hz. apply H. now right.
Qed.

Lemma observables_outcome (st : model) :
  snd (Gen.observables st)
  = if ((Py.len (obs st) =? 0) || (bins st <=? Py.len (obs st)))%bool
    then None else Some IndexError.
Proof.
  unfold Gen.observables. rewrite snd_andThen.
  destruct (Z.eqb_spec (Py.len (obs st)) 0) as [Hz | Hz]; cbn [negb orb].
  - rewrite snd_andThen. cbn [snd Gen.print emit].
    rewrite for_each_completes; [reflexivity | reflexivity].
  - rewrite snd_andThen. cbn [snd Gen.print emit].
    destruct (Z.leb_spec (bins st) (Py.len (obs st))) as [Hle | Hlt].
    + rewrite for_each_completes; [reflexivity |].
      intros b Hb. apply range_In in Hb.
      destruct (nth_error (obs st) (Z.to_nat b)) as [v |] eqn:E.
      * now rewrite (getitem_nth _ _ _ (proj1 Hb) E).
      * apply nth_error_None in E. unfold Py.len in Hle. lia.
    + assert (H0 : 0 <= Py.len (obs st)) by (unfold Py.len; lia).
      unfold Py.range.
      rewrite (range2_split 0 (Py.len (obs st)) (bins st)) by lia.
      rewrite (range2_cons (Py.len (obs st)) (bins st)) by lia.
      rewrite (for_each_stops _ _ _ _ IndexError); [reflexivity | |].
      * intros b Hb. apply range2_In in Hb.
        destruct (nth_error (obs st) (Z.to_nat b)) as [v |] eqn:E.
        -- now rewrite (getitem_nth _ _ _ (proj1 Hb) E).
        -- apply nth_error_None in E. unfold Py.len in Hb. lia.
      * rewrite getitem_beyond by lia. reflexivity.
Qed.

Lemma bin_totals_completes (st : model) (b : Z) : snd (Gen.bin_totals st b) = None.
Proof. reflexivity. Qed.

Lemma expected_outcome (o : options) (lines : list string) (st : model) :
  Parser.load o lines = inr st ->
  snd (Gen.expected st)
  = if (negb (Py.len (exp st) =? 0) || (bins st <=? 0) || (processes st <=? 0))%bool
    then None else Some IndexError.
Proof.
  intros Hload. unfold Gen.expected. rewrite snd_andThen. cbn [snd Gen.print emit].
  destruct (Z.eqb_spec (Py.len (exp st)) 0) as [Hz | Hz]; cbn [negb orb].
  - apply len_nil_inv in Hz.
    destruct (Z.leb_spec (bins st) 0) as [Hb | Hb]; cbn [orb].
    + unfold Py.range. rewrite range2_nil by lia. reflexivity.
    + destruct (Z.leb_spec (processes st) 0) as [Hp | Hp].
      * apply for_each_completes. intros b _. rewrite snd_andThen.
        unfold Py.range. rewrite range2_nil by lia. reflexivity.
      * unfold Py.range at 1. rewrite (range2_cons 0 (bins st)) by lia.
        apply (for_each_stops _ [] _ 0 IndexError); [intros y [] |].
        rewrite snd_andThen.
        unfold Py.range. rewrite (range2_cons 0 (processes st)) by lia.
        cbn [for_each]. rewrite snd_andThen.
        unfold Gen.process_yield. rewrite Hz. reflexivity.
  - assert (Hexp : exp st <> []) by (intros E; now rewrite E in Hz).
    apply for_each_completes. intros b Hb. apply range_In in Hb.
    rewrite snd_andThen, bin_totals_completes.
    rewrite for_each_completes; [reflexivity |].
    intros p Hp. apply range_In in Hp.
    destruct (loaded_rate_at _ _ _ _ _ Hload Hexp Hb Hp) as [rate Hrate].
    rewrite (process_yield_statement _ _ _ _ Hrate); [reflexivity |].
    intros n Hn. exact (loaded_scale_at _ _ _ _ _ _ Hload Hn Hb Hp).
Qed.

Lemma aggregate_completes (prefix : string) (bins : Z) :
  bins < 2 ^ 52 -> snd (Gen.aggregate prefix bins) = None.
Proof.
  intros Hb. destruct (Z_lt_le_dec 50 bins) as [H | H].
  - rewrite (aggregate_blocks prefix bins ((bins + 9) / 10)); [reflexivity | exact H |].
    apply nblocks_exact. lia.
  - now rewrite aggregate_direct.
Qed.

Lemma nuisance_block_completes (st : model) : snd (Gen.nuisance_block st) = None.
Proof.
  unfold Gen.nuisance_block. destruct (negb _); [| reflexivity].
  rewrite !snd_andThen. cbn [snd Gen.print emit].
  rewrite for_each_completes; reflexivity.
Qed.

Lemma poissons_completes (st : model) : snd (Gen.poissons st) = None.
Proof.
  unfold Gen.poissons. rewrite snd_andThen. cbn [snd Gen.print emit].
  apply for_each_completes. reflexivity.
Qed.

Lemma fold_nuisances_completes (st : model) : snd (Gen.fold_nuisances st) = None.
Proof. unfold Gen.fold_nuisances. now destruct (negb _). Qed.

(** X13: once a datacard is loaded, the generator can stop in two ways
    only, both on a bare [IndexError]: at line 62, when there are
    observations but fewer than bins, and at line 85, when no [rate] row
    was read although there is a bin and a process.  Every other loaded
    datacard is taken to the last statement; in Asimov mode a [rate] row
    is enough, the observations being as many as its bins.  (The bin
    count is taken below 2^52, as for the aggregation.) *)
Theorem X13_run_outcome (o : options) (lines : list string) (st : model) :
  Parser.load o lines = inr st ->
  bins st < 2 ^ 52 ->
  snd (run o lines) = (if completes st then None else Some IndexError)
  /\ (asimov o = true -> exp st <> [] -> snd (run o lines) = None).
Proof.
  intros Hload Hbins.
  assert (Hout : snd (run o lines) = if completes st then None else Some IndexError).
  { rewrite (run_loaded _ _ _ Hload).
    unfold Gen.generate, completes.
    rewrite snd_andThen, observables_outcome.
    destruct (_ || _)%bool; cbn [andb]; [| reflexivity].
    rewrite snd_andThen. change (snd Gen.poi) with (@None exn).
    rewrite snd_andThen, nuisance_block_completes.
    rewrite snd_andThen, (expected_outcome _ _ _ Hload).
    destruct (_ || _)%bool; [| reflexivity].
    rewrite snd_andThen, poissons_completes.
    rewrite snd_andThen, (aggregate_completes _ _ Hbins).
    apply fold_nuisances_completes. }
  split; [exact Hout |].
  intros Ha Hexp. rewrite Hout.
  destruct (load_shape _ _ _ Hload) as ([He | [Hlen _]] & _); [contradiction |].
  destruct (load_inr _ _ _ Hload) as (st0 & _ & Hst & _).
  assert (Hobs : Py.len (obs st) = Py.len (exp st)).
  { rewrite Hst. destruct (asimov_obs o (Parser.apply_stat o st0) Ha) as [-> ->].
    unfold Py.len. now rewrite length_map. }
  unfold completes. rewrite Hobs.
  destruct (Z.eqb_spec (Py.len (exp st)) 0) as [Hz | _];
    [apply len_nil_inv in Hz; contradiction |].
  destruct (Z.leb_spec (bins st) (Py.len (exp st))) as [_ | Hlt];
    [now rewrite orb_true_r |].
  unfold Py.len in Hlt. lia.
Qed.

Lemma X13_run_outcome_witness :
  snd (run no_options card_observation_first) = Some IndexError.
Proof.
  refine (proj1 (X13_run_outcome no_options card_observation_first
                   {| bins := 2; processes := 1; nuisances := 0; obs := [flt "7"];
                      exp := [[flt "1"]; [flt "2"]]; systs := [] |} _ _)).
  - vm_compute. reflexivity.
  - vm_compute. reflexivity.
Defined.

(** ** The statements of a run that comes to its end *)

(** What a completed generation printed, section by section. *)
Lemma generate_sections (st : model) :
  snd (Gen.generate st) = None ->
  fst (Gen.generate st)
  = (fst (Gen.observables st) ++ fst Gen.poi ++ fst (Gen.nuisance_block st)
       ++ fst (Gen.expected st) ++ fst (Gen.poissons st)
       ++ fst (Gen.aggregate (Gen.prefix_of st) (bins st))
       ++ fst (Gen.fold_nuisances st))%list
  /\ snd (Gen.expected st) = None
  /\ snd (Gen.aggregate (Gen.prefix_of st) (bins st)) = None.
Proof.
  unfold Gen.generate. intros H.
  apply andThen_None in H as (_ & H & ->).
  apply andThen_None in H as (_ & H & ->).
  apply andThen_None in H as (_ & H & ->).
  apply andThen_None in H as (He & H & ->).
  apply andThen_None in H as (_ & H & ->).
  apply andThen_None in H as (Ha & _ & ->).
  auto.
Qed.

Lemma run_completed (o : options) (lines : list string) :
  snd (run o lines) = None ->
  exists st, Parser.load o lines = inr st /\ run o lines = Gen.generate st.
Proof.
  unfold run. destruct (Parser.load o lines) as [e | st]; [discriminate |].
  intros _. now exists st.
Qed.

(** The last two statements of an aggregation that came to its end. *)
Lemma aggregate_last (prefix : string) (bins : Z) :
  snd (Gen.aggregate prefix bins) = None ->
  exists pre s b,
    fst (Gen.aggregate prefix bins) = (pre ++ [s; b])%list
    /\ String.prefix (prefix ++ "_s = PROD(") s = true
    /\ String.prefix (prefix ++ "_b = PROD(") b = true.
Proof.
  assert (Hp : forall a t1 t2 : string,
               String.prefix t1 t2 = true -> String.prefix (a ++ t1) (a ++ t2) = true).
  { intros a t1 t2 Ht. induction a as [| c a IH]; cbn [append String.prefix];
      [exact Ht |].
    destruct (ascii_dec c c); [exact IH | contradiction]. }
  intros H. destruct (Z_lt_le_dec 50 bins) as [Hb | Hb].
  - destruct (Gen.nblocks bins) as [e | n] eqn:En.
    + unfold Gen.aggregate in H. rewrite En in H.
      destruct (Z.ltb_spec 50 bins); [discriminate | lia].
    + rewrite (aggregate_blocks _ _ _ Hb En). cbn [fst].
      eexists _, _, _. split; [reflexivity |].
      unfold product_of. rewrite !append_assoc.
      split; apply Hp; reflexivity.
  - rewrite (aggregate_direct _ _ Hb). cbn [fst].
    exists [].
    eexists _, _. split; [reflexivity |].
    unfold direct_product_of. rewrite !append_assoc.
    split; apply Hp; reflexivity.
Qed.

(** X14: every run that comes to its end closes the script with the
    definition of [model_s] followed by that of [model_b], whatever the
    number of bins and of nuisances: the product with [nuisancePdf] when
    there are nuisances, the product over the bins or over the blocks of
    bins, then printed under these names, when there are none. *)
Theorem X14_script_ends_with_the_models (o : options) (lines : list string) :
  snd (run o lines) = None ->
  exists pre s b,
    fst (run o lines) = (pre ++ [s; b])%list
    /\ String.prefix "model_s = PROD(" s = true
    /\ String.prefix "model_b = PROD(" b = true.
Proof.
  intros H. destruct (run_completed _ _ H) as (st & _ & Hrun).
  rewrite Hrun in *. destruct (generate_sections _ H) as (-> & _ & Ha).
  unfold Gen.fold_nuisances, Gen.prefix_of in *.
  destruct (nuisances st =? 0); cbn [negb].
  - destruct (aggregate_last _ _ Ha) as (pre & s & b & -> & Hs & Hb).
    eexists _, s, b. split; [| split; [exact Hs | exact Hb]].
    cbn [fst skip]. rewrite List.app_nil_r, !List.app_assoc. reflexivity.
  - exists (fst (Gen.observables st) ++ fst Gen.poi ++ fst (Gen.nuisance_block st)
              ++ fst (Gen.expected st) ++ fst (Gen.poissons st)
              ++ fst (Gen.aggregate "modelObs" (bins st)))%list,
      "model_s = PROD(modelObs_s, nuisancePdf);",
      "model_b = PROD(modelObs_b, nuisancePdf);".
    split; [| split; reflexivity].
    rewrite <- !List.app_assoc. reflexivity.
Qed.

Lemma X14_script_ends_with_the_models_witness :
  exists pre s b,
    fst (run no_options card_two_processes) = (pre ++ [s; b])%list
    /\ String.prefix "model_s = PROD(" s = true
    /\ String.prefix "model_b = PROD(" b = true.
Proof.
  apply (X14_script_ends_with_the_models no_options card_two_processes).
  vm_compute. reflexivity.
Defined.

(** ** The names of the symbols *)

(** A [%d] field holds digits and a sign, never an underscore. *)
Lemma str_no_underscore (n : Z) : ~ In "_"%char (list_ascii_of_string (Py.str n)).
Proof.
  assert (Hu : forall d, ~ In "_"%char (list_ascii_of_string (NilZero.string_of_uint d))).
  { assert (He : forall d,
                ~ In "_"%char (list_ascii_of_string (NilEmpty.string_of_uint d))).
    { induction d as [| d IH | d IH | d IH | d IH | d IH | d IH | d IH | d IH | d IH
                      | d IH];
        cbn; [tauto | intros [H | H]; [discriminate H | exact (IH H)] ..]. }
    intros d. unfold NilZero.string_of_uint.
    destruct d; try apply He. cbn. intros [H | []]. discriminate H. }
  unfold Py.str. destruct (Z.to_int n) as [d | d]; cbn.
  - apply Hu.
  - intros [H | H]; [discriminate | exact (Hu d H)].
Qed.

Lemma underscore_inside (s t u : string) :
  (s ++ String "_" t)%string = u -> In "_"%char (list_ascii_of_string u).
Proof.
  intros <-. induction s as [| c s IH]; cbn; auto.
Qed.

(** Two strings cut at their first underscore. *)
Lemma first_underscore (s1 s2 t1 t2 : string) :
  ~ In "_"%char (list_ascii_of_string s1) ->
  ~ In "_"%char (list_ascii_of_string s2) ->
  (s1 ++ String "_" t1 = s2 ++ String "_" t2)%string ->
  s1 = s2 /\ t1 = t2.
Proof.
  revert s2. induction s1 as [| c s1 IH]; intros [| c' s2] H1 H2; cbn.
  - intros [= ->]. auto.
  - intros [= <- _]. exfalso. apply H2. now left.
  - intros [= -> _]. exfalso. apply H1. now left.
  - intros [= -> E]. destruct (IH s2) as [-> ->]; auto.
    + intros H. apply H1. now right.
    + intros H. apply H2. now right.
Qed.

(** X15: the symbols of the script do not clash.  Two yields have the
    same name only for the same bin and the same process (bin 1,
    process 11 and bin 11, process 1 differ by the place of [_proc]);
    the name of a yield is never the name of a bin total, with or
    without [_bonly]; and the two densities of a bin never share a name
    with each other or with those of another bin. *)
Theorem X15_symbols_do_not_clash (b p b' p' : Z) :
  (Gen.n_exp_bin_proc b p = Gen.n_exp_bin_proc b' p' <-> b = b' /\ p = p')
  /\ Gen.n_exp_bin_proc b p <> "n_exp_bin" ++ Py.str b'
  /\ Gen.n_exp_bin_proc b p <> "n_exp_bin" ++ Py.str b' ++ "_bonly"
  /\ (Gen.pdf_bin b = Gen.pdf_bin b' <-> b = b')
  /\ (Gen.pdf_bin_bonly b = Gen.pdf_bin_bonly b' <-> b = b')
  /\ Gen.pdf_bin b <> Gen.pdf_bin_bonly b'.
Proof.
  unfold Gen.n_exp_bin_proc, Gen.pdf_bin, Gen.pdf_bin_bonly.
  pose proof (str_no_underscore b) as Hb. pose proof (str_no_underscore b') as Hb'.
  split; [split |].
  - intros [= E]. apply first_underscore in E as [E [= E']]; auto.
    split; now apply str_inj.
  - now intros [-> ->].
  - split; [| split; [| split; [| split]]].
    + intros [= E]. apply underscore_inside in E. exact (Hb' E).
    + intros [= E]. apply first_underscore in E as [_ E]; auto. discriminate.
    + split; [| now intros ->]. intros [= E]. now apply str_inj.
    + split; [| now intros ->].
      intros [= E]. apply first_underscore in E as [E _]; auto. now apply str_inj.
    + intros [= E]. symmetry in E. apply underscore_inside in E. exact (Hb E).
Qed.

Lemma X15_symbols_do_not_clash_witness :
  Gen.n_exp_bin_proc 1 11 <> Gen.n_exp_bin_proc 11 1.
Proof.
  intros H. apply (proj1 (X15_symbols_do_not_clash 1 11 11 1)) in H.
  destruct H as [H _]. discriminate H.
Defined.

(** ** The observables and the totals of a bin *)

Lemma hd_error_andThen (a b : output) (s : string) :
  hd_error (fst a) = Some s -> hd_error (fst (a >> b)) = Some s.
Proof.
  destruct a as [[| x oa] [e |]]; cbn; try discriminate; auto.
Qed.

(** X16: the heading of the observables says that they were set to
    Asimov values whenever the model has observations, also when these
    were read from the [Observation] line of the datacard and the Asimov
    flag is not set; it is the plain heading whenever the model has
    none. *)
Theorem X16_observables_heading (o : options) (lines : list string) (st : model) :
  Parser.load o lines = inr st ->
  hd_error (fst (run o lines))
  = Some (if Py.len (obs st) =? 0
          then "/// ----- observables -----"
          else "/// ----- observables (already set to asimov values) -----")
  /\ (asimov o = false ->
      forall st0, Parser.parse lines = inr st0 -> obs st = obs st0).
Proof.
  intros Hload. split.
  - rewrite (run_loaded _ _ _ Hload). unfold Gen.generate.
    apply hd_error_andThen. unfold Gen.observables.
    apply hd_error_andThen.
    destruct (Py.len (obs st) =? 0); cbn [negb]; apply hd_error_andThen; reflexivity.
  - intros Ha st0 Hparse.
    destruct (load_inr _ _ _ Hload) as (st0' & Hparse' & -> & _).
    rewrite Hparse in Hparse'. injection Hparse' as <-.
    unfold Parser.apply_asimov, Parser.apply_stat. rewrite Ha.
    now destruct (stat o).
Qed.

Lemma X16_observables_heading_witness :
  hd_error (fst (run no_options card_two_systematics))
  = Some "/// ----- observables (already set to asimov values) -----".
Proof.
  refine (proj1 (X16_observables_heading no_options card_two_systematics
                   card_two_systematics_model _)).
  vm_compute. reflexivity.
Defined.

Lemma for_each_completed {A} (body : A -> output) (l : list A) :
  snd (for_each l body) = None ->
  fst (for_each l body) = flat_map (fun x => fst (body x)) l
  /\ forall x, In x l -> snd (body x) = None.
Proof.
  induction l as [| x l IH]; cbn [for_each flat_map].
  - split; [reflexivity | intros x []].
  - intros H. apply andThen_None in H as (Hx & H & ->).
    destruct (IH H) as [-> Hall]. split; [reflexivity |].
    intros y [<- | Hy]; auto.
Qed.

Lemma range_tl (n : Z) : Py.range2 1 n = tl (Py.range n).
Proof.
  unfold Py.range. destruct (Z_lt_le_dec 0 n) as [H | H].
  - now rewrite (range2_cons 0 n H).
  - now rewrite !range2_nil by lia.
Qed.

Lemma map_tl {A B} (f : A -> B) (l : list A) : map f (tl l) = tl (map f l).
Proof. now destruct l. Qed.

(** X17: in a run that comes to its end every bin has its two totals.
    The total of bin [b] is an expression over [r] and the yields of all
    its processes whose formula is [r*] followed by the sum of the
    yields, written without parentheses; the background-only total is
    the sum of the yields of all processes but the first.  With a single
    process, the default, the background-only total is an expression
    with a blank formula and no argument. *)
Theorem X17_bin_totals (o : options) (lines : list string) (st : model) (b : Z) :
  Parser.load o lines = inr st ->
  snd (run o lines) = None ->
  0 <= b < bins st ->
  let names := map (Gen.n_exp_bin_proc b) (Py.range (processes st)) in
  In ("n_exp_bin" ++ Py.str b ++ "       = expr('r*" ++ Py.join "+" names
        ++ "',r, " ++ Py.join "," names ++ ");") (fst (run o lines))
  /\ In ("n_exp_bin" ++ Py.str b ++ "_bonly = expr('  " ++ Py.join "+" (tl names)
           ++ "',   " ++ Py.join "," (tl names) ++ ");") (fst (run o lines))
  /\ (processes st <= 1 ->
      In ("n_exp_bin" ++ Py.str b ++ "_bonly = expr('  ',   );") (fst (run o lines))).
Proof.
  intros Hload Hdone Hb names.
  rewrite (run_loaded _ _ _ Hload) in *.
  destruct (generate_sections _ Hdone) as (-> & He & _).
  assert (Hin : forall s, In s (fst (Gen.bin_totals st b)) ->
                          In s (fst (Gen.observables st) ++ fst Gen.poi
                                  ++ fst (Gen.nuisance_block st)
                                  ++ fst (Gen.expected st) ++ fst (Gen.poissons st)
                                  ++ fst (Gen.aggregate (Gen.prefix_of st) (bins st))
                                  ++ fst (Gen.fold_nuisances st))%list).
  { intros s Hs. do 3 (apply in_or_app; right). apply in_or_app; left.
    unfold Gen.expected in *.
    apply andThen_None in He as (_ & He & ->). apply in_or_app; right.
    destruct (for_each_completed _ _ He) as [-> Hall].
    apply in_flat_map. exists b. split; [now apply range_In |].
    assert (Hx : snd (for_each (Py.range (processes st)) (Gen.process_yield st b)
                        >> Gen.bin_totals st b) = None)
      by (apply Hall; now apply range_In).
    apply andThen_None in Hx as (_ & _ & ->). apply in_or_app; now right. }
  assert (Htl : tl names = map (Gen.n_exp_bin_proc b) (Py.range2 1 (processes st)))
    by (unfold names; now rewrite range_tl, map_tl).
  split; [| split].
  - apply Hin. left. reflexivity.
  - apply Hin. right. left. rewrite Htl. reflexivity.
  - intros Hp. apply Hin. right. left.
    unfold Gen.bin_totals. rewrite (range2_nil 1 (processes st)) by lia. reflexivity.
Qed.

Lemma X17_bin_totals_witness :
  In "n_exp_bin0_bonly = expr('  ',   );" (fst (run no_options card_rate_only)).
Proof.
  refine (proj2 (proj2 (X17_bin_totals no_options card_rate_only
                          (set_exp initial [[flt "7"]]) 0 _ _ _)) _).
  - vm_compute. reflexivity.
  - vm_compute. reflexivity.
  - cbn. lia.
  - cbn. lia.
Defined.

(** ** The [rate] row *)

Lemma of_string_error (s : string) (e : exn) :
  PyFloat.of_string s = inl e -> e = ValueError.
Proof.
  unfold PyFloat.of_string. destruct (PyFloat.split_sign s) as [neg body].
  destruct (_ || _)%bool; [discriminate |].
  destruct (_ =? _)%string; [discriminate |].
  destruct (PyFloat.parse_decimal body) as [[d x] |]; [discriminate |].
  now intros [= <-].
Qed.

(** X18: what the first loop makes of a [rate] row.  With fewer than
    [bins * processes] fields after the keyword it raises the
    [RuntimeError] on the count.  With as many or more, and counts that
    are not negative, it takes the row when the first
    [bins * processes] of these fields are numbers and raises the
    [ValueError] of [float] when one of them is not; it raises nothing
    else.  The count of line 34 is the right one: unlike a row of the
    systematics table, a [rate] row never ends on an [IndexError]. *)
Theorem X18_rate_row (st : model) (vals : list string) :
  (Py.len vals < bins st * processes st ->
   Parser.header_line st ("rate" :: vals)
   = inl (RuntimeError (Parser.shape_msg "Malformed rate line: "
                          (Py.len vals) (bins st) (processes st))))
  /\ (bins st * processes st <= Py.len vals ->
      (forall e, Parser.header_line st ("rate" :: vals) = inl e -> e = ValueError)
      /\ (0 <= bins st -> 0 <= processes st ->
          (Forall (fun s => exists v, PyFloat.of_string s = inr v)
                  (firstn (Z.to_nat (bins st * processes st)) vals) ->
           exists rows, Parser.header_line st ("rate" :: vals)
                        = inr (set_exp st (exp st ++ rows)%list, true))
          /\ (~ Forall (fun s => exists v, PyFloat.of_string s = inr v)
                       (firstn (Z.to_nat (bins st * processes st)) vals) ->
              Parser.header_line st ("rate" :: vals) = inl ValueError))).
Proof.
  rewrite header_line_rate. split.
  - intros H. now destruct (Z.ltb_spec (Py.len vals) (bins st * processes st)); [| lia].
  - intros H. destruct (Z.ltb_spec (Py.len vals) (bins st * processes st)); [lia |].
    assert (Hcell : forall i j, In i (Py.range (bins st)) -> In j (Py.range (processes st)) ->
                      exists s, Py.getitem ("rate" :: vals) (1 + (i * processes st + j))
                                = inr s
                                /\ In s (firstn (Z.to_nat (bins st * processes st)) vals)).
    { intros i j Hi Hj. apply range_In in Hi. apply range_In in Hj.
      pose proof (cell_index_bound _ _ _ _ Hi Hj) as Hk.
      destruct (nth_error vals (Z.to_nat (i * processes st + j))) as [s |] eqn:E;
        [| apply nth_error_None in E; unfold Py.len in H; lia].
      exists s. split.
      - apply getitem_nth; [lia |].
        replace (Z.to_nat (1 + (i * processes st + j)))
          with (S (Z.to_nat (i * processes st + j))) by lia.
        exact E.
      - apply (nth_error_In _ (Z.to_nat (i * processes st + j))).
        rewrite nth_error_firstn.
        destruct (Nat.ltb_spec (Z.to_nat (i * processes st + j))
                    (Z.to_nat (bins st * processes st))); [exact E | lia]. }
    assert (Herr : forall e,
               (rows <- Parser.read_rows ("rate" :: vals) 1 (bins st) (processes st) ;;
                ret (set_exp st (exp st ++ rows)%list, true)) = inl e ->
               e = ValueError).
    { intros e He.
      destruct (Parser.read_rows _ _ _ _) as [e' | rows] eqn:Er; [| discriminate].
      cbn [bind] in He. injection He as <-.
      unfold Parser.read_rows in Er.
      apply mapM_inl in Er as (i & Hi & Er). apply mapM_inl in Er as (j & Hj & Er).
      destruct (Hcell i j Hi Hj) as (s & Hs & _). rewrite Hs in Er. cbn [bind] in Er.
      exact (of_string_error _ _ Er). }
    split; [exact Herr |]. intros Hb Hp. split.
    + intros Hnum. rewrite Forall_forall in Hnum.
      destruct (mapM_total
                  (fun b => mapM (fun p => s <- Py.getitem ("rate" :: vals)
                                                (1 + (b * processes st + p)) ;;
                                           PyFloat.of_string s)
                                 (Py.range (processes st)))
                  (Py.range (bins st))) as [rows Hrows].
      { intros i Hi. apply mapM_total. intros j Hj.
        destruct (Hcell i j Hi Hj) as (s & -> & Hs). cbn [bind]. exact (Hnum s Hs). }
      exists rows. unfold Parser.read_rows. now rewrite Hrows.
    + intros Hnot.
      destruct (Parser.read_rows ("rate" :: vals) 1 (bins st) (processes st))
        as [e | rows] eqn:Er.
      * cbn [bind]. f_equal. apply Herr. reflexivity.
      * exfalso. apply Hnot. apply Forall_forall. intros s Hs.
        apply In_nth_error in Hs as [k Hk]. rewrite nth_error_firstn in Hk.
        destruct (Nat.ltb_spec k (Z.to_nat (bins st * processes st))) as [Hlt |];
          [| discriminate].
        assert (Hpp : 0 < processes st) by nia.
        pose proof (Z.div_mod (Z.of_nat k) (processes st) ltac:(lia)) as Hdm.
        pose proof (Z.mod_pos_bound (Z.of_nat k) (processes st) Hpp) as Hj.
        assert (Hi : 0 <= Z.of_nat k / processes st < bins st).
        { split; [apply Z.div_pos; lia |].
          apply Z.div_lt_upper_bound; [exact Hpp |]. lia. }
        destruct (read_rows_cell _ _ _ _ _ _ _ Er Hi Hj) as (s' & v & Hs' & Hv & _).
        apply getitem_inr in Hs'; [| lia].
        replace (Z.to_nat (1 + (Z.of_nat k / processes st * processes st
                                + Z.of_nat k mod processes st)))
          with (S k) in Hs' by lia.
        cbn [nth_error] in Hs'. rewrite Hk in Hs'. injection Hs' as ->.
        now exists v.
Qed.

Lemma X18_rate_row_witness :
  (exists rows,
     Parser.header_line (set_processes initial 2) ["rate"; "10"; "5"; "signal"]
     = inr (set_exp (set_processes initial 2) rows, true))
  /\ Parser.header_line (set_processes initial 2) ["rate"; "10"; "signal"]
     = inl ValueError.
Proof.
  split.
  - refine (proj1 (proj2 (proj2 (X18_rate_row (set_processes initial 2)
                                   ["10"; "5"; "signal"]) _) _ _) _).
    + cbn. lia.
    + cbn. lia.
    + cbn. lia.
    + repeat constructor; eexists; vm_compute; reflexivity.
  - refine (proj2 (proj2 (proj2 (X18_rate_row (set_processes initial 2)
                                   ["10"; "signal"]) _) _ _) _).
    + cbn. lia.
    + cbn. lia.
    + cbn. lia.
    + intros H. cbn in H. inversion H as [| ? ? _ H2]. inversion H2 as [| ? ? [v Hv] _].
      vm_compute in Hv. discriminate Hv.
Defined.

(** * The Asimov observations *)

(** ** Sums of whole numbers in double precision *)

Lemma digits2_size (p : positive) : digits2_pos p = Pos.size p.
Proof. induction p as [p IH | p IH |]; cbn; now rewrite ?IH. Qed.

Lemma digits2_log2 (p : positive) : Zpos (digits2_pos p) = Z.log2 (Zpos p) + 1.
Proof.
  rewrite digits2_size. destruct p as [p | p |]; cbn; try reflexivity.
  - now rewrite Pos.add_1_r.
  - now rewrite Pos.add_1_r.
Qed.

Lemma iter_pos_nat {A} (f : A -> A) (n : positive) (x : A) :
  iter_pos f n x = Nat.iter (Pos.to_nat n) f x.
Proof.
  revert x. induction n as [n IH | n IH |]; intros x; cbn [iter_pos].
  - rewrite !IH, Pos2Nat.inj_xI, <- Nat.iter_add.
    replace (S (2 * Pos.to_nat n)) with (Pos.to_nat n + Pos.to_nat n + 1)%nat by lia.
    now rewrite (Nat.iter_add (Pos.to_nat n + Pos.to_nat n) 1).
  - rewrite !IH, Pos2Nat.inj_xO, <- Nat.iter_add. f_equal. lia.
  - reflexivity.
Qed.

(** Shifting out [k] zero bits is exact. *)
Lemma shr_exact (k : nat) (c : positive) :
  Nat.iter k shr_1 {| shr_m := Zpos c * 2 ^ Z.of_nat k; shr_r := false; shr_s := false |}
  = {| shr_m := Zpos c; shr_r := false; shr_s := false |}.
Proof.
  revert c. induction k as [| k IH]; intros c.
  - cbn [Nat.iter]. now rewrite Z.mul_1_r.
  - rewrite Nat.iter_succ.
    replace (Zpos c * 2 ^ Z.of_nat (S k)) with (Zpos (xO c) * 2 ^ Z.of_nat k).
    + rewrite IH. reflexivity.
    + rewrite Nat2Z.inj_succ, Z.pow_succ_r by lia. lia.
Qed.

Lemma iter_xO (m d : positive) : Zpos (Pos.iter xO m d) = Zpos m * 2 ^ Zpos d.
Proof.
  induction d as [| d IH] using Pos.peano_ind.
  - cbn. lia.
  - rewrite Pos.iter_succ, Pos2Z.inj_succ, Z.pow_succ_r by lia.
    rewrite Pos2Z.inj_xO, IH. lia.
Qed.

Lemma shl_align_value (m : positive) (e e' : Z) :
  e' <= e -> Zpos (fst (shl_align m e e')) = Zpos m * 2 ^ (e - e').
Proof.
  intros H. unfold shl_align. destruct (e' - e) as [| d | d] eqn:E; cbn [fst].
  - replace (e - e') with 0 by lia. lia.
  - lia.
  - rewrite iter_xO. f_equal. f_equal. lia.
Qed.

(** The second shift of the rounding does nothing to a mantissa of 53
    bits. *)
Lemma shr_fexp_canonical (m : positive) (e : Z) :
  2 ^ 52 <= Zpos m < 2 ^ 53 -> -1074 <= e ->
  shr_fexp 53 1024 (Zpos m) e loc_Exact
  = ({| shr_m := Zpos m; shr_r := false; shr_s := false |}, e).
Proof.
  intros Hm He. unfold shr_fexp. cbn [Zdigits2 shr_record_of_loc].
  rewrite digits2_log2.
  assert (Hl : Z.log2 (Zpos m) = 52).
  { apply Z.log2_unique; [lia |]. change (2 ^ (52 + 1)) with (2 ^ 53). lia. }
  rewrite Hl. unfold fexp, emin.
  replace (Z.max (52 + 1 + e - 53) (3 - 1024 - 53) - e) with 0 by lia.
  reflexivity.
Qed.

(** A sum of aligned mantissas that is worth a whole number [c] is
    rounded to [c]. *)
Lemma binary_round_exact (c : Z) (M : positive) (ez : Z) :
  0 < c < 2 ^ 53 -> ez <= Z.log2 c - 52 -> Zpos M = c * 2 ^ (- ez) ->
  binary_round 53 1024 false M ez
  = S754_finite false (Z.to_pos (c * 2 ^ (52 - Z.log2 c))) (Z.log2 c - 52).
Proof.
  intros Hc He HM.
  assert (Hl : 0 <= Z.log2 c < 53).
  { split; [apply Z.log2_nonneg |]. apply Z.log2_lt_pow2; lia. }
  assert (Hm : 2 ^ 52 <= c * 2 ^ (52 - Z.log2 c) < 2 ^ 53).
  { pose proof (Z.log2_spec c (proj1 Hc)) as Hspec.
    replace (2 ^ 52) with (2 ^ Z.log2 c * 2 ^ (52 - Z.log2 c))
      by (rewrite <- Z.pow_add_r by lia; f_equal; lia).
    replace (2 ^ 53) with (2 ^ Z.succ (Z.log2 c) * 2 ^ (52 - Z.log2 c))
      by (rewrite <- Z.pow_add_r by lia; f_equal; lia).
    assert (0 < 2 ^ (52 - Z.log2 c)) by (apply Z.pow_pos_nonneg; lia).
    nia. }
  destruct (c * 2 ^ (52 - Z.log2 c)) as [| m1 | m1] eqn:Em1; try lia.
  assert (Hd : Zpos (digits2_pos M) = Z.log2 c - ez + 1).
  { rewrite digits2_log2, HM, Z.log2_mul_pow2 by lia. lia. }
  assert (Hf : fexp 53 1024 (Zpos (digits2_pos M) + ez) = Z.log2 c - 52).
  { rewrite Hd. unfold fexp, emin. lia. }
  assert (Hsplit : Zpos M = Zpos m1 * 2 ^ (Z.log2 c - 52 - ez)).
  { rewrite HM, <- Em1, <- Z.mul_assoc, <- Z.pow_add_r by lia. f_equal. f_equal. lia. }
  assert (Hshl : shl_align M ez (Z.log2 c - 52) = (M, ez)).
  { unfold shl_align. destruct (Z.log2 c - 52 - ez) eqn:E; try reflexivity. lia. }
  assert (Hshr : shr_fexp 53 1024 (Zpos M) ez loc_Exact
                 = ({| shr_m := Zpos m1; shr_r := false; shr_s := false |},
                    Z.log2 c - 52)).
  { unfold shr_fexp. cbn [Zdigits2 shr_record_of_loc]. rewrite Hf. unfold shr.
    destruct (Z.log2 c - 52 - ez) as [| n | n] eqn:E; try lia.
    - rewrite Z.mul_1_r in Hsplit. injection Hsplit as ->. f_equal. lia.
    - rewrite iter_pos_nat, Hsplit, <- (positive_nat_Z n), shr_exact.
      f_equal. rewrite positive_nat_Z. lia. }
  unfold binary_round. rewrite Hf, Hshl. unfold binary_round_aux.
  rewrite Hshr. cbn [shr_m loc_of_shr_record round_nearest_even].
  rewrite shr_fexp_canonical by lia. cbn [shr_m Z.to_pos].
  destruct (Z.leb_spec (Z.log2 c - 52) (1024 - 53)); [reflexivity | lia].
Qed.

(** Whole numbers add up without rounding as long as the sum is below
    2^53. *)
Lemma add_whole (a b : Z) :
  0 <= a -> 0 <= b -> a + b < 2 ^ 53 ->
  PyFloat.add (PyFloat.round_ratio false a 1) (PyFloat.round_ratio false b 1)
  = PyFloat.round_ratio false (a + b) 1.
Proof.
  intros Ha Hb Hab.
  destruct (Z.eq_dec a 0) as [-> | Ha0].
  { destruct (Z.eq_dec b 0) as [-> | Hb0]; [reflexivity |].
    rewrite Z.add_0_l, (round_ratio_integer b) by lia. reflexivity. }
  destruct (Z.eq_dec b 0) as [-> | Hb0].
  { rewrite Z.add_0_r, (round_ratio_integer a) by lia. reflexivity. }
  rewrite (round_ratio_integer a), (round_ratio_integer b),
    (round_ratio_integer (a + b)) by lia.
  assert (Hla : 0 <= Z.log2 a < 53)
    by (split; [apply Z.log2_nonneg | apply Z.log2_lt_pow2; lia]).
  assert (Hlb : 0 <= Z.log2 b < 53)
    by (split; [apply Z.log2_nonneg | apply Z.log2_lt_pow2; lia]).
  assert (Hpa : 0 < a * 2 ^ (52 - Z.log2 a))
    by (apply Z.mul_pos_pos; [lia | apply Z.pow_pos_nonneg; lia]).
  assert (Hpb : 0 < b * 2 ^ (52 - Z.log2 b))
    by (apply Z.mul_pos_pos; [lia | apply Z.pow_pos_nonneg; lia]).
  unfold PyFloat.add, SFadd, PyFloat.prec, PyFloat.emax.
  set (ez := Z.min (Z.log2 a - 52) (Z.log2 b - 52)).
  assert (Hva : Zpos (fst (shl_align (Z.to_pos (a * 2 ^ (52 - Z.log2 a)))
                             (Z.log2 a - 52) ez)) = a * 2 ^ (- ez)).
  { rewrite shl_align_value by (unfold ez; lia). rewrite Z2Pos.id by lia.
    rewrite <- Z.mul_assoc, <- Z.pow_add_r by (unfold ez; lia).
    f_equal. f_equal. lia. }
  assert (Hvb : Zpos (fst (shl_align (Z.to_pos (b * 2 ^ (52 - Z.log2 b)))
                             (Z.log2 b - 52) ez)) = b * 2 ^ (- ez)).
  { rewrite shl_align_value by (unfold ez; lia). rewrite Z2Pos.id by lia.
    rewrite <- Z.mul_assoc, <- Z.pow_add_r by (unfold ez; lia).
    f_equal. f_equal. lia. }
  cbn [cond_Zopp]. rewrite Hva, Hvb.
  assert (Hp : 0 < 2 ^ (- ez)) by (apply Z.pow_pos_nonneg; unfold ez; lia).
  destruct (a * 2 ^ (- ez) + b * 2 ^ (- ez)) as [| M | M] eqn:EM; try nia.
  cbn [binary_normalize]. apply binary_round_exact; [lia | | lia].
  assert (Z.log2 a <= Z.log2 (a + b)) by (apply Z.log2_le_mono; lia).
  unfold ez. lia.
Qed.

Lemma of_int_whole (c : Z) :
  0 <= c < 2 ^ 53 -> PyFloat.of_int c = inr (PyFloat.round_ratio false c 1).
Proof.
  intros Hc. unfold PyFloat.of_int.
  destruct (Z.ltb_spec c 0); [lia |]. rewrite Z.abs_eq by lia.
  destruct (Z.eq_dec c 0) as [-> | Hc0]; [reflexivity |].
  now rewrite round_ratio_integer by lia.
Qed.

(** [sum] of the floats of whole numbers, from the float of [acc] on. *)
Lemma sum_whole (cs : list Z) (acc : Z) :
  0 <= acc -> Forall (fun c => 0 <= c) cs -> acc + fold_right Z.add 0 cs < 2 ^ 53 ->
  fold_left PyFloat.add (map (fun c => PyFloat.round_ratio false c 1) cs)
    (PyFloat.round_ratio false acc 1)
  = PyFloat.round_ratio false (acc + fold_right Z.add 0 cs) 1.
Proof.
  intros Hacc Hcs. revert acc Hacc.
  induction Hcs as [| c cs Hc Hcs IH]; intros acc Hacc Hsum; cbn [map fold_left fold_right] in *.
  - now rewrite Z.add_0_r.
  - assert (Hrest : 0 <= fold_right Z.add 0 cs).
    { clear - Hcs. induction Hcs; cbn; lia. }
    rewrite add_whole by lia. rewrite IH by lia. f_equal. lia.
Qed.

(** [%f] of a whole number. *)
Lemma format_f_whole (c : Z) :
  0 <= c < 2 ^ 53 ->
  PyFloat.format_f (PyFloat.round_ratio false c 1) = Py.str c ++ ".000000".
Proof.
  intros Hc. destruct (Z.eq_dec c 0) as [-> | Hc0]; [reflexivity |].
  rewrite round_ratio_integer by lia.
  assert (Hl : 0 <= Z.log2 c < 53)
    by (split; [apply Z.log2_nonneg | apply Z.log2_lt_pow2; lia]).
  assert (Hp : 0 < 2 ^ (52 - Z.log2 c)) by (apply Z.pow_pos_nonneg; lia).
  unfold PyFloat.format_f, PyFloat.ratio_of.
  rewrite Z2Pos.id by nia.
  rewrite (Z.max_l 0 (Z.log2 c - 52)) by lia.
  rewrite (Z.max_r 0 (- (Z.log2 c - 52))) by lia.
  replace (- (Z.log2 c - 52)) with (52 - Z.log2 c) by lia.
  rewrite Z.pow_0_r, Z.mul_1_r.
  assert (H50 : 2 ^ 53 < 10 ^ 50) by reflexivity.
  destruct (Z.leb_spec (2 ^ (52 - Z.log2 c) * 10 ^ 50) (c * 2 ^ (52 - Z.log2 c)));
    [nia |].
  replace (c * 2 ^ (52 - Z.log2 c) * 10 ^ 6)
    with ((c * 10 ^ 6) * 2 ^ (52 - Z.log2 c)) by lia.
  rewrite div_rne_exact by lia.
  rewrite Z.div_mul, Z.mod_mul by discriminate.
  reflexivity.
Qed.

(** ** The observations of an Asimov run *)

Lemma whole_row (xs : list PyFloat.float) (cs : list Z) :
  Forall2 (fun x c => 0 <= c /\ PyFloat.of_int c = inr x) xs cs ->
  fold_right Z.add 0 cs < 2 ^ 53 ->
  xs = map (fun c => PyFloat.round_ratio false c 1) cs
  /\ Forall (fun c => 0 <= c) cs.
Proof.
  induction 1 as [| x c xs cs [Hc Hx] _ IH]; intros Hsum; cbn [map fold_right] in *.
  - split; constructor.
  - assert (Hnonneg : forall l, Forall (fun c => 0 <= c) l -> 0 <= fold_right Z.add 0 l).
    { induction 1; cbn; lia. }
    assert (Hdec : fold_right Z.add 0 cs < 2 ^ 53 \/ 2 ^ 53 <= fold_right Z.add 0 cs)
      by lia.
    destruct Hdec as [Hlt | Hge]; [| lia].
    destruct (IH Hlt) as [-> Hall]. pose proof (Hnonneg _ Hall).
    rewrite of_int_whole in Hx by lia. injection Hx as <-.
    split; [reflexivity | now constructor].
Qed.

(** C2, as stated, fails: in Asimov mode a datacard of two bins without
    a [rate] row is loaded with no expected yields and so with no
    observations, and the script prints [n_obs_bin0] and [n_obs_bin1] as
    free ranges, with no initial value, before it stops at the first
    yield. *)
Lemma C2_asimov_without_rate_row :
  Parser.load asimov_only card_no_rate_row
  = inr {| bins := 2; processes := 2; nuisances := 0; obs := []; exp := [];
           systs := [] |}
  /\ firstn 4 (fst (run asimov_only card_no_rate_row))
     = ["/// ----- observables -----"; "n_obs_bin0[0,10000];"; "n_obs_bin1[0,10000];";
        "observables = set( n_obs_bin0,n_obs_bin1 );"]
  /\ snd (run asimov_only card_no_rate_row) = Some IndexError.
Proof. repeat split; vm_compute; reflexivity. Qed.

(** C2, amended: in Asimov mode, for a datacard with a [rate] row, the
    observations are replaced, bin by bin, by the sum of the expected
    yields of processes 1 to the end, added in double precision from 0
    in the order of the row; every bin [b] has its row of yields, and
    the script prints [n_obs_bin<b>] with that sum as its initial value
    in the range [0, 10000].  When the yields summed are whole numbers
    with a total below 2^53 the sum is exact, and the value printed is
    the total with six zero decimals.  Yields 5 and 8 give 13.000000,
    yields 0.1 and 0.2 give 0.300000.  (The declaration of bin [b] is
    the statement after the heading and the declarations of the bins
    before it.) *)
Theorem C2_asimov_observation (o : options) (lines : list string) (st : model) (b : Z) :
  asimov o = true ->
  Parser.load o lines = inr st ->
  exp st <> [] ->
  0 <= b < bins st ->
  obs st = map (fun r => fold_left PyFloat.add (tl r) PyFloat.zero) (exp st)
  /\ (exists row,
        nth_error (exp st) (Z.to_nat b) = Some row
        /\ nth_error (obs st) (Z.to_nat b)
           = Some (fold_left PyFloat.add (tl row) PyFloat.zero)
        /\ nth_error (fst (run o lines)) (S (Z.to_nat b))
           = Some ("n_obs_bin" ++ Py.str b ++ "["
                     ++ PyFloat.format_f (fold_left PyFloat.add (tl row) PyFloat.zero)
                     ++ ",0,10000];")
        /\ forall cs,
             Forall2 (fun x c => 0 <= c /\ PyFloat.of_int c = inr x) (tl row) cs ->
             fold_right Z.add 0 cs < 2 ^ 53 ->
             PyFloat.of_int (fold_right Z.add 0 cs)
             = inr (fold_left PyFloat.add (tl row) PyFloat.zero)
             /\ nth_error (fst (run o lines)) (S (Z.to_nat b))
                = Some ("n_obs_bin" ++ Py.str b ++ "["
                          ++ Py.str (fold_right Z.add 0 cs) ++ ".000000,0,10000];"))
  /\ firstn 4 (fst (run asimov_only card_three_processes))
     = ["/// ----- observables (already set to asimov values) -----";
        "n_obs_bin0[13.000000,0,10000];"; "n_obs_bin1[0.300000,0,10000];";
        "observables = set( n_obs_bin0,n_obs_bin1 );"].
Proof.
  intros Ha Hload Hexp Hb.
  destruct (load_shape _ _ _ Hload) as ([He | [Hlen _]] & _); [contradiction |].
  destruct (nth_error (exp st) (Z.to_nat b)) as [row |] eqn:Hrow;
    [| apply nth_error_None in Hrow; lia].
  destruct (load_inr _ _ _ Hload) as (st0 & _ & Hst & _).
  destruct (asimov_obs o (Parser.apply_stat o st0) Ha) as [Hobs Hexp0].
  rewrite <- Hst in Hobs, Hexp0. rewrite <- Hexp0 in Hobs.
  unfold PyFloat.sum in Hobs.
  assert (Hv : nth_error (obs st) (Z.to_nat b)
               = Some (fold_left PyFloat.add (tl row) PyFloat.zero))
    by (rewrite Hobs, nth_error_map, Hrow; reflexivity).
  assert (Hline : nth_error (fst (run o lines)) (S (Z.to_nat b))
                  = Some ("n_obs_bin" ++ Py.str b ++ "["
                            ++ PyFloat.format_f
                                 (fold_left PyFloat.add (tl row) PyFloat.zero)
                            ++ ",0,10000];")).
  { rewrite (run_loaded _ _ _ Hload). unfold Gen.generate.
    apply nth_error_andThen. now apply observables_line. }
  split; [exact Hobs |]. split; [| vm_compute; reflexivity].
  exists row. split; [reflexivity |]. split; [exact Hv |]. split; [exact Hline |].
  intros cs Hcs Hsum.
  destruct (whole_row _ _ Hcs Hsum) as [Hrow' Hall].
  assert (Hnonneg : 0 <= fold_right Z.add 0 cs).
  { clear - Hall. induction Hall; cbn; lia. }
  assert (Hfold : fold_left PyFloat.add (tl row) PyFloat.zero
                  = PyFloat.round_ratio false (fold_right Z.add 0 cs) 1).
  { rewrite Hrow'.
    change PyFloat.zero with (PyFloat.round_ratio false 0 1).
    now rewrite sum_whole by (auto; lia). }
  split.
  - rewrite Hfold. apply of_int_whole. lia.
  - rewrite Hline, Hfold, format_f_whole by lia. now rewrite append_assoc.
Qed.

Lemma C2_asimov_observation_witness :
  nth_error (fst (run asimov_only card_three_processes)) 1
  = Some "n_obs_bin0[13.000000,0,10000];".
Proof.
  destruct (C2_asimov_observation asimov_only card_three_processes
              {| bins := 2; processes := 3; nuisances := 0;
                 obs := [flt "13"; S754_finite false 5404319552844596 (-54)];
                 exp := [[flt "10"; flt "5"; flt "8"];
                         [flt "1.5"; flt "0.1"; flt "0.2"]];
                 systs := [] |} 0)
    as (_ & (row & Hrow & _ & _ & Hwhole) & _).
  - reflexivity.
  - vm_compute. reflexivity.
  - discriminate.
  - cbn. lia.
  - cbn in Hrow. injection Hrow as <-.
    destruct (Hwhole [5; 8]) as [_ H].
    + repeat constructor; vm_compute; congruence.
    + reflexivity.
    + exact H.
Defined.
